(* ===== verification/_CoqProject ===== *)
-Q . S2P
Prelude.v
Types.v
Constants.v
Stats.v
Session.v
Placement.v
Economy.v
LevelGen.v
Combat.v
Progression.v
Panels.v
Grid.v
Gesture.v
Health.v
Screens.v
