(* ===== verification/Prelude.v ===== *)
(** * A verification library for the plpg auto-battler (Art of War clone)

    The program (src/) is a React/TypeScript merge-and-fight game.  Its
    game logic lives in three places:
    - src/services/gameLogic.ts: the stat model ([getUnitStats]), entity
      construction ([createEntity]), distances ([getDistance]) and
      targeting ([findNearestTarget]);
    - src/App.tsx: the session state (React [useState] hooks), the
      placement/merge resolver ([handleMouseDown], [finishDrag]), the
      combat tick ([battleTick]), the economy handlers ([handleBuyUnit],
      [handleSynthesize], [applyTechUpgrade], [applyGlobalUpgrade],
      [handleBuyArtifact], [handleSellUnit], [claimAchievement],
      [claimSupply], the supply timer), the progression handlers
      ([loadLevel], [resetRunData], [startGame], [nextLevel],
      [retryLevel], [handleModeReset], [handleFullReset]) and the
      [localStorage] effect of the unlocked difficulty;
    - src/services/geminiService.ts: the procedural level generator
      ([generateLevel]);
    with the data of src/types.ts and src/constants.ts.  The parts
    interact through the session: the economy and the placement resolver
    change it in the preparation phase, the fight button hands it to the
    combat tick, whose outcome leads [nextLevel] / [retryLevel] to a
    [loadLevel] that calls the generator and installs the next roster.

    ** Library layout (in dependency order, see _CoqProject)
    - [Prelude] (this file): shared notation ([plpg_scope]), the Ltac
      tactics ([qbool], [case_q]) and the [plpg] hint databases, generic
      lemmas on rationals, total-function updates (the [{...prev, [k]: v}]
      idiom, [fupd]), lists ([findIndexB] for [findIndex]/[find]), and the
      [MathSqrt] interface standing for [Math.sqrt].
    - [Types]: the enums and the [Entity] record of src/types.ts, with
      decidable equality instances and the field updates the code writes
      as object spreads.
    - [Constants]: src/constants.ts (base stats, growth multipliers,
      costs, research and difficulty tables, recipes, achievements, grid
      size).
    - [Stats]: src/services/gameLogic.ts.  Section [StatModel]:
      [getUnitStats] and [createEntity]; Section [Targeting]:
      [getDistance] and [findNearestTarget] with its abstract
      specification [nearest_spec] and the refinement theorem.
    - [Session]: the React state of [App] as the record [GameState], its
      setters, and the helpers [getPlayerTechLevel], [getGoldMultiplier],
      [maxUnitCap].
    - [Placement]: [handleMouseDown] and [finishDrag] (tap, off-grid and
      enemy-half guards) and the [setEntities] updater that merges, swaps
      or moves, with the roster invariant [prep_inv].
    - [Economy]: every coin handler, the economy invariant [econ_inv] and
      the step relation [prep_step] of the preparation phase (every
      handler and every placement gesture), and the gacha read as the
      cumulative tables of the spec's design note.
    - [LevelGen]: [generateLevel] in a reader-state monad [RandM] over a
      stream of [Math.random()] draws, with the 20-attempt cell search.
    - [Combat]: [battleTick]: the death sweep, the per-entity update on a
      shared, aliased array (the [forEach] loop mutates the objects of
      [activeEntities] in place, so later entities see earlier damage and
      movement), the separation loop, the phase transition and loot.
    - [Progression]: the component around the session ([App]: loading
      flag, unlock banner, the stored key, the pending [loadLevel] calls),
      the progression handlers, the [localStorage] effect, and the event
      relation [app_step] of the whole component.
    - [Panels]: the buttons of the App render tree (shop, artifact,
      altar, achievement and research modals, the sell button, the
      supply gift): when each is rendered, its [disabled] attribute, the
      coin figure it shows and the handler its [onClick] calls.
    - [Grid]: the tiles of [renderTiles] with their [data-grid-x/y]
      attributes and highlight class, the hit test
      [getGridFromClientPos] with a model of [parseInt], and the
      [hoveredGrid] object written by [moveDrag] (JavaScript objects as
      key lists, so a missing key reads [undefined]).
    - [Gesture]: the drag plumbing of App.tsx: the press handlers
      ([handleMouseDown], [handleTouchStart]) with [startDrag], the
      document listeners they register, [moveDrag], the release handlers
      that remove their pair and call [finishDrag], and the effect that
      copies [draggingId] into [draggingIdRef]; the event relation
      [gesture_step] over the session with this drag state, the
      [entitiesRef] the battle frames read, and the frames themselves.
    - [Health]: the health bar of src/components/Unit.tsx ([hpPercent],
      [hpBarWidth]) and the invariant [health_inv] (positive maximum, hp
      at most the maximum, level at least 1, for the roster and the
      pending loads) over every event of [app_step].
    - [Screens]: the screens outside the modals (difficulty, game
      clear, the victory and defeat overlay), the bottom bar (fight
      button, store count, cap indicator, research badge [hasUpgradable]),
      the unit layer and the drag preview; [screenClick] is the handler
      of each button, the same transition as the matching event of
      [Progression.app_step].

    ** How state and operations correspond to the code
    Every [useState] hook that the logic reads or writes is a field of
    [Session.GameState]; a handler is a function [GameState -> GameState]
    (the [setX(prev => ...)] updaters are applied in program order, which
    is what React does with batched functional updates of one event).
    [entities] and [entitiesRef.current] are one field of [GameState].
    The code writes both in [loadLevel] and [resetRunData] (lines 228,
    277), the battle tick reads and writes the ref (lines 557, 663), and
    an effect copies the state into the ref only in the preparation
    phase (lines 188-192).  They differ only after a [setEntities]
    outside the preparation phase, which a drag held across the fight
    button performs; [Gesture] keeps the ref as a field of its own and
    shows that the next frame undoes such a merge.  Randomness
    ([Math.random] for ids, artifact draws, gacha, level layout) is an
    explicit argument, or a stream read by [LevelGen.RandM].  Arrays are
    Rocq lists indexed with stdpp's [!!], [<[i:=x]>], [alter] and
    [delete] ([splice(i,1)]).  The asynchronous [loadLevel] is split at
    its [await]: [Progression.loadLevel_start] records the call in the
    pending list and [Progression.loadLevel_finish] completes one pending
    call; [Progression.app_step] lets any event run in between, which is
    how the interleavings of the real component are explored.  Both step
    relations over-approximate the program and are reflexive where the
    program has an event that changes nothing: [prep_step] through a
    supply-timer tick before the next supply is due, [app_step] in the
    main screens through a cancelled reset confirmation.  So a statement
    of the form "[prep_step s s']" says nothing about [s']; the theorems
    use the relations only for reachability (invariants over every
    reachable state) and state the effect of an event as an equation.
    [ev_loaded] accepts any ids for the new enemies, where the code draws
    random 9-character strings, and [app_step] ignores which overlay is
    on top (the loading overlay and the victory overlay are both at z-50).

    ** Numbers, bounds and fuel
    JavaScript numbers are doubles.  Quantities that the code keeps
    integral (levels, hit points, damage: both are [Math.floor]ed, coins,
    counters, grid cells) are [Z].  Fractional quantities (positions,
    speeds, ranges, timestamps, multipliers, probabilities, draws) are
    exact rationals [Q]: the model is the exact-arithmetic reading of the
    code, and rounding of doubles (e.g. [0.1 + 0.2]) is not modelled.
    [Math.floor] is [Qfloor], [Math.ceil] is [Qceiling], [x.toFixed(2)]
    is [toFixed2] (round half away from zero at two decimals).
    [Math.sqrt] is the interface [MathSqrt]: theorems that need a
    property of the square root take it from [MathSqrtLaws]; executable
    witnesses use the instance [Qsqrt_approx].  The only loop that is not
    structural is the do-while of the level generator; it is a
    [Fixpoint] with a budget of 19 further passes, and
    [LevelGen.placeAttempts_budget] proves that any larger budget gives
    the same result, so the budget never cuts the loop of the code.

    ** Theorems, by group
    - Stat model: level monotonicity of hp and damage; the exact tech
      step of the unfloored hp; positivity of attack and move speed (so
      the cooldown [1000 / attackSpeed] is finite); bounds of the
      floored recurrence and the counterexample to the spec's exact
      recurrence [hp(L+1) = floor(hp(L) * 1.8)].
    - Targeting: [findNearestTarget] refines [nearest_spec] (first
      living opponent at minimal distance) and returns [None] exactly
      when no living opponent exists.
    - Placement: the tap, off-grid and enemy-half guards never mutate;
      merge, swap and move behave as described on every branch; a whole
      gesture preserves [prep_inv].
    - Economy: every state reachable by [prep_step] keeps [econ_inv]
      (coins and prices non-negative, research within its maxima, a valid
      roster at full health, at most [maxUnitCap] player units); the
      purchase, artifact and sale handlers on every branch, refusals
      included; the gacha cascades equal the cumulative-table sampler,
      and every tier keeps a positive probability at every luck level.
    - Level generator: distinct enemy cells on the enemy half with the
      level's types and enemy level; between 1 and [enemyCount <= 16]
      enemies and at most 41 draws per pass; the budget lemma; and the
      example where a free cell found on the 20th attempt is dropped.
    - Combat: a frame of [battleTick] keeps the array's order and every
      entity's identity, never raises hp and marks the dead; [dead_ok] is
      invariant; with unique ids (the code draws random 9-character
      ids and the purchase step requires fresh ones) a dead entity
      neither acts nor is hit; the
      terminal outcomes (victory with loot, defeat, mutual defeat as
      defeat) happen exactly when the spec says.
    - Progression: in every state reachable from the first render the
      stored key reads back as the unlocked difficulty and the level lies
      within the difficulty's levels; only a full reset lowers the
      unlocked difficulty; [nextLevel] on both branches; a completed load
      installs a valid preparation roster (generator, stat model and
      placement invariant together); a won level always leads to the
      next one; a rejected load installs nothing; and the example where a
      load pending across a full reset revives the previous run.
    - Panels: a clickable button moves the coins by exactly the figure it
      shows; a [disabled] attribute only repeats the handler's guard; the
      altar's [canCraft] agrees with [handleSynthesize] (two distinct
      ingredients consumed, the result placed); the trophy badge is lit
      exactly when a claim button is shown.
    - Grid: [parseInt] inverts the decimal [String] of an integer, so a
      release on a rendered tile is read back as that tile's cell, a cell
      of the grid (the input the placement model takes); the hover
      highlight of the drop target is never drawn (a finding).
    - Gesture: from the idle component, any interleaving of mouse and
      touch events (several pointers at once) and fight clicks keeps the
      listeners in pairs and the ref equal to the state, and a held unit
      always has a listener left to release it; a mouse gesture leaves
      exactly the session of the [step_drag] step of [Economy.prep_step]
      on the cell the hit test reads; a unit held across the fight
      button is merged during the battle, on the React state only, and
      the next frame restores both units while the merge stays counted
      (a finding: the spec confines merges to the preparation phase).
    - Health: in every state reachable from the first render every unit
      has a positive maximum and a health bar between 0 and 100 percent
      (the well-formedness of the roster across all components).
    - Screens: a difficulty button does nothing on a locked difficulty
      and otherwise resets the run and queues a level-1 load of it,
      leaving the screen and the button in place until the load
      completes; in every reachable state the research badge only tests
      [coins >= 100], since the mythic types it also ranges over keep
      research level 1 (a finding); while a unit is dragged every unit
      is drawn exactly once.
.

    ** Not modelled
    The markup of the render tree and src/components/*.tsx (presentation
    only: the game state they read is modelled by [Panels] where it
    decides a button, by [Screens] for the screens, the bottom bar and
    the unit layer, and by [Health] for the health bar), the loading
    overlay, toasts,
    sounds, modal flags, the pixel position of the drag preview (only
    whether [dragPos] is set), [preventDefault], the DOM lookup
    [document.elementFromPoint(...).closest(...)] (the tile it finds is
    an argument of [Grid.getGridFromClientPos] and of the gesture
    events; [closest('[data-grid-x]')] can also find a unit's own div,
    src/components/Unit.tsx lines 61-62, whose attributes are the unit's
    grid cell: the cell of the tile under it in the preparation phase,
    where units sit on their cells, but not in a battle, where they move;
    the model takes the hit element to be a tile), the 300 ms delay of the generator, and the
    scheduling of [requestAnimationFrame] beyond "another frame is
    requested".  The battle frames run in [app_step] only in the BATTLE
    phase: the battle effect cancels the scheduled frame whenever the
    phase changes.  [handleModeReset]'s [setTimeout(..., 0)] callback is
    taken to run before the next user event.  The achievement and supply
    buttons, usable in every phase, are steps of the preparation phase
    only; they change coins and flags that the progression invariants do
    not read.  [Economy.prep_step] lets any achievement be claimed and the
    supply be claimed at any time, a superset of what [Panels.clickable]
    allows, so its invariant covers the real clicks.  The banner texts of
    the summons are static strings, recorded as a finding.  In [Gesture]
    the listeners are a multiset of their kinds: each press registers a
    pair of fresh closures and each release handler removes its own pair,
    which on counts is the removal of one listener of each kind; React
    renders (and runs the ref effect) after each event, which
    [Gesture.commit] applies; the tap branch of [finishDrag] selects from
    the entities of the current render. *)

From stdpp Require Export base list strings decidable.
From Stdlib Require Export QArith Qround Qpower Qminmax ZArith Lia Lqa.

Local Open Scope Q_scope.

Declare Scope plpg_scope.
Delimit Scope plpg_scope with plpg.

(** ** Total-function update: [{ ...prev, [k]: v }] on a [Record<K, V>] *)

Definition fupd {K V : Type} `{EqDecision K} (f : K -> V) (k : K) (v : V) : K -> V :=
  fun k' => if decide (k' = k) then v else f k'.

Notation "f ⟨ k ↦ v ⟩" := (fupd f k v) (at level 1, k at level 200, v at level 200,
  format "f ⟨ k  ↦  v ⟩") : plpg_scope.

Open Scope plpg_scope.

(** ** Boolean comparisons on [Q] (the code's [<], [<=], [>]) *)

Definition Qleb (a b : Q) : bool := Qle_bool a b.
Definition Qltb (a b : Q) : bool := negb (Qle_bool b a).

(** ** [x.toFixed(2)] read back as a number

    [toFixed] picks the integer [n] nearest to [x * 100], the larger one
    on a tie, after taking the sign apart: round half away from zero. *)
Definition round_half_up2 (q : Q) : Q := Qmake (Qfloor (q * 100 + (1 # 2))) 100.

Definition toFixed2 (q : Q) : Q :=
  if Qltb q 0 then - round_half_up2 (- q) else round_half_up2 q.

(** ** [Math.sqrt] as an interface

    The model calls [msqrt] wherever the code calls [Math.sqrt]; the laws
    are only assumed by the theorems that need them. *)
Class MathSqrt := msqrt : Q -> Q.

Class MathSqrtLaws `{MathSqrt} := {
  msqrt_nonneg : forall q, 0 <= msqrt q;
  msqrt_zero : msqrt 0 == 0;
  msqrt_pos : forall q, 0 < q -> 0 < msqrt q
}.

(** The executable instance: [floor(sqrt(floor(q * 10^6))) / 1000].  It is
    exact on squares of multiples of [1/1000]. *)
Definition Qsqrt_approx (q : Q) : Q := Qmake (Z.sqrt (Qfloor (q * 1000000))) 1000.

#[export] Instance Qsqrt_approx_inst : MathSqrt := Qsqrt_approx.

(** ** Lists: [findIndex] / [find] with a boolean predicate

    The code's [arr.findIndex(p)] and [arr.find(p)] are [list_find] of
    stdpp on the predicate [p e = true]. *)
Definition findIndexB {A} (p : A -> bool) (l : list A) : option (nat * A) :=
  list_find (fun e => p e = true) l.

Create HintDb plpg.
Create Rewrite HintDb plpg_rw.

(** ** Lemmas *)

Lemma fupd_eq {K V} `{EqDecision K} (f : K -> V) k v : f⟨k ↦ v⟩ k = v.
Proof. unfold fupd. by rewrite decide_True. Qed.

Lemma fupd_neq {K V} `{EqDecision K} (f : K -> V) k k' v : k' <> k -> f⟨k ↦ v⟩ k' = f k'.
Proof. intros Hne. unfold fupd. by rewrite decide_False. Qed.

Lemma Qleb_iff a b : Qleb a b = true <-> a <= b.
Proof. apply Qle_bool_iff. Qed.

Lemma Qltb_iff a b : Qltb a b = true <-> a < b.
Proof.
  unfold Qltb. rewrite negb_true_iff, <- not_true_iff_false, Qle_bool_iff.
  split; [apply Qnot_le_lt | apply Qlt_not_le].
Qed.

Lemma Qleb_false a b : Qleb a b = false <-> b < a.
Proof. rewrite <- not_true_iff_false, Qleb_iff. split; [apply Qnot_le_lt | apply Qlt_not_le]. Qed.

Lemma Qltb_false a b : Qltb a b = false <-> b <= a.
Proof. rewrite <- not_true_iff_false, Qltb_iff. split; [apply Qnot_lt_le | apply Qle_not_lt]. Qed.

Lemma round_half_up2_pos q : 1 # 200 <= q -> 0 < round_half_up2 q.
Proof.
  intros Hq.
  assert (H1 : (Qfloor (inject_Z 1) <= Qfloor ((q * 100 + (1 # 2))%Q))%Z).
  { apply Qfloor_resp_le. unfold inject_Z. lra. }
  rewrite Qfloor_Z in H1.
  unfold round_half_up2, Qlt. cbn [Qnum Qden]. lia.
Qed.

Lemma toFixed2_pos q : 1 # 200 <= q -> 0 < toFixed2 q.
Proof.
  intros Hq. unfold toFixed2. destruct (Qltb q 0) eqn:E; [apply Qltb_iff in E; lra|].
  by apply round_half_up2_pos.
Qed.

(** ** Integer rounding of rationals *)

(** [floor(q + z) = floor(q) + z] for an integer [z]. *)
Lemma Qfloor_plus_Z (q : Q) (z : Z) : Qfloor (q + inject_Z z) = (Qfloor q + z)%Z.
Proof.
  apply Z.le_antisymm.
  - assert (Hlt : inject_Z (Qfloor (q + inject_Z z)) < inject_Z (Qfloor q + z + 1)).
    { pose proof (Qfloor_le (q + inject_Z z)). pose proof (Qlt_floor q).
      rewrite !inject_Z_plus in *. lra. }
    rewrite <- Zlt_Qlt in Hlt. lia.
  - rewrite <- (Qfloor_Z (Qfloor q + z)). apply Qfloor_resp_le.
    pose proof (Qfloor_le q). rewrite inject_Z_plus. lra.
Qed.

(** Scaling by [0 < g <= 2] before or after flooring differs by at most 2. *)
Lemma Qfloor_scale_bounds (g r : Q) :
  0 < g -> g <= 2 ->
  (Qfloor (inject_Z (Qfloor r) * g) <= Qfloor (r * g) <= Qfloor (inject_Z (Qfloor r) * g) + 2)%Z.
Proof.
  intros Hg0 Hg2. pose proof (Qfloor_le r) as Hle. pose proof (Qlt_floor r) as Hlt.
  rewrite inject_Z_plus in Hlt. change (inject_Z 1) with 1 in Hlt. split.
  - apply Qfloor_resp_le. apply Qmult_le_compat_r; lra.
  - rewrite <- Qfloor_plus_Z. apply Qfloor_resp_le.
    assert (r * g <= (inject_Z (Qfloor r) + 1) * g) by (apply Qmult_le_compat_r; lra).
    change (inject_Z 2) with 2. lra.
Qed.

(** Growing a non-negative quantity by at least 1 strictly raises its floor. *)
Lemma Qfloor_lt_of_ge_plus1 (r s : Q) : r + 1 <= s -> (Qfloor r < Qfloor s)%Z.
Proof.
  intros H. pose proof (Qfloor_plus_Z r 1) as E. change (inject_Z 1) with 1 in E.
  assert (Qfloor (r + 1) <= Qfloor s)%Z by (apply Qfloor_resp_le; lra). lia.
Qed.

(** A product with a factor at least 1 keeps a non-negative lower bound. *)
Lemma Qle_mult_ge1 (c a m : Q) : 0 <= c -> c <= a -> 1 <= m -> c <= a * m.
Proof. intros. nra. Qed.

Lemma Qfloor_nonneg (a : Q) : 0 <= a -> (0 <= Qfloor a)%Z.
Proof. intros H. change 0%Z with (Qfloor 0). by apply Qfloor_resp_le. Qed.

(** [Math.floor(Math.random() * k)] with a draw in [[0, 1)] is an index
    of [[0, k)]. *)
Lemma Qfloor_draw_range (r : Q) (k : Z) : 0 <= r < 1 -> (0 < k)%Z -> (0 <= Qfloor (r * inject_Z k) < k)%Z.
Proof.
  intros [H0 H1] Hk. assert (0 < inject_Z k) by (unfold Qlt; cbn; lia).
  split; [apply Qfloor_nonneg; nra|].
  pose proof (Qfloor_le (r * inject_Z k)). rewrite Zlt_Qlt. nra.
Qed.


Lemma findIndexB_Some {A} (p : A -> bool) l i e :
  findIndexB p l = Some (i, e) <->
  l !! i = Some e /\ p e = true /\ forall j e', l !! j = Some e' -> (j < i)%nat -> p e' = false.
Proof.
  unfold findIndexB. rewrite list_find_Some.
  split; intros (? & ? & Hbefore); repeat split; try done.
  - intros j e' Hj Hlt. apply not_true_is_false. eauto.
  - intros j e' Hj Hlt. rewrite (Hbefore j e'); auto.
Qed.

Lemma findIndexB_member {A} (p : A -> bool) l i e :
  findIndexB p l = Some (i, e) -> e ∈ l /\ p e = true.
Proof.
  intros H. apply findIndexB_Some in H as (Hi & Hp & _).
  split; [by eapply list_elem_of_lookup_2 | done].
Qed.

Lemma findIndexB_None {A} (p : A -> bool) l :
  findIndexB p l = None <-> forall e, e ∈ l -> p e = false.
Proof.
  unfold findIndexB. rewrite list_find_None, Forall_forall.
  split; intros H e He.
  - apply not_true_is_false, H. by apply list_elem_of_In.
  - rewrite (H e (proj2 (list_elem_of_In _ _) He)). congruence.
Qed.

Lemma findIndexB_ext {A} (p q : A -> bool) l :
  (forall e, p e = q e) -> findIndexB p l = findIndexB q l.
Proof. intros H. apply list_find_ext. intros e. by rewrite H. Qed.

(** [alter] keeps the other indices. *)
Lemma lookup_alter_other {A} (f : A -> A) (l : list A) i j :
  i <> j -> alter f i l !! j = l !! j.
Proof. apply list_lookup_alter_ne. Qed.


(** ** Lists updated by index: [arr[i] = v] and [arr.splice(i, 1)] *)

Lemma lookup_delete_Some_inv {A} (l : list A) i j a :
  delete i l !! j = Some a -> exists j', j' <> i /\ l !! j' = Some a.
Proof.
  destruct (decide (j < i)%nat).
  - rewrite list_lookup_delete_lt by done. intros. exists j. split; [lia | done].
  - rewrite list_lookup_delete_ge by lia. intros. exists (S j). split; [lia | done].
Qed.

Lemma lookup_delete_Some {A} (l : list A) i j a :
  l !! j = Some a -> j <> i -> exists j', delete i l !! j' = Some a.
Proof.
  intros Hj Hne. destruct (decide (j < i)%nat).
  - exists j. by rewrite list_lookup_delete_lt.
  - exists (j - 1)%nat. rewrite list_lookup_delete_ge by lia. by replace (S (j - 1)) with j by lia.
Qed.

(** A filter that no member passes is empty. *)
Lemma list_filter_none {A} (P : A -> Prop) `{forall x, Decision (P x)} (l : list A) :
  (forall x, x ∈ l -> ~ P x) -> filter P l = [].
Proof.
  induction l as [|x l IH]; intros Hn; [done|].
  rewrite list.filter_cons_False by (apply Hn; left). apply IH. intros y Hy. apply Hn. by right.
Qed.

Lemma elem_of_delete_inv {A} (l : list A) i a : a ∈ delete i l -> a ∈ l.
Proof.
  rewrite !list_elem_of_lookup. intros [j Hj].
  apply lookup_delete_Some_inv in Hj as (j' & _ & Hj'). eauto.
Qed.

Lemma elem_of_insert_inv {A} (l : list A) i v a : a ∈ <[i:=v]> l -> a = v \/ a ∈ l.
Proof.
  rewrite list_elem_of_lookup. intros [j Hj]. destruct (decide (i = j)) as [<-|Hne].
  - left. apply list_lookup_insert_Some in Hj as [(_ & ? & _) | (? & _)]; [done | lia].
  - right. rewrite list_lookup_insert_ne in Hj by done. by eapply list_elem_of_lookup_2.
Qed.

(** Overwriting an entry by one with the same projection leaves the
    projected list unchanged. *)
Lemma list_fmap_insert_same {A B} (f : A -> B) (l : list A) i old v :
  l !! i = Some old -> f v = f old -> f <$> <[i:=v]> l = f <$> l.
Proof. intros Hi Hv. rewrite list_fmap_insert, Hv. apply list_insert_id. by rewrite list_lookup_fmap, Hi. Qed.

Lemma NoDup_delete_list {A} (l : list A) i : NoDup l -> NoDup (delete i l).
Proof.
  rewrite !NoDup_alt. intros Hnd a b x Ha Hb.
  destruct (decide (a < i)%nat), (decide (b < i)%nat);
    rewrite ?list_lookup_delete_lt in Ha by done; rewrite ?list_lookup_delete_lt in Hb by done;
    rewrite ?list_lookup_delete_ge in Ha by lia; rewrite ?list_lookup_delete_ge in Hb by lia;
    specialize (Hnd _ _ _ Ha Hb); lia.
Qed.

(** Writing a value that occurs nowhere else keeps the list duplicate-free. *)
Lemma NoDup_insert_fresh {A} (l : list A) i v :
  NoDup l -> (forall j, j <> i -> l !! j <> Some v) -> NoDup (<[i:=v]> l).
Proof.
  rewrite !NoDup_alt. intros Hnd Hfresh a b w Ha Hb.
  destruct (decide (a = i)) as [->|Hai], (decide (b = i)) as [->|Hbi]; [done| | |].
  - rewrite list_lookup_insert_ne in Hb by done.
    apply list_lookup_insert_Some in Ha as [(_ & <- & _) | (? & _)]; [|done].
    by destruct (Hfresh b Hbi).
  - rewrite list_lookup_insert_ne in Ha by done.
    apply list_lookup_insert_Some in Hb as [(_ & <- & _) | (? & _)]; [|done].
    by destruct (Hfresh a Hai).
  - rewrite list_lookup_insert_ne in Ha, Hb by done. eauto.
Qed.

(** Exchanging two entries reads the list through the transposition of
    [i] and [j]. *)
Lemma lookup_swap {A} (l : list A) i j a b p :
  l !! i = Some a -> l !! j = Some b ->
  <[j:=a]> (<[i:=b]> l) !! p = l !! (if decide (p = j) then i else if decide (p = i) then j else p).
Proof.
  intros Hi Hj. pose proof (lookup_lt_Some _ _ _ Hi). pose proof (lookup_lt_Some _ _ _ Hj).
  destruct (decide (p = j)) as [->|Hpj].
  - rewrite list_lookup_insert_eq by (rewrite length_insert; lia). done.
  - rewrite list_lookup_insert_ne by done.
    destruct (decide (p = i)) as [->|Hpi].
    + rewrite list_lookup_insert_eq by lia. done.
    + by rewrite list_lookup_insert_ne by done.
Qed.

(** Exchanging two entries keeps the list duplicate-free. *)
Lemma NoDup_swap {A} (l : list A) i j a b :
  NoDup l -> l !! i = Some a -> l !! j = Some b -> NoDup (<[j:=a]> (<[i:=b]> l)).
Proof.
  rewrite !NoDup_alt. intros Hnd Hi Hj p q w Hp Hq.
  rewrite (lookup_swap l i j a b p Hi Hj) in Hp. rewrite (lookup_swap l i j a b q Hi Hj) in Hq.
  specialize (Hnd _ _ _ Hp Hq). repeat case_decide; lia.
Qed.

(** An injective projection on a list without duplicate images. *)
Lemma NoDup_fmap_inj_on {A B} (f : A -> B) (l : list A) x y :
  NoDup (f <$> l) -> x ∈ l -> y ∈ l -> f x = f y -> x = y.
Proof.
  intros Hnd Hx Hy Hf. apply list_elem_of_lookup in Hx as [i Hi], Hy as [j Hj].
  assert (i = j) as ->; [|congruence].
  eapply NoDup_lookup; [exact Hnd | by rewrite list_lookup_fmap, Hi | by rewrite list_lookup_fmap, Hj, Hf].
Qed.

Lemma existsb_elem {A} (f : A -> bool) (l : list A) :
  existsb f l = true <-> exists x, x ∈ l /\ f x = true.
Proof. rewrite existsb_exists. by setoid_rewrite list_elem_of_In. Qed.

Lemma two_members_length {A} (l : list A) x y :
  x ∈ l -> y ∈ l -> x <> y -> (2 <= length l)%nat.
Proof.
  destruct l as [|a [|b l]]; cbn; intros Hx Hy Hxy; [by apply elem_of_nil in Hx| |lia].
  apply list_elem_of_singleton in Hx, Hy. congruence.
Qed.

Lemma NoDup_fmap_filter {A B} (f : A -> B) (P : A -> Prop) `{forall x, Decision (P x)} (l : list A) :
  NoDup (f <$> l) -> NoDup (f <$> filter P l).
Proof. intros Hnd. eapply sublist_NoDup; [exact Hnd|]. apply fmap_sublist, sublist_filter. Qed.

(** Among two elements with distinct keys, one avoids any given key. *)
Lemma NoDup_fmap_avoid {A B} `{EqDecision B} (f : A -> B) (l : list A) k :
  NoDup (f <$> l) -> (2 <= length l)%nat -> exists x, x ∈ l /\ f x <> k.
Proof.
  destruct l as [|a [|b l]]; cbn; intros Hnd Hl; try lia.
  apply list.NoDup_cons in Hnd as [Hab _]. rewrite elem_of_cons in Hab.
  destruct (decide (f a = k)) as [<-|Hk]; [exists b|exists a].
  - split; [by right; left|]. intros He. apply Hab. by left.
  - split; [by left|done].
Qed.

(** ** Tactics and hints *)

(** [qbool] turns every boolean comparison of the context and goal into
    its proposition. *)
Ltac qbool :=
  repeat match goal with
  | H : Qleb _ _ = true |- _ => apply Qleb_iff in H
  | H : Qltb _ _ = true |- _ => apply Qltb_iff in H
  | H : Qleb _ _ = false |- _ => apply Qleb_false in H
  | H : Qltb _ _ = false |- _ => apply Qltb_false in H
  | |- Qleb _ _ = true => apply Qleb_iff
  | |- Qltb _ _ = true => apply Qltb_iff
  | |- Qleb _ _ = false => apply Qleb_false
  | |- Qltb _ _ = false => apply Qltb_false
  end.

(** [case_q b] splits on a boolean comparison and reflects both cases. *)
Ltac case_q b := let E := fresh "Hq" in destruct b eqn:E; qbool.

#[export] Hint Rewrite @fupd_eq : plpg_rw.
#[export] Hint Rewrite @fupd_neq using congruence : plpg_rw.
#[export] Hint Rewrite @length_alter @length_insert : plpg_rw.
#[export] Hint Resolve Qfloor_resp_le Qfloor_nonneg : plpg.
