(* ===== verification/Types.v ===== *)
(** * Types: the data model of src/types.ts

    The string enums of the code are inductive types with the same
    constructors; [Entity] is a record with the fields of the interface
    [Entity].  The object spreads the code writes ([{ ...e, hp: v }]) are
    the [set_*] functions at the end of the file. *)

From S2P Require Import Prelude.
Local Open Scope Q_scope.

Inductive UnitType :=
  | INFANTRY | ARCHER | TANK | SPEARMAN | MAGE | ASSASSIN | GOLEM | DRAGON
  | PALADIN | SNIPER | VOID_WALKER.

Inductive UnitTier := COMMON | RARE | EPIC | LEGENDARY | MYTHIC.

Inductive Side := PLAYER | ENEMY.

Inductive Difficulty := NORMAL | HARD | HELL.

Inductive GamePhase :=
  | DIFFICULTY_SELECT | PREPARATION | BATTLE | VICTORY | DEFEAT | GAME_CLEAR.

Inductive ArtifactType :=
  | HOLY_SWORD | ANCIENT_SHIELD | WAR_DRUMS | WIND_CLOAK | MIDAS_TOUCH.

Inductive GlobalTechType := CAPACITY | LUCK | MYTHIC_MASTERY.

(** The literal union ['IDLE' | 'MOVING' | 'ATTACKING' | 'DEAD']. *)
Inductive EntityState := IDLE | MOVING | ATTACKING | DEAD.

#[export] Instance UnitType_eq_dec : EqDecision UnitType.
Proof. solve_decision. Defined.
#[export] Instance UnitTier_eq_dec : EqDecision UnitTier.
Proof. solve_decision. Defined.
#[export] Instance Side_eq_dec : EqDecision Side.
Proof. solve_decision. Defined.
#[export] Instance Difficulty_eq_dec : EqDecision Difficulty.
Proof. solve_decision. Defined.
#[export] Instance GamePhase_eq_dec : EqDecision GamePhase.
Proof. solve_decision. Defined.
#[export] Instance ArtifactType_eq_dec : EqDecision ArtifactType.
Proof. solve_decision. Defined.
#[export] Instance GlobalTechType_eq_dec : EqDecision GlobalTechType.
Proof. solve_decision. Defined.
#[export] Instance EntityState_eq_dec : EqDecision EntityState.
Proof. solve_decision. Defined.

(** [Object.values(UnitType)], in declaration order. *)
Definition allUnitTypes : list UnitType :=
  [INFANTRY; ARCHER; TANK; SPEARMAN; MAGE; ASSASSIN; GOLEM; DRAGON;
   PALADIN; SNIPER; VOID_WALKER].

(** [Object.values(ArtifactType)], in declaration order. *)
Definition allArtifactTypes : list ArtifactType :=
  [HOLY_SWORD; ANCIENT_SHIELD; WAR_DRUMS; WIND_CLOAK; MIDAS_TOUCH].

(** [interface UnitStats]: the cosmetic [color] and [icon] strings are
    left out. *)
Record UnitStats := mkUnitStats {
  tier : UnitTier;
  hp_stat : Z;
  damage : Z;
  attackSpeed : Q;   (** attacks per second *)
  range : Q;         (** grid cells *)
  moveSpeed : Q      (** grid cells per second *)
}.

(** [interface Entity]. *)
Record Entity := mkEntity {
  id : string;
  type : UnitType;
  side : Side;
  level : Z;
  gridX : Z;
  gridY : Z;
  x : Q;
  y : Q;
  hp : Z;
  maxHp : Z;
  lastAttackTime : Q;
  targetId : option string;
  state : EntityState;
  facingRight : bool
}.

#[export] Instance Entity_inhabited : Inhabited Entity :=
  populate (mkEntity "" INFANTRY PLAYER 1 0 0 0 0 0 0 0 None IDLE true).

(** [interface GameStats]. *)
Record GameStats := mkGameStats { kills : Z; merges : Z; wins : Z; summons : Z }.

(** ** Object spreads on entities *)

Definition set_targetId (e : Entity) (t : option string) : Entity :=
  mkEntity (id e) (type e) (side e) (level e) (gridX e) (gridY e) (x e) (y e)
    (hp e) (maxHp e) (lastAttackTime e) t (state e) (facingRight e).

Definition set_state (e : Entity) (s : EntityState) : Entity :=
  mkEntity (id e) (type e) (side e) (level e) (gridX e) (gridY e) (x e) (y e)
    (hp e) (maxHp e) (lastAttackTime e) (targetId e) s (facingRight e).

Definition set_facing (e : Entity) (b : bool) : Entity :=
  mkEntity (id e) (type e) (side e) (level e) (gridX e) (gridY e) (x e) (y e)
    (hp e) (maxHp e) (lastAttackTime e) (targetId e) (state e) b.

Definition set_hp (e : Entity) (h : Z) : Entity :=
  mkEntity (id e) (type e) (side e) (level e) (gridX e) (gridY e) (x e) (y e)
    h (maxHp e) (lastAttackTime e) (targetId e) (state e) (facingRight e).

Definition set_lastAttackTime (e : Entity) (t : Q) : Entity :=
  mkEntity (id e) (type e) (side e) (level e) (gridX e) (gridY e) (x e) (y e)
    (hp e) (maxHp e) t (targetId e) (state e) (facingRight e).

(** [{ ...e, x: px, y: py }] *)
Definition set_xy (e : Entity) (px py : Q) : Entity :=
  mkEntity (id e) (type e) (side e) (level e) (gridX e) (gridY e) px py
    (hp e) (maxHp e) (lastAttackTime e) (targetId e) (state e) (facingRight e).

(** [{ ...e, gridX: gx, gridY: gy, x: gx, y: gy }] *)
Definition set_cell (e : Entity) (gx gy : Z) : Entity :=
  mkEntity (id e) (type e) (side e) (level e) gx gy (inject_Z gx) (inject_Z gy)
    (hp e) (maxHp e) (lastAttackTime e) (targetId e) (state e) (facingRight e).

(** [{ ...e, maxHp: m, hp: h }] *)
Definition set_maxHp_hp (e : Entity) (m h : Z) : Entity :=
  mkEntity (id e) (type e) (side e) (level e) (gridX e) (gridY e) (x e) (y e)
    h m (lastAttackTime e) (targetId e) (state e) (facingRight e).

(** [{ ...e, level: l, maxHp: m, hp: m }] *)
Definition set_level_hp (e : Entity) (l m : Z) : Entity :=
  mkEntity (id e) (type e) (side e) l (gridX e) (gridY e) (x e) (y e)
    m m (lastAttackTime e) (targetId e) (state e) (facingRight e).

(** [isAlive]: the code's test [e.hp > 0]. *)
Definition alive (e : Entity) : bool := (0 <? hp e)%Z.

(** [e.id === i] *)
Definition hasId (i : string) (e : Entity) : bool := bool_decide (id e = i).

(** The fields that no battle or placement update writes. *)
Definition same_identity (e e' : Entity) : Prop :=
  id e' = id e /\ type e' = type e /\ side e' = side e /\ level e' = level e /\
  gridX e' = gridX e /\ gridY e' = gridY e /\ maxHp e' = maxHp e.

Lemma alive_true e : alive e = true <-> (0 < hp e)%Z.
Proof. apply Z.ltb_lt. Qed.

Lemma alive_false e : alive e = false <-> (hp e <= 0)%Z.
Proof. apply Z.ltb_ge. Qed.

Lemma hasId_true k e : hasId k e = true <-> id e = k.
Proof. apply bool_decide_eq_true. Qed.

Lemma same_identity_refl e : same_identity e e.
Proof. repeat split. Qed.

Lemma same_identity_trans e1 e2 e3 :
  same_identity e1 e2 -> same_identity e2 e3 -> same_identity e1 e3.
Proof. unfold same_identity. intuition congruence. Qed.

#[export] Hint Resolve same_identity_refl : plpg.
