(* ===== verification/Constants.v ===== *)
(** * Constants: the configuration tables of src/constants.ts

    Every [Record<K, ...>] table is a function on its key type, with the
    values of the source; the cosmetic strings (names, colours, icons,
    descriptions) are left out. *)

From S2P Require Import Prelude Types.
Local Open Scope Q_scope.

Definition GRID_ROWS : Z := 8.
Definition GRID_COLS : Z := 7.

(** [TIER_INFO[t].costMult] *)
Definition tierCostMult (t : UnitTier) : Q :=
  match t with
  | COMMON => 1 | RARE => 3 | EPIC => 8 | LEGENDARY => 20 | MYTHIC => 50
  end.

(** [DIFFICULTY_SETTINGS[d]]: [maxLevel] and [enemyMult]. *)
Record DifficultySetting := mkDifficultySetting { maxLevel : Z; enemyMult : Q }.

Definition DIFFICULTY_SETTINGS (d : Difficulty) : DifficultySetting :=
  match d with
  | NORMAL => mkDifficultySetting 30 0.8
  | HARD => mkDifficultySetting 40 1.0
  | HELL => mkDifficultySetting 50 1.2
  end.

(** [UNIT_BASE_STATS[t]] (level 1). *)
Definition UNIT_BASE_STATS (t : UnitType) : UnitStats :=
  match t with
  | INFANTRY => mkUnitStats COMMON 120 15 1.2 1.2 2.5
  | ARCHER => mkUnitStats COMMON 80 25 1.0 5.5 2.2
  | TANK => mkUnitStats RARE 300 12 0.8 1.2 1.8
  | SPEARMAN => mkUnitStats RARE 150 22 1.1 2.5 2.3
  | MAGE => mkUnitStats EPIC 90 45 0.7 6.0 2.0
  | ASSASSIN => mkUnitStats EPIC 140 40 2.0 1.2 3.5
  | GOLEM => mkUnitStats LEGENDARY 600 25 0.6 1.2 1.5
  | DRAGON => mkUnitStats LEGENDARY 400 70 0.9 3.5 2.5
  | PALADIN => mkUnitStats MYTHIC 2000 100 1.0 1.2 2.0
  | SNIPER => mkUnitStats MYTHIC 350 400 0.6 8.0 1.5
  | VOID_WALKER => mkUnitStats MYTHIC 1000 150 1.6 3.0 2.5
  end.

Definition HP_MULTIPLIER : Q := 1.8.
Definition DAMAGE_MULTIPLIER : Q := 1.6.

Definition RECRUIT_COST : Z := 100.
Definition RECRUIT_COST_INCREASE : Z := 10.

Definition TECH_COST_BASE : Z := 100.
Definition TECH_COST_INCREASE : Z := 20.

(** [GLOBAL_TECH_INFO[t]]: [baseCost], [costInc], [maxLevel]. *)
Record GlobalTechInfo := mkGlobalTechInfo { baseCost : Z; costInc : Z; techMaxLevel : Z }.

Definition GLOBAL_TECH_INFO (t : GlobalTechType) : GlobalTechInfo :=
  match t with
  | CAPACITY => mkGlobalTechInfo 200 100 20
  | LUCK => mkGlobalTechInfo 200 100 10
  | MYTHIC_MASTERY => mkGlobalTechInfo 200 20 100
  end.

Definition BASE_UNIT_CAP : Z := 10.
Definition UNIT_CAP_PER_LEVEL : Z := 2.

Definition ARTIFACT_COST_BASE : Z := 200.
Definition ARTIFACT_COST_INCREASE : Z := 50.

(** [interface Achievement] without its texts. *)
Inductive StatKey := KILLS | MERGES | WINS | SUMMONS.
Record Achievement := mkAchievement { ach_id : string; ach_type : StatKey; target : Z; reward : Z }.

Definition ACHIEVEMENTS : list Achievement :=
  [ mkAchievement "kill_1" KILLS 1 100;
    mkAchievement "kill_100" KILLS 100 500;
    mkAchievement "kill_1000" KILLS 1000 2000;
    mkAchievement "merge_10" MERGES 10 200;
    mkAchievement "merge_100" MERGES 100 1000;
    mkAchievement "summon_50" SUMMONS 50 300;
    mkAchievement "summon_200" SUMMONS 200 1500;
    mkAchievement "win_10" WINS 10 400;
    mkAchievement "win_50" WINS 50 2500 ].

(** [interface SynthesisRecipe]; [ingredients] is the pair of the array. *)
Record SynthesisRecipe := mkRecipe {
  recipe_id : string; result : UnitType; ingredient1 : UnitType; ingredient2 : UnitType;
  minLevel : Z; cost : Z }.

Definition SYNTHESIS_RECIPES : list SynthesisRecipe :=
  [ mkRecipe "paladin" PALADIN INFANTRY TANK 3 500;
    mkRecipe "sniper" SNIPER ARCHER SPEARMAN 3 500;
    mkRecipe "void_walker" VOID_WALKER MAGE GOLEM 3 500 ].

(** [Math.floor(GRID_ROWS / 2)]: the first row of the player half. *)
Lemma GRID_half_rows : (GRID_ROWS / 2 = 4)%Z.
Proof. reflexivity. Qed.

(** [lia] does not evaluate [Z.div]; [grid_lia] first replaces the grid
    constants by their values. *)
Ltac grid_lia := rewrite ?GRID_half_rows in *; unfold GRID_ROWS, GRID_COLS in *; lia.
