(* ===== verification/Stats.v ===== *)
(** * Stats: the stat model and targeting of src/services/gameLogic.ts

    Section [StatModel]: [getUnitStats] (level, tech and artifact
    scaling) and [createEntity].  Section [Targeting]: [getDistance] and
    [findNearestTarget], with the abstract specification [nearest_spec]
    (first living opponent at minimal distance) that the loop refines. *)

From S2P Require Import Prelude Types Constants.
Local Open Scope Q_scope.

(** [Partial<Record<ArtifactType, number>>] read with [|| 0]: a total
    function holding the defaulted value; [{}] is [noArtifacts]. *)
Definition ArtifactLevels := ArtifactType -> Z.
Definition noArtifacts : ArtifactLevels := fun _ => 0%Z.

Section StatModel.

(** [techMult = 1 + ((techLevel - 1) * 0.2)] *)
Definition techMult (techLevel : Z) : Q := 1 + inject_Z (techLevel - 1) * 0.2.

(** The product inside [Math.floor] for [hp] and for [damage]. *)
Definition hpRaw (t : UnitType) (lvl techLevel : Z) (artifactLevels : ArtifactLevels) : Q :=
  inject_Z (hp_stat (UNIT_BASE_STATS t)) * HP_MULTIPLIER ^ (lvl - 1) * techMult techLevel
  * (1 + inject_Z (artifactLevels ANCIENT_SHIELD) * 0.05).

Definition damageRaw (t : UnitType) (lvl techLevel : Z) (artifactLevels : ArtifactLevels) : Q :=
  inject_Z (damage (UNIT_BASE_STATS t)) * DAMAGE_MULTIPLIER ^ (lvl - 1) * techMult techLevel
  * (1 + inject_Z (artifactLevels HOLY_SWORD) * 0.05).

(** [getUnitStats(type, level, techLevel, artifactLevels)] *)
Definition getUnitStats (t : UnitType) (lvl techLevel : Z) (artifactLevels : ArtifactLevels) : UnitStats :=
  let base := UNIT_BASE_STATS t in
  let atkSpeedMult := 1 + inject_Z (artifactLevels WAR_DRUMS) * 0.03 in
  let moveSpeedMult := 1 + inject_Z (artifactLevels WIND_CLOAK) * 0.05 in
  mkUnitStats (tier base)
    (Qfloor (hpRaw t lvl techLevel artifactLevels))
    (Qfloor (damageRaw t lvl techLevel artifactLevels))
    (toFixed2 (attackSpeed base * atkSpeedMult))
    (range base)
    (toFixed2 (moveSpeed base * moveSpeedMult)).

(** [createEntity(type, level, side, gridX, gridY, techLevel,
    artifactLevels)]; the random id [Math.random().toString(36)...] is
    the argument [newId]. *)
Definition createEntity (newId : string) (t : UnitType) (lvl : Z) (s : Side) (gx gy : Z)
    (techLevel : Z) (artifactLevels : ArtifactLevels) : Entity :=
  let stats := getUnitStats t lvl techLevel artifactLevels in
  mkEntity newId t s lvl gx gy (inject_Z gx) (inject_Z gy)
    (hp_stat stats) (hp_stat stats) 0 None IDLE (bool_decide (s = PLAYER)).

End StatModel.

Section Targeting.
Context `{MathSqrt}.

(** [getDistance(e1, e2)] *)
Definition getDistance (e1 e2 : Entity) : Q :=
  let dx := x e1 - x e2 in
  let dy := y e1 - y e2 in
  msqrt (dx * dx + dy * dy).

(** [dist < minDist] where [minDist] may still be [Infinity] ([None]). *)
Definition ltInf (d : Q) (m : option Q) : bool :=
  match m with None => true | Some m => Qltb d m end.

(** The loop body of [findNearestTarget]; the accumulator is
    [(nearest, minDist)]. *)
Definition nearestStep (me : Entity) (acc : option Entity * option Q) (other : Entity)
    : option Entity * option Q :=
  if bool_decide (side other <> side me) && alive other then
    let dist := getDistance me other in
    if ltInf dist (snd acc) then (Some other, Some dist) else acc
  else acc.

(** [findNearestTarget(me, allEntities)] *)
Definition findNearestTarget (me : Entity) (allEntities : list Entity) : option Entity :=
  fst (fold_left (nearestStep me) allEntities (None, None)).

(** ** Abstract specification *)

Definition eligible (me o : Entity) : Prop := side o <> side me /\ (0 < hp o)%Z.

#[local] Instance eligible_dec me o : Decision (eligible me o).
Proof. unfold eligible. apply _. Defined.

Definition nearest_spec (me : Entity) (l : list Entity) (r : option Entity) : Prop :=
  match r with
  | None => forall o, o ∈ l -> ~ eligible me o
  | Some t =>
      exists i, l !! i = Some t /\ eligible me t /\
      (forall j o, l !! j = Some o -> eligible me o -> getDistance me t <= getDistance me o) /\
      (forall j o, l !! j = Some o -> (j < i)%nat -> eligible me o ->
                   getDistance me t < getDistance me o)
  end.

(** The loop invariant: [minDist] is the distance of [nearest], and
    [nearest] meets the specification on the prefix already visited. *)
Definition nearest_inv (me : Entity) (l : list Entity) (acc : option Entity * option Q) : Prop :=
  snd acc = option_map (getDistance me) (fst acc) /\ nearest_spec me l (fst acc).

End Targeting.

(** ** Stat model: level and tech scaling *)

Section StatModelFacts.

Lemma hpRaw_succ t L T A : hpRaw t (L + 1) T A == hpRaw t L T A * HP_MULTIPLIER.
Proof.
  unfold hpRaw. replace (L + 1 - 1)%Z with ((L - 1) + 1)%Z by lia.
  rewrite Qpower_plus by (unfold HP_MULTIPLIER; discriminate). cbn [Qpower Qpower_positive pow_pos]. ring.
Qed.

Lemma damageRaw_succ t L T A : damageRaw t (L + 1) T A == damageRaw t L T A * DAMAGE_MULTIPLIER.
Proof.
  unfold damageRaw. replace (L + 1 - 1)%Z with ((L - 1) + 1)%Z by lia.
  rewrite Qpower_plus by (unfold DAMAGE_MULTIPLIER; discriminate). cbn [Qpower Qpower_positive pow_pos]. ring.
Qed.

Lemma techMult_ge1 T : (1 <= T)%Z -> 1 <= techMult T.
Proof.
  intros HT. unfold techMult. assert (0 <= inject_Z (T - 1)).
  { change 0 with (inject_Z 0). rewrite <- Zle_Qle. lia. }
  lra.
Qed.

Lemma artifactMult_ge1 (a : Z) (c : Q) : (0 <= a)%Z -> 0 <= c -> 1 <= 1 + inject_Z a * c.
Proof.
  intros Ha Hc. assert (0 <= inject_Z a) by (change 0 with (inject_Z 0); rewrite <- Zle_Qle; lia).
  nra.
Qed.

Lemma levelPow_ge1 (g : Q) L : 1 <= g -> (1 <= L)%Z -> 1 <= g ^ (L - 1).
Proof. intros. apply Qpower_1_le; [done | lia]. Qed.

(** Lower bounds of the unfloored values from the smallest base stats
    (80 hp for ARCHER, 12 damage for TANK). *)
Lemma hpRaw_ge80 t L T A :
  (1 <= L)%Z -> (1 <= T)%Z -> (0 <= A ANCIENT_SHIELD)%Z -> 80 <= hpRaw t L T A.
Proof.
  intros HL HT HA. unfold hpRaw.
  apply Qle_mult_ge1; [lra| |apply artifactMult_ge1; [done|lra]].
  apply Qle_mult_ge1; [lra| |by apply techMult_ge1].
  apply Qle_mult_ge1; [lra| |apply levelPow_ge1; [unfold HP_MULTIPLIER; lra|done]].
  destruct t; unfold Qle; simpl; lia.
Qed.

Lemma damageRaw_ge12 t L T A :
  (1 <= L)%Z -> (1 <= T)%Z -> (0 <= A HOLY_SWORD)%Z -> 12 <= damageRaw t L T A.
Proof.
  intros HL HT HA. unfold damageRaw.
  apply Qle_mult_ge1; [lra| |apply artifactMult_ge1; [done|lra]].
  apply Qle_mult_ge1; [lra| |by apply techMult_ge1].
  apply Qle_mult_ge1; [lra| |apply levelPow_ge1; [unfold DAMAGE_MULTIPLIER; lra|done]].
  destruct t; unfold Qle; simpl; lia.
Qed.

(** Derived hit points are positive (at least 80) at every reachable
    level, tech and shield level. *)
Lemma hp_stat_ge80 t L T A :
  (1 <= L)%Z -> (1 <= T)%Z -> (0 <= A ANCIENT_SHIELD)%Z -> (80 <= hp_stat (getUnitStats t L T A))%Z.
Proof.
  intros HL HT HA. cbn [hp_stat getUnitStats]. rewrite <- (Qfloor_Z 80).
  apply Qfloor_resp_le. by apply hpRaw_ge80.
Qed.

(** The spec's recurrence [hp(L+1) = floor(hp(L) * hpGrowth)] holds
    only up to 2: the code floors once, from the base value, at every
    level.  The same bound holds for damage with [damageGrowth]. *)
Theorem level_recurrence_bounds t L T A :
  let h l := hp_stat (getUnitStats t l T A) in
  let d l := damage (getUnitStats t l T A) in
  (Qfloor (inject_Z (h L) * HP_MULTIPLIER) <= h (L + 1) <= Qfloor (inject_Z (h L) * HP_MULTIPLIER) + 2)%Z /\
  (Qfloor (inject_Z (d L) * DAMAGE_MULTIPLIER) <= d (L + 1) <= Qfloor (inject_Z (d L) * DAMAGE_MULTIPLIER) + 2)%Z.
Proof.
  cbn zeta. cbn [hp_stat damage getUnitStats]. split.
  - rewrite (Qfloor_comp _ _ (hpRaw_succ t L T A)).
    apply Qfloor_scale_bounds; unfold HP_MULTIPLIER; lra.
  - rewrite (Qfloor_comp _ _ (damageRaw_succ t L T A)).
    apply Qfloor_scale_bounds; unfold DAMAGE_MULTIPLIER; lra.
Qed.

(** C31: the recurrence is not exact: a level-4 MAGE has 524 hp, while
    [floor(hp(3) * 1.8) = floor(291 * 1.8) = 523]. *)
Example spec_hp_recurrence_counterexample :
  hp_stat (getUnitStats MAGE 4 1 noArtifacts)
  <> Qfloor (inject_Z (hp_stat (getUnitStats MAGE 3 1 noArtifacts)) * HP_MULTIPLIER).
Proof. vm_compute. discriminate. Qed.

(** A merge (level + 1) strictly raises both hp and damage of every
    archetype, at every reachable level, tech level and artifact level. *)
Theorem level_up_strictly_stronger t L T A :
  (1 <= L)%Z -> (1 <= T)%Z -> (forall k, 0 <= A k)%Z ->
  (hp_stat (getUnitStats t L T A) < hp_stat (getUnitStats t (L + 1) T A))%Z /\
  (damage (getUnitStats t L T A) < damage (getUnitStats t (L + 1) T A))%Z.
Proof.
  intros HL HT HA. cbn [hp_stat damage getUnitStats]. split; apply Qfloor_lt_of_ge_plus1.
  - rewrite hpRaw_succ. pose proof (hpRaw_ge80 t L T A HL HT (HA _)).
    unfold HP_MULTIPLIER. lra.
  - rewrite damageRaw_succ. pose proof (damageRaw_ge12 t L T A HL HT (HA _)).
    unfold DAMAGE_MULTIPLIER. lra.
Qed.

Lemma level_up_strictly_stronger_witness :
  (1 <= 1)%Z /\ (1 <= 1)%Z /\ (forall k, 0 <= noArtifacts k)%Z /\
  (hp_stat (getUnitStats ARCHER 1 1 noArtifacts) < hp_stat (getUnitStats ARCHER (1 + 1) 1 noArtifacts))%Z /\
  (damage (getUnitStats ARCHER 1 1 noArtifacts) < damage (getUnitStats ARCHER (1 + 1) 1 noArtifacts))%Z.
Proof.
  assert (HA : (forall k, 0 <= noArtifacts k)%Z) by (intros k; unfold noArtifacts; lia).
  split; [lia|]. split; [lia|]. split; [exact HA|].
  apply (level_up_strictly_stronger ARCHER 1 1 noArtifacts); [lia | lia | exact HA].
Defined.

(** One tech level adds exactly 20 percentage points of the
    level-scaled base value to the unfloored hp and damage. *)
Theorem tech_step_exact t L T A :
  hpRaw t L (T + 1) A == hpRaw t L T A
    + (1 # 5) * (inject_Z (hp_stat (UNIT_BASE_STATS t)) * HP_MULTIPLIER ^ (L - 1)
                 * (1 + inject_Z (A ANCIENT_SHIELD) * 0.05)) /\
  damageRaw t L (T + 1) A == damageRaw t L T A
    + (1 # 5) * (inject_Z (damage (UNIT_BASE_STATS t)) * DAMAGE_MULTIPLIER ^ (L - 1)
                 * (1 + inject_Z (A HOLY_SWORD) * 0.05)).
Proof.
  unfold hpRaw, damageRaw, techMult. replace (T + 1 - 1)%Z with ((T - 1) + 1)%Z by lia.
  rewrite inject_Z_plus. split; ring.
Qed.

(** With non-negative artifact levels, attack speed and move speed
    are positive, so the cooldown [1000 / attackSpeed] of the combat tick
    is a finite number of milliseconds (no division by zero). *)
Theorem speeds_pos t L T A :
  (forall k, 0 <= A k)%Z ->
  0 < attackSpeed (getUnitStats t L T A) /\ 0 < moveSpeed (getUnitStats t L T A).
Proof.
  intros HA. cbn [attackSpeed moveSpeed getUnitStats].
  pose proof (artifactMult_ge1 (A WAR_DRUMS) 0.03 (HA _) ltac:(lra)).
  pose proof (artifactMult_ge1 (A WIND_CLOAK) 0.05 (HA _) ltac:(lra)).
  split; apply toFixed2_pos; destruct t; cbn [UNIT_BASE_STATS attackSpeed moveSpeed]; nra.
Qed.

Lemma speeds_pos_witness :
  (forall k, 0 <= noArtifacts k)%Z /\
  0 < attackSpeed (getUnitStats SNIPER 1 1 noArtifacts) /\ 0 < moveSpeed (getUnitStats SNIPER 1 1 noArtifacts).
Proof.
  assert (HA : (forall k, 0 <= noArtifacts k)%Z) by (intros k; unfold noArtifacts; lia).
  split; [exact HA|]. exact (speeds_pos SNIPER 1 1 noArtifacts HA).
Defined.

End StatModelFacts.

(** ** Targeting: [findNearestTarget] refines [nearest_spec] *)

Section TargetingFacts.
Context `{MathSqrt}.

Lemma lookup_snoc_Some (l : list Entity) o j o' :
  (l ++ [o]) !! j = Some o' -> l !! j = Some o' \/ (j = length l /\ o' = o).
Proof.
  rewrite lookup_app_Some, list_lookup_singleton_Some.
  intros [Hl | (Hge & Hj & <-)]; [by left | right; split; [lia | done]].
Qed.

Lemma lookup_snoc_last (l : list Entity) o : (l ++ [o]) !! length l = Some o.
Proof. by apply list_lookup_middle. Qed.

Lemma eligible_bool me o :
  bool_decide (side o <> side me) && alive o = true <-> eligible me o.
Proof.
  rewrite andb_true_iff, bool_decide_eq_true, alive_true. done.
Qed.

(** The visited prefix grows by an element that does not replace the
    current result. *)
Lemma nearest_spec_keep me l o t :
  nearest_spec me l (Some t) ->
  (eligible me o -> getDistance me t <= getDistance me o) ->
  nearest_spec me (l ++ [o]) (Some t).
Proof.
  intros (i & Hi & Ht & Hmin & Hfirst) Ho. exists i.
  pose proof (lookup_lt_Some _ _ _ Hi).
  split; [by rewrite lookup_app_l|]. split; [done|]. split.
  - intros j o' Hj He. apply lookup_snoc_Some in Hj as [Hj | [_ ->]]; eauto.
  - intros j o' Hj Hlt He. apply lookup_snoc_Some in Hj as [Hj | [-> _]]; [eauto | lia].
Qed.

Lemma nearest_spec_keep_none me l o :
  nearest_spec me l None -> ~ eligible me o -> nearest_spec me (l ++ [o]) None.
Proof.
  intros Hnone Ho o' Ho'. apply elem_of_app in Ho' as [Hl | ->%list_elem_of_singleton]; auto.
Qed.

(** The new element becomes the result when it is strictly closer than
    every eligible element visited before. *)
Lemma nearest_spec_take me l o :
  eligible me o ->
  (forall j o', l !! j = Some o' -> eligible me o' -> getDistance me o < getDistance me o') ->
  nearest_spec me (l ++ [o]) (Some o).
Proof.
  intros Ho Hcloser. exists (length l).
  split; [apply lookup_snoc_last|]. split; [done|]. split.
  - intros j o' Hj He. apply lookup_snoc_Some in Hj as [Hj | [_ ->]]; [|lra].
    apply Qlt_le_weak. eauto.
  - intros j o' Hj Hlt He. apply lookup_snoc_Some in Hj as [Hj | [-> _]]; [eauto | lia].
Qed.

Lemma nearest_inv_snoc me l acc o :
  nearest_inv me l acc -> nearest_inv me (l ++ [o]) (nearestStep me acc o).
Proof.
  intros [Hsnd Hspec]. unfold nearestStep.
  destruct (bool_decide (side o <> side me) && alive o) eqn:Helig.
  - apply eligible_bool in Helig.
    destruct acc as [[t|] m]; simpl in Hsnd, Hspec |- *; subst m; simpl.
    + case_q (Qltb (getDistance me o) (getDistance me t)); split; try done.
      * apply nearest_spec_take; [done|]. intros j o' Hj He.
        destruct Hspec as (i & _ & _ & Hmin & _). specialize (Hmin j o' Hj He). lra.
      * apply nearest_spec_keep; [done|]. intros _. lra.
    + split; [done|]. apply nearest_spec_take; [done|].
      intros j o' Hj He. exfalso. apply (Hspec o'); [by eapply list_elem_of_lookup_2 | done].
  - assert (Hne : ~ eligible me o) by (rewrite <- eligible_bool; congruence).
    split; [done|]. destruct acc as [[t|] m]; simpl in *.
    + apply nearest_spec_keep; [done | intros; contradiction].
    + by apply nearest_spec_keep_none.
Qed.

Lemma nearest_fold_inv me l : nearest_inv me l (fold_left (nearestStep me) l (None, None)).
Proof.
  induction l as [|o l IH] using rev_ind.
  - split; [done|]. intros o Ho. by apply not_elem_of_nil in Ho.
  - rewrite fold_left_app. by apply nearest_inv_snoc.
Qed.

(** C6 (refinement): [findNearestTarget] returns the first living
    opponent at minimal distance, and [null] exactly when no living
    opponent exists. *)
Theorem findNearestTarget_spec me l : nearest_spec me l (findNearestTarget me l).
Proof. exact (proj2 (nearest_fold_inv me l)). Qed.

Corollary findNearestTarget_Some me l t :
  findNearestTarget me l = Some t -> t ∈ l /\ side t <> side me /\ (0 < hp t)%Z.
Proof.
  intros Hf. pose proof (proj2 (nearest_fold_inv me l)) as Hs. fold (findNearestTarget me l) in Hs. rewrite Hf in Hs.
  destruct Hs as (i & Hi & [Hside Hhp] & _). split; [by eapply list_elem_of_lookup_2 | done].
Qed.

Corollary findNearestTarget_None me l :
  findNearestTarget me l = None <-> forall o, o ∈ l -> ~ eligible me o.
Proof.
  pose proof (proj2 (nearest_fold_inv me l)) as Hs. fold (findNearestTarget me l) in Hs.
  destruct (findNearestTarget me l) as [t|] eqn:Hf; [|done]. split; [done|].
  intros Hnone. destruct Hs as (i & Hi & Ht & _).
  exfalso. apply (Hnone t); [by eapply list_elem_of_lookup_2 | done].
Qed.

End TargetingFacts.
