(* ===== verification/Session.v ===== *)
(** * Session: the React state of the [App] component (src/App.tsx)

    Each [useState] hook (and the refs [entitiesRef], [lastTimeRef]) that
    the game logic reads or writes is a field of [GameState]; the [set_*]
    functions are the [setX] calls.  The App's [level] hook is the field
    [gameLevel] (the name [level] is the entity's field).  The helpers
    [getPlayerTechLevel], [getGoldMultiplier] and [maxUnitCap] are the
    ones of the component. *)

From S2P Require Import Prelude Types Constants Stats.
Local Open Scope Q_scope.

Record GameState := mkGameState {
  phase : GamePhase;
  maxUnlockedDifficulty : Difficulty;
  difficulty : Difficulty;
  gameLevel : Z;
  coins : Z;
  recruitCost : Z;
  unitCosts : UnitType -> Z;
  gameStats : GameStats;
  claimedAchievements : list string;
  globalTech : GlobalTechType -> Z;
  techLevels : UnitType -> Z;
  artifactLevels : ArtifactLevels;
  artifactCost : Z;
  lastSupplyTime : Q;
  canClaimSupply : bool;
  entities : list Entity;
  selectedUnit : option Entity;
  lastTime : Q
}.

(** ** Setters ([setX(v)]) *)

Definition set_phase (s : GameState) (p : GamePhase) : GameState :=
  mkGameState p (maxUnlockedDifficulty s) (difficulty s) (gameLevel s) (coins s) (recruitCost s)
    (unitCosts s) (gameStats s) (claimedAchievements s) (globalTech s) (techLevels s)
    (artifactLevels s) (artifactCost s) (lastSupplyTime s) (canClaimSupply s) (entities s)
    (selectedUnit s) (lastTime s).

Definition set_coins (s : GameState) (c : Z) : GameState :=
  mkGameState (phase s) (maxUnlockedDifficulty s) (difficulty s) (gameLevel s) c (recruitCost s)
    (unitCosts s) (gameStats s) (claimedAchievements s) (globalTech s) (techLevels s)
    (artifactLevels s) (artifactCost s) (lastSupplyTime s) (canClaimSupply s) (entities s)
    (selectedUnit s) (lastTime s).

Definition set_gameStats (s : GameState) (g : GameStats) : GameState :=
  mkGameState (phase s) (maxUnlockedDifficulty s) (difficulty s) (gameLevel s) (coins s) (recruitCost s)
    (unitCosts s) g (claimedAchievements s) (globalTech s) (techLevels s)
    (artifactLevels s) (artifactCost s) (lastSupplyTime s) (canClaimSupply s) (entities s)
    (selectedUnit s) (lastTime s).

Definition set_entities (s : GameState) (es : list Entity) : GameState :=
  mkGameState (phase s) (maxUnlockedDifficulty s) (difficulty s) (gameLevel s) (coins s) (recruitCost s)
    (unitCosts s) (gameStats s) (claimedAchievements s) (globalTech s) (techLevels s)
    (artifactLevels s) (artifactCost s) (lastSupplyTime s) (canClaimSupply s) es
    (selectedUnit s) (lastTime s).

Definition set_selectedUnit (s : GameState) (u : option Entity) : GameState :=
  mkGameState (phase s) (maxUnlockedDifficulty s) (difficulty s) (gameLevel s) (coins s) (recruitCost s)
    (unitCosts s) (gameStats s) (claimedAchievements s) (globalTech s) (techLevels s)
    (artifactLevels s) (artifactCost s) (lastSupplyTime s) (canClaimSupply s) (entities s)
    u (lastTime s).

Definition set_lastTime (s : GameState) (t : Q) : GameState :=
  mkGameState (phase s) (maxUnlockedDifficulty s) (difficulty s) (gameLevel s) (coins s) (recruitCost s)
    (unitCosts s) (gameStats s) (claimedAchievements s) (globalTech s) (techLevels s)
    (artifactLevels s) (artifactCost s) (lastSupplyTime s) (canClaimSupply s) (entities s)
    (selectedUnit s) t.

Definition set_maxUnlockedDifficulty (s : GameState) (v : Difficulty) : GameState :=
  mkGameState (phase s) v (difficulty s) (gameLevel s) (coins s) (recruitCost s) (unitCosts s)
    (gameStats s) (claimedAchievements s) (globalTech s) (techLevels s) (artifactLevels s)
    (artifactCost s) (lastSupplyTime s) (canClaimSupply s) (entities s) (selectedUnit s) (lastTime
    s).

Definition set_difficulty (s : GameState) (v : Difficulty) : GameState :=
  mkGameState (phase s) (maxUnlockedDifficulty s) v (gameLevel s) (coins s) (recruitCost s)
    (unitCosts s) (gameStats s) (claimedAchievements s) (globalTech s) (techLevels s)
    (artifactLevels s) (artifactCost s) (lastSupplyTime s) (canClaimSupply s) (entities s)
    (selectedUnit s) (lastTime s).

Definition set_gameLevel (s : GameState) (v : Z) : GameState :=
  mkGameState (phase s) (maxUnlockedDifficulty s) (difficulty s) v (coins s) (recruitCost s)
    (unitCosts s) (gameStats s) (claimedAchievements s) (globalTech s) (techLevels s)
    (artifactLevels s) (artifactCost s) (lastSupplyTime s) (canClaimSupply s) (entities s)
    (selectedUnit s) (lastTime s).

Definition set_recruitCost (s : GameState) (v : Z) : GameState :=
  mkGameState (phase s) (maxUnlockedDifficulty s) (difficulty s) (gameLevel s) (coins s) v
    (unitCosts s) (gameStats s) (claimedAchievements s) (globalTech s) (techLevels s)
    (artifactLevels s) (artifactCost s) (lastSupplyTime s) (canClaimSupply s) (entities s)
    (selectedUnit s) (lastTime s).

Definition set_unitCosts (s : GameState) (v : UnitType -> Z) : GameState :=
  mkGameState (phase s) (maxUnlockedDifficulty s) (difficulty s) (gameLevel s) (coins s)
    (recruitCost s) v (gameStats s) (claimedAchievements s) (globalTech s) (techLevels s)
    (artifactLevels s) (artifactCost s) (lastSupplyTime s) (canClaimSupply s) (entities s)
    (selectedUnit s) (lastTime s).

Definition set_claimedAchievements (s : GameState) (v : list string) : GameState :=
  mkGameState (phase s) (maxUnlockedDifficulty s) (difficulty s) (gameLevel s) (coins s)
    (recruitCost s) (unitCosts s) (gameStats s) v (globalTech s) (techLevels s) (artifactLevels s)
    (artifactCost s) (lastSupplyTime s) (canClaimSupply s) (entities s) (selectedUnit s) (lastTime
    s).

Definition set_globalTech (s : GameState) (v : GlobalTechType -> Z) : GameState :=
  mkGameState (phase s) (maxUnlockedDifficulty s) (difficulty s) (gameLevel s) (coins s)
    (recruitCost s) (unitCosts s) (gameStats s) (claimedAchievements s) v (techLevels s)
    (artifactLevels s) (artifactCost s) (lastSupplyTime s) (canClaimSupply s) (entities s)
    (selectedUnit s) (lastTime s).

Definition set_techLevels (s : GameState) (v : UnitType -> Z) : GameState :=
  mkGameState (phase s) (maxUnlockedDifficulty s) (difficulty s) (gameLevel s) (coins s)
    (recruitCost s) (unitCosts s) (gameStats s) (claimedAchievements s) (globalTech s) v
    (artifactLevels s) (artifactCost s) (lastSupplyTime s) (canClaimSupply s) (entities s)
    (selectedUnit s) (lastTime s).

Definition set_artifactLevels (s : GameState) (v : ArtifactLevels) : GameState :=
  mkGameState (phase s) (maxUnlockedDifficulty s) (difficulty s) (gameLevel s) (coins s)
    (recruitCost s) (unitCosts s) (gameStats s) (claimedAchievements s) (globalTech s) (techLevels
    s) v (artifactCost s) (lastSupplyTime s) (canClaimSupply s) (entities s) (selectedUnit s)
    (lastTime s).

Definition set_artifactCost (s : GameState) (v : Z) : GameState :=
  mkGameState (phase s) (maxUnlockedDifficulty s) (difficulty s) (gameLevel s) (coins s)
    (recruitCost s) (unitCosts s) (gameStats s) (claimedAchievements s) (globalTech s) (techLevels
    s) (artifactLevels s) v (lastSupplyTime s) (canClaimSupply s) (entities s) (selectedUnit s)
    (lastTime s).

Definition set_lastSupplyTime (s : GameState) (v : Q) : GameState :=
  mkGameState (phase s) (maxUnlockedDifficulty s) (difficulty s) (gameLevel s) (coins s)
    (recruitCost s) (unitCosts s) (gameStats s) (claimedAchievements s) (globalTech s) (techLevels
    s) (artifactLevels s) (artifactCost s) v (canClaimSupply s) (entities s) (selectedUnit s)
    (lastTime s).

Definition set_canClaimSupply (s : GameState) (v : bool) : GameState :=
  mkGameState (phase s) (maxUnlockedDifficulty s) (difficulty s) (gameLevel s) (coins s)
    (recruitCost s) (unitCosts s) (gameStats s) (claimedAchievements s) (globalTech s) (techLevels
    s) (artifactLevels s) (artifactCost s) (lastSupplyTime s) v (entities s) (selectedUnit s)
    (lastTime s).

(** [setGameStats(prev => ({ ...prev, kills: prev.kills + n }))] and the
    like. *)
Definition add_kills (g : GameStats) (n : Z) : GameStats :=
  mkGameStats (kills g + n) (merges g) (wins g) (summons g).
Definition add_merge (g : GameStats) : GameStats :=
  mkGameStats (kills g) (merges g + 1) (wins g) (summons g).
Definition add_win (g : GameStats) : GameStats :=
  mkGameStats (kills g) (merges g) (wins g + 1) (summons g).
Definition add_summon (g : GameStats) : GameStats :=
  mkGameStats (kills g) (merges g) (wins g) (summons g + 1).

(** ** Helpers of the component *)

(** [getPlayerTechLevel(type)]: mythic units use the shared mastery track. *)
Definition getPlayerTechLevel (s : GameState) (t : UnitType) : Z :=
  if decide (tier (UNIT_BASE_STATS t) = MYTHIC) then globalTech s MYTHIC_MASTERY
  else techLevels s t.

(** [getGoldMultiplier()] *)
Definition getGoldMultiplier (s : GameState) : Q :=
  1 + inject_Z (artifactLevels s MIDAS_TOUCH) * 0.10.

(** [maxUnitCap] *)
Definition maxUnitCap (s : GameState) : Z :=
  (BASE_UNIT_CAP + (globalTech s CAPACITY - 1) * UNIT_CAP_PER_LEVEL)%Z.

(** The initial values of the hooks; [Date.now()] is the argument [now]
    and the saved difficulty read from [localStorage] is [saved]. *)
Definition initialUnitCosts (t : UnitType) : Z :=
  Qfloor (inject_Z RECRUIT_COST * tierCostMult (tier (UNIT_BASE_STATS t))).

Definition initialGameState (saved : Difficulty) (now : Q) : GameState :=
  mkGameState DIFFICULTY_SELECT saved NORMAL 1 2000 RECRUIT_COST initialUnitCosts
    (mkGameStats 0 0 0 0) [] (fun _ => 1%Z) (fun _ => 1%Z) noArtifacts ARTIFACT_COST_BASE
    now false [] None 0.

(** The session conditions the stat model relies on: tech levels at
    least 1 and artifact levels non-negative.  Every handler keeps them
    (they only ever increment). *)
Definition session_ok (s : GameState) : Prop :=
  (forall t, 1 <= techLevels s t)%Z /\ (forall g, 1 <= globalTech s g)%Z /\
  (forall a, 0 <= artifactLevels s a)%Z.

Lemma getPlayerTechLevel_ge1 s t : session_ok s -> (1 <= getPlayerTechLevel s t)%Z.
Proof.
  intros (Ht & Hg & _). unfold getPlayerTechLevel. by case_decide.
Qed.

Lemma session_ok_set_entities s es : session_ok s -> session_ok (set_entities s es).
Proof. done. Qed.

Lemma initialGameState_ok saved now : session_ok (initialGameState saved now).
Proof. repeat split; intros; cbn; unfold noArtifacts; lia. Qed.
