(* ===== verification/Placement.v ===== *)
(** * Placement: the drag-and-drop resolver of src/App.tsx

    [handleMouseDown] (lines 829-842) decides whether a press starts a
    drag; [finishDrag] (lines 902-959) applies the tap threshold and the
    enemy-half guard and then installs the result of the [setEntities]
    updater, modelled as [placementUpdater]: merge with an equal unit
    (same type and level), swap with another unit, or move to a free
    cell.  The grid cell under the pointer ([getGridFromClientPos]) is
    the input [targetPos].

    With unique ids the entity list is a store indexed by id
    ([lookupId]); the theorems describe each branch in that view, and
    the invariant [prep_inv] (unique ids, distinct cells, every unit
    alive and of level at least 1, each side on its half of the grid) is
    preserved by every placement. *)

From S2P Require Import Prelude Types Constants Stats Session.
Local Open Scope Q_scope.

(** The predicate of [prev.findIndex(e => e.gridX === gridX &&
    e.gridY === gridY && e.id !== id && e.hp > 0)]. *)
Definition occupies (movingId : string) (gx gy : Z) (e : Entity) : bool :=
  (gridX e =? gx)%Z && (gridY e =? gy)%Z && negb (hasId movingId e) && alive e.

(** The [setEntities(prev => ...)] updater of [finishDrag]; the boolean
    says whether the merge branch ran (it also calls [setGameStats] to
    count the merge). *)
Definition placementUpdater (s : GameState) (movingId : string) (gx gy : Z)
    (prev : list Entity) : list Entity * bool :=
  match findIndexB (hasId movingId) prev with
  | None => (prev, false)
  | Some (meIndex, me) =>
      match findIndexB (occupies movingId gx gy) prev with
      | Some (targetIndex, target) =>
          if bool_decide (type target = type me) && (level target =? level me)%Z then
            let techLvl := getPlayerTechLevel s (type target) in
            let newStats := getUnitStats (type target) (level target + 1) techLvl (artifactLevels s) in
            let newEntities := <[targetIndex := set_level_hp target (level target + 1) (hp_stat newStats)]> prev in
            (delete meIndex newEntities, true)
          else
            let newEntities := <[meIndex := set_cell me (gridX target) (gridY target)]> prev in
            (<[targetIndex := set_cell target (gridX me) (gridY me)]> newEntities, false)
      | None => (<[meIndex := set_cell me gx gy]> prev, false)
      end
  end.

(** [handleMouseDown(e, entity)]: only a player unit in the preparation
    phase starts a drag (the result is the new [draggingId]); pressing an
    enemy selects it. *)
Definition handleMouseDown (s : GameState) (e : Entity) : GameState * option string :=
  if decide (phase s <> PREPARATION) then (s, None)
  else if decide (side e <> PLAYER) then (set_selectedUnit s (Some e), None)
  else (s, Some (id e)).

Section Drag.
Context `{MathSqrt}.

(** [finishDrag(clientX, clientY)] with the drag start [(startX, startY)]
    and the cell under the pointer [targetPos]. *)
Definition finishDrag (s : GameState) (draggingId : option string) (startX startY clientX clientY : Q)
    (targetPos : option (Z * Z)) : GameState :=
  match draggingId with
  | None => s
  | Some mid =>
      if bool_decide (mid = "") then s else
      let dist := msqrt ((clientX - startX) ^ 2 + (clientY - startY) ^ 2) in
      if Qltb dist 10 then
        match findIndexB (hasId mid) (entities s) with
        | Some (_, clicked) => set_selectedUnit s (Some clicked)
        | None => s
        end
      else
        match targetPos with
        | None => s
        | Some (gx, gy) =>
            if (gy <? GRID_ROWS / 2)%Z then s else
            let '(es, merged) := placementUpdater s mid gx gy (entities s) in
            let s' := set_entities s es in
            if merged then set_gameStats s' (add_merge (gameStats s')) else s'
        end
  end.

End Drag.

(** ** The store view and the preparation invariant *)

(** The entity with id [k] (the first one, as [find] returns). *)
Definition lookupId (l : list Entity) (k : string) : option Entity :=
  snd <$> findIndexB (hasId k) l.

Definition cell (e : Entity) : Z * Z := (gridX e, gridY e).

Definition in_player_half (e : Entity) : Prop :=
  (GRID_ROWS / 2 <= gridY e < GRID_ROWS)%Z /\ (0 <= gridX e < GRID_COLS)%Z.

Definition in_enemy_half (e : Entity) : Prop :=
  (0 <= gridY e < GRID_ROWS / 2)%Z /\ (0 <= gridX e < GRID_COLS)%Z.

Definition on_own_half (e : Entity) : Prop :=
  match side e with PLAYER => in_player_half e | ENEMY => in_enemy_half e end.

(** What every unit of the preparation roster satisfies. *)
Definition unit_ok (e : Entity) : Prop :=
  (0 < hp e)%Z /\ (1 <= level e)%Z /\ on_own_half e.

(** The roster invariant of the preparation phase. *)
Record prep_inv (l : list Entity) : Prop := {
  pi_ids : NoDup (id <$> l);
  pi_cells : NoDup (cell <$> l);
  pi_units : forall e, e ∈ l -> unit_ok e
}.

#[export] Instance on_own_half_dec e : Decision (on_own_half e).
Proof. unfold on_own_half, in_player_half, in_enemy_half. destruct (side e); apply _. Defined.

#[export] Instance unit_ok_dec e : Decision (unit_ok e).
Proof. unfold unit_ok. apply _. Defined.

(** The executable check of [prep_inv]. *)
Definition prep_invb (l : list Entity) : bool :=
  bool_decide (NoDup (id <$> l)) && bool_decide (NoDup (cell <$> l)) &&
  forallb (fun e => bool_decide (unit_ok e)) l.

(** The scenario of the spec (section 8): two level-1 archers of the
    player on adjacent cells of the bottom row. *)
Definition archer1 : Entity := createEntity "a1" ARCHER 1 PLAYER 0 7 1 noArtifacts.
Definition archer2 : Entity := createEntity "a2" ARCHER 1 PLAYER 1 7 1 noArtifacts.
Definition archers_state : GameState :=
  set_phase (set_entities (initialGameState NORMAL 0) [archer1; archer2]) PREPARATION.

(** An archer next to a tank: a drop of one on the other swaps them. *)
Definition tank2 : Entity := createEntity "t2" TANK 1 PLAYER 1 7 1 noArtifacts.
Definition mixed_state : GameState :=
  set_phase (set_entities (initialGameState NORMAL 0) [archer1; tank2]) PREPARATION.

(** ** Facts *)

Section StoreView.

Lemma prep_invb_spec l : prep_invb l = true <-> prep_inv l.
Proof.
  unfold prep_invb. rewrite !andb_true_iff, !bool_decide_eq_true, forallb_forall.
  split.
  - intros [[Hi Hc] Hu]. split; [done | done |]. intros e He.
    apply (bool_decide_eq_true_1 _), Hu. by apply list_elem_of_In.
  - intros [Hi Hc Hu]. split; [done|]. intros e He.
    apply bool_decide_eq_true_2, Hu. by apply list_elem_of_In.
Qed.

Lemma occupies_true mid gx gy e :
  occupies mid gx gy e = true <-> cell e = (gx, gy) /\ id e <> mid /\ (0 < hp e)%Z.
Proof.
  unfold occupies, cell, hasId.
  rewrite !andb_true_iff, !Z.eqb_eq, negb_true_iff, bool_decide_eq_false, alive_true.
  split; [intros (((-> & ->) & ?) & ?) | intros ([= -> ->] & ? & ?)]; auto.
Qed.

Lemma lookupId_Some l k e :
  NoDup (id <$> l) -> lookupId l k = Some e <-> exists i, l !! i = Some e /\ id e = k.
Proof.
  intros Hnd. unfold lookupId. split.
  - destruct (findIndexB (hasId k) l) as [[i e']|] eqn:Hf; [|done]. simpl. intros [= <-].
    apply findIndexB_Some in Hf as (Hi & Hid & _). apply hasId_true in Hid. eauto.
  - intros (i & Hi & <-).
    destruct (findIndexB (hasId (id e)) l) as [[j e']|] eqn:Hf.
    + apply findIndexB_Some in Hf as (Hj & Hid & _). apply hasId_true in Hid.
      assert (i = j) as <-.
      { eapply NoDup_lookup; [exact Hnd | by rewrite list_lookup_fmap, Hi |].
        by rewrite list_lookup_fmap, Hj, <- Hid. }
      simpl. congruence.
    + apply findIndexB_None with (e := e) in Hf; [|by eapply list_elem_of_lookup_2].
      rewrite <- not_true_iff_false, hasId_true in Hf. done.
Qed.

Lemma lookupId_None l k : lookupId l k = None <-> forall e, e ∈ l -> id e <> k.
Proof.
  unfold lookupId. rewrite fmap_None, findIndexB_None.
  split; intros H e He; specialize (H e He).
  - rewrite <- hasId_true. congruence.
  - apply not_true_is_false. by rewrite hasId_true.
Qed.

Lemma lookupId_index l k e : lookupId l k = Some e -> exists i, findIndexB (hasId k) l = Some (i, e).
Proof.
  unfold lookupId. destruct (findIndexB (hasId k) l) as [[i e']|]; simpl; [|done].
  intros [= <-]. eauto.
Qed.

(** Writing an entity with the same id at its index: the store changes at
    that id only. *)
Lemma lookupId_insert (l : list Entity) (i : nat) old v k :
  NoDup (id <$> l) -> l !! i = Some old -> id v = id old ->
  lookupId (<[i:=v]> l) k = if bool_decide (k = id v) then Some v else lookupId l k.
Proof.
  intros Hnd Hi Hv. assert (Hnd' : NoDup (id <$> <[i:=v]> l)) by by rewrite (list_fmap_insert_same id l i old).
  pose proof (lookup_lt_Some _ _ _ Hi).
  case_bool_decide as Hk.
  - apply lookupId_Some; [done|]. exists i. split; [by rewrite list_lookup_insert_eq | done].
  - apply option_eq. intros e. rewrite (lookupId_Some _ _ _ Hnd'), (lookupId_Some _ _ _ Hnd).
    split; intros (j & Hj & <-); destruct (decide (i = j)) as [<-|Hne].
    + rewrite list_lookup_insert_eq in Hj by done. injection Hj as <-. by destruct Hk.
    + rewrite list_lookup_insert_ne in Hj by done. eauto.
    + rewrite Hi in Hj. injection Hj as <-. by destruct Hk.
    + exists j. by rewrite list_lookup_insert_ne.
Qed.

(** [splice(i, 1)]: the id of the removed entity disappears from the
    store, and nothing else changes. *)
Lemma lookupId_delete (l : list Entity) (i : nat) old k :
  NoDup (id <$> l) -> l !! i = Some old ->
  lookupId (delete i l) k = if bool_decide (k = id old) then None else lookupId l k.
Proof.
  intros Hnd Hi.
  assert (Hnd' : NoDup (id <$> delete i l)) by (rewrite list_fmap_delete; by apply NoDup_delete_list).
  case_bool_decide as Hk.
  - apply lookupId_None. intros e He Hek. apply list_elem_of_lookup in He as [j Hj].
    apply lookup_delete_Some_inv in Hj as (j' & Hne & Hj'). apply Hne.
    eapply NoDup_lookup; [exact Hnd | by rewrite list_lookup_fmap, Hj' |].
    by rewrite list_lookup_fmap, Hi, Hek, Hk.
  - apply option_eq. intros e. rewrite (lookupId_Some _ _ _ Hnd'), (lookupId_Some _ _ _ Hnd).
    split; intros (j & Hj & <-).
    + apply lookup_delete_Some_inv in Hj as (j' & _ & Hj'). eauto.
    + destruct (decide (j = i)) as [->|Hne].
      * rewrite Hi in Hj. injection Hj as <-. by destruct Hk.
      * destruct (lookup_delete_Some l i j e Hj Hne) as [j' Hj']. eauto.
Qed.

(** The occupant that [findIndex] finds is the unique live entity of the
    cell. *)
Lemma occupant_unique l mid gx gy tg :
  NoDup (cell <$> l) -> tg ∈ l -> occupies mid gx gy tg = true ->
  exists j, findIndexB (occupies mid gx gy) l = Some (j, tg).
Proof.
  intros Hnd Htg Hocc. destruct (findIndexB (occupies mid gx gy) l) as [[j e]|] eqn:Hf.
  - apply findIndexB_Some in Hf as (Hj & He & _). exists j.
    apply list_elem_of_lookup in Htg as [k Hk].
    apply occupies_true in He as (Hce & _), Hocc as (Hct & _).
    assert (k = j) as ->.
    { eapply NoDup_lookup; [exact Hnd | by rewrite list_lookup_fmap, Hk |].
      rewrite list_lookup_fmap, Hj. simpl. by rewrite Hce, Hct. }
    congruence.
  - exfalso. apply findIndexB_None with (e := tg) in Hf; [congruence | done].
Qed.

End StoreView.

(** ** Placement: the three branches and the invariant *)

Section PlacementFacts.

(** The moving unit, found by [findIndex] on its id. *)
Lemma mover_index s mid me :
  lookupId (entities s) mid = Some me ->
  exists i, findIndexB (hasId mid) (entities s) = Some (i, me) /\
            entities s !! i = Some me /\ id me = mid.
Proof.
  intros Hme. destruct (lookupId_index _ _ _ Hme) as [i Hi]. exists i. split; [done|].
  apply findIndexB_Some in Hi as (? & Hid & _). by apply hasId_true in Hid.
Qed.

(** The occupant of the target cell, found by [findIndex]. *)
Lemma target_index s mid gx gy tg :
  prep_inv (entities s) -> tg ∈ entities s -> id tg <> mid -> cell tg = (gx, gy) ->
  exists j, findIndexB (occupies mid gx gy) (entities s) = Some (j, tg) /\ entities s !! j = Some tg.
Proof.
  intros [_ Hcells Hunits] Htg Hne Hcell.
  destruct (occupant_unique (entities s) mid gx gy tg Hcells Htg) as [j Hj].
  { apply occupies_true. split; [done|]. split; [done|]. by apply Hunits. }
  exists j. split; [done|]. by apply findIndexB_Some in Hj as (? & _ & _).
Qed.

(** C4: dropping a unit on a live unit of the same type and level
    removes the moving unit and upgrades the target in place: same id and
    cell, level + 1, hp = maxHp = the derived hp at the new level with the
    current tech and artifacts.  Every other unit is untouched. *)
Theorem placement_merge s mid gx gy me tg :
  prep_inv (entities s) -> lookupId (entities s) mid = Some me ->
  tg ∈ entities s -> id tg <> mid -> cell tg = (gx, gy) ->
  type tg = type me -> level tg = level me ->
  snd (placementUpdater s mid gx gy (entities s)) = true /\
  length (fst (placementUpdater s mid gx gy (entities s))) = (length (entities s) - 1)%nat /\
  forall k, lookupId (fst (placementUpdater s mid gx gy (entities s))) k =
    if bool_decide (k = mid) then None
    else if bool_decide (k = id tg) then
      Some (set_level_hp tg (level tg + 1)
              (hp_stat (getUnitStats (type tg) (level tg + 1) (getPlayerTechLevel s (type tg)) (artifactLevels s))))
    else lookupId (entities s) k.
Proof.
  intros Hinv Hme Htg Hne Hcell Htype Hlvl.
  destruct (mover_index s mid me Hme) as (i & Hi & Hli & Hidme).
  destruct (target_index s mid gx gy tg Hinv Htg Hne Hcell) as (j & Hj & Hlj).
  assert (Hij : i <> j) by (intros ->; congruence).
  unfold placementUpdater. rewrite Hi, Hj, (bool_decide_eq_true_2 _ Htype), (proj2 (Z.eqb_eq _ _) Hlvl).
  cbn [andb fst snd]. split; [done|].
  set (t' := set_level_hp tg _ _).
  assert (Hli' : <[j:=t']> (entities s) !! i = Some me) by by rewrite list_lookup_insert_ne.
  assert (Hnd' : NoDup (id <$> <[j:=t']> (entities s)))
    by (rewrite (list_fmap_insert_same id _ j tg) by done; apply Hinv).
  split.
  - rewrite length_delete by eauto. by rewrite length_insert.
  - intros k. rewrite (lookupId_delete _ i me) by done. rewrite Hidme.
    case_bool_decide; [done|]. rewrite (lookupId_insert _ j tg) by (done || apply Hinv). done.
Qed.

(** C22: dropping a unit on a live unit of another type or level
    exchanges their cells (grid and continuous coordinates); nothing else
    changes. *)
Theorem placement_swap s mid gx gy me tg :
  prep_inv (entities s) -> lookupId (entities s) mid = Some me ->
  tg ∈ entities s -> id tg <> mid -> cell tg = (gx, gy) ->
  (type tg <> type me \/ level tg <> level me) ->
  snd (placementUpdater s mid gx gy (entities s)) = false /\
  length (fst (placementUpdater s mid gx gy (entities s))) = length (entities s) /\
  forall k, lookupId (fst (placementUpdater s mid gx gy (entities s))) k =
    if bool_decide (k = mid) then Some (set_cell me gx gy)
    else if bool_decide (k = id tg) then Some (set_cell tg (gridX me) (gridY me))
    else lookupId (entities s) k.
Proof.
  intros Hinv Hme Htg Hne Hcell Hdiff.
  destruct (mover_index s mid me Hme) as (i & Hi & Hli & Hidme).
  destruct (target_index s mid gx gy tg Hinv Htg Hne Hcell) as (j & Hj & Hlj).
  assert (Hij : i <> j) by (intros ->; congruence).
  unfold cell in Hcell. injection Hcell as Hgx Hgy.
  assert (Hcond : bool_decide (type tg = type me) && (level tg =? level me)%Z = false).
  { apply andb_false_iff. destruct Hdiff as [Ht | Hl];
      [left; by apply bool_decide_eq_false_2 | right; by apply Z.eqb_neq]. }
  unfold placementUpdater. rewrite Hi, Hj, Hcond. cbn [fst snd]. split; [done|].
  set (m' := set_cell me (gridX tg) (gridY tg)).
  assert (Hlj' : <[i:=m']> (entities s) !! j = Some tg) by by rewrite list_lookup_insert_ne.
  assert (Hnd' : NoDup (id <$> <[i:=m']> (entities s)))
    by (rewrite (list_fmap_insert_same id _ i me) by done; apply Hinv).
  split; [by rewrite !length_insert|].
  intros k. rewrite (lookupId_insert _ j tg) by done. rewrite (lookupId_insert _ i me) by (done || apply Hinv).
  unfold m'. rewrite Hgx, Hgy. cbn [id set_cell]. rewrite Hidme.
  repeat case_bool_decide; congruence.
Qed.

(** Dropping a unit on a cell with no other live unit moves it
    there (grid and continuous coordinates); nothing else changes. *)
Theorem placement_move s mid gx gy me :
  prep_inv (entities s) -> lookupId (entities s) mid = Some me ->
  (forall e, e ∈ entities s -> id e <> mid -> cell e <> (gx, gy)) ->
  snd (placementUpdater s mid gx gy (entities s)) = false /\
  length (fst (placementUpdater s mid gx gy (entities s))) = length (entities s) /\
  forall k, lookupId (fst (placementUpdater s mid gx gy (entities s))) k =
    if bool_decide (k = mid) then Some (set_cell me gx gy) else lookupId (entities s) k.
Proof.
  intros Hinv Hme Hfree.
  destruct (mover_index s mid me Hme) as (i & Hi & Hli & Hidme).
  assert (Hocc : findIndexB (occupies mid gx gy) (entities s) = None).
  { apply findIndexB_None. intros e He. apply not_true_is_false. rewrite occupies_true.
    intros (Hc & Hid & _). by apply (Hfree e). }
  unfold placementUpdater. rewrite Hi, Hocc. cbn [fst snd]. split; [done|].
  split; [by rewrite length_insert|].
  intros k. rewrite (lookupId_insert _ i me) by (done || apply Hinv). cbn [id set_cell]. by rewrite Hidme.
Qed.

End PlacementFacts.

Section PlacementInvariant.

Lemma unit_ok_moved_player e gx gy :
  unit_ok e -> side e = PLAYER ->
  (GRID_ROWS / 2 <= gy < GRID_ROWS)%Z -> (0 <= gx < GRID_COLS)%Z -> unit_ok (set_cell e gx gy).
Proof.
  intros (Hhp & Hlvl & _) Hside Hy Hx. split; [done|]. split; [done|].
  unfold on_own_half, in_player_half. cbn. rewrite Hside. cbn. lia.
Qed.

(** A live unit on a player-half cell is a player unit. *)
Lemma occupant_is_player e :
  unit_ok e -> (GRID_ROWS / 2 <= gridY e)%Z -> side e = PLAYER.
Proof.
  intros (_ & _ & Hhalf) Hy. unfold on_own_half, in_enemy_half in Hhalf.
  destruct (side e); [done | lia].
Qed.

Lemma prep_inv_units_insert (l : list Entity) i v :
  (forall e, e ∈ l -> unit_ok e) -> unit_ok v -> forall e, e ∈ <[i:=v]> l -> unit_ok e.
Proof. intros Hl Hv e He. apply elem_of_insert_inv in He as [->|He]; auto. Qed.

Lemma merge_preserves s l i me j tg :
  session_ok s -> prep_inv l -> l !! i = Some me -> l !! j = Some tg -> i <> j ->
  prep_inv (delete i (<[j := set_level_hp tg (level tg + 1)
      (hp_stat (getUnitStats (type tg) (level tg + 1) (getPlayerTechLevel s (type tg)) (artifactLevels s)))]> l)).
Proof.
  intros Hs [Hids Hcells Hunits] Hi Hj Hij.
  assert (Htg : unit_ok tg) by (apply Hunits; by eapply list_elem_of_lookup_2).
  destruct Htg as (Hhp & Hlvl & Hhalf).
  split.
  - rewrite list_fmap_delete. apply NoDup_delete_list. by rewrite (list_fmap_insert_same id _ j tg).
  - rewrite list_fmap_delete. apply NoDup_delete_list. by rewrite (list_fmap_insert_same cell _ j tg).
  - intros e He. apply elem_of_delete_inv in He. revert e He. apply prep_inv_units_insert; [done|].
    split; [|split; [cbn [level set_level_hp]; lia | done]].
    cbn [hp set_level_hp]. destruct Hs as (Ht & Hg & Ha).
    enough (80 <= hp_stat (getUnitStats (type tg) (level tg + 1) (getPlayerTechLevel s (type tg)) (artifactLevels s)))%Z by lia.
    apply hp_stat_ge80; [lia | by apply getPlayerTechLevel_ge1 | apply Ha].
Qed.

Lemma swap_preserves l i me j tg gx gy :
  prep_inv l -> l !! i = Some me -> l !! j = Some tg -> i <> j -> side me = PLAYER ->
  cell tg = (gx, gy) -> (GRID_ROWS / 2 <= gy < GRID_ROWS)%Z -> (0 <= gx < GRID_COLS)%Z ->
  prep_inv (<[j := set_cell tg (gridX me) (gridY me)]> (<[i := set_cell me (gridX tg) (gridY tg)]> l)).
Proof.
  intros [Hids Hcells Hunits] Hi Hj Hij Hme Hcell Hy Hx. injection Hcell as Hgx Hgy.
  assert (Hume : unit_ok me) by (apply Hunits; by eapply list_elem_of_lookup_2).
  assert (Hutg : unit_ok tg) by (apply Hunits; by eapply list_elem_of_lookup_2).
  assert (Htgp : side tg = PLAYER) by (apply occupant_is_player; [done | lia]).
  assert (Hmeh : in_player_half me) by (destruct Hume as (_ & _ & Hh); unfold on_own_half in Hh; by rewrite Hme in Hh).
  split.
  - rewrite (list_fmap_insert_same id _ j tg) by (done || by rewrite list_lookup_insert_ne).
    by rewrite (list_fmap_insert_same id _ i me).
  - rewrite !list_fmap_insert. apply (NoDup_swap _ i j); [done | by rewrite list_lookup_fmap, Hi |].
    rewrite list_lookup_fmap, Hj. done.
  - intros e He. apply elem_of_insert_inv in He as [->|He].
    + destruct Hmeh. apply unit_ok_moved_player; [done | done | lia | lia].
    + apply elem_of_insert_inv in He as [->|He]; [|by apply Hunits].
      apply unit_ok_moved_player; [done | done | lia | lia].
Qed.

Lemma move_preserves l i me mid gx gy :
  prep_inv l -> l !! i = Some me -> id me = mid -> side me = PLAYER ->
  findIndexB (occupies mid gx gy) l = None ->
  (GRID_ROWS / 2 <= gy < GRID_ROWS)%Z -> (0 <= gx < GRID_COLS)%Z ->
  prep_inv (<[i := set_cell me gx gy]> l).
Proof.
  intros [Hids Hcells Hunits] Hi Hid Hme Hocc Hy Hx.
  assert (Hume : unit_ok me) by (apply Hunits; by eapply list_elem_of_lookup_2).
  split.
  - by rewrite (list_fmap_insert_same id _ i me).
  - rewrite list_fmap_insert. apply NoDup_insert_fresh; [done|].
    intros j Hji Hc. rewrite list_lookup_fmap in Hc.
    destruct (l !! j) as [e|] eqn:Hj; [|done]. assert (Hce : cell e = (gx, gy)).
    { apply (inj Some) in Hc. rewrite Hc. reflexivity. }
    assert (He : e ∈ l) by by eapply list_elem_of_lookup_2.
    apply findIndexB_None with (e := e) in Hocc; [|done].
    rewrite <- not_true_iff_false, occupies_true in Hocc. apply Hocc.
    split; [exact Hce|]. split; [|by destruct (Hunits e He)].
    intros Heid. apply Hji. eapply NoDup_lookup; [exact Hids | by rewrite list_lookup_fmap, Hj |].
    rewrite list_lookup_fmap, Hi. cbn. by rewrite Heid, Hid.
  - apply prep_inv_units_insert; [done|]. by apply unit_ok_moved_player.
Qed.

(** Every placement of a player unit on a cell of the player half
    preserves the preparation invariant: ids stay unique, no two units
    share a cell, every unit is alive with level at least 1, and every
    unit stays on its own half (enemies are never displaced). *)
Lemma placementUpdater_prep_inv s mid gx gy me :
  session_ok s -> prep_inv (entities s) -> lookupId (entities s) mid = Some me ->
  side me = PLAYER -> (GRID_ROWS / 2 <= gy < GRID_ROWS)%Z -> (0 <= gx < GRID_COLS)%Z ->
  prep_inv (fst (placementUpdater s mid gx gy (entities s))).
Proof.
  intros Hs Hinv Hme Hside Hy Hx.
  destruct (mover_index s mid me Hme) as (i & Hi & Hli & Hidme).
  unfold placementUpdater. rewrite Hi.
  destruct (findIndexB (occupies mid gx gy) (entities s)) as [[j tg]|] eqn:Hj.
  - apply findIndexB_Some in Hj as (Hlj & Hocc & _). apply occupies_true in Hocc as (Hcell & Hne & _).
    assert (i <> j) by (intros ->; congruence).
    destruct (bool_decide (type tg = type me) && (level tg =? level me)%Z); cbn [fst].
    + by apply (merge_preserves s _ i me).
    + by apply (swap_preserves _ i me j tg gx gy).
  - by apply (move_preserves _ i me mid).
Qed.

End PlacementInvariant.

Section DragFacts.
Context `{MathSqrt}.

(** The three outcomes of a gesture: nothing, a selection, or the
    installed result of the updater (with the merge counted). *)
Lemma finishDrag_shape s d sx sy cx cy tp :
  finishDrag s d sx sy cx cy tp = s \/
  (exists u, finishDrag s d sx sy cx cy tp = set_selectedUnit s (Some u) /\ u ∈ entities s) \/
  exists mid gx gy, d = Some mid /\ tp = Some (gx, gy) /\ (GRID_ROWS / 2 <= gy)%Z /\
    finishDrag s d sx sy cx cy tp =
      (let s' := set_entities s (fst (placementUpdater s mid gx gy (entities s))) in
       if snd (placementUpdater s mid gx gy (entities s)) then set_gameStats s' (add_merge (gameStats s'))
       else s').
Proof.
  unfold finishDrag. destruct d as [mid|]; [|by left]. case_bool_decide; [by left|].
  case_match.
  - destruct (findIndexB (hasId mid) (entities s)) as [[i u]|] eqn:Hf; [|by left].
    right; left. exists u. split; [done|]. apply findIndexB_Some in Hf as (Hi & _).
    by eapply list_elem_of_lookup_2.
  - destruct tp as [[gx gy]|]; [|by left].
    destruct (gy <? GRID_ROWS / 2)%Z eqn:Hgy; [by left|]. apply Z.ltb_ge in Hgy.
    right; right. exists mid, gx, gy. do 3 (split; [done|]).
    by destruct (placementUpdater s mid gx gy (entities s)).
Qed.

(** C23: a gesture shorter than the tap threshold, one released outside
    the grid, or one released on the enemy half never changes the roster
    or the statistics. *)
Theorem finishDrag_rejects s d sx sy cx cy tp :
  (msqrt ((cx - sx) ^ 2 + (cy - sy) ^ 2) < 10 \/ tp = None \/
   exists gx gy, tp = Some (gx, gy) /\ (gy < GRID_ROWS / 2)%Z) ->
  entities (finishDrag s d sx sy cx cy tp) = entities s /\
  gameStats (finishDrag s d sx sy cx cy tp) = gameStats s.
Proof.
  intros Hrej. unfold finishDrag.
  destruct d as [mid|]; [|done]. case_bool_decide; [done|].
  case_q (Qltb (msqrt ((cx - sx) ^ 2 + (cy - sy) ^ 2)) 10).
  - by destruct (findIndexB (hasId mid) (entities s)) as [[? ?]|].
  - destruct Hrej as [Htap | [-> | (gx & gy & -> & Hgy)]]; [lra | done |].
    by rewrite (proj2 (Z.ltb_lt _ _) Hgy).
Qed.

(** Otherwise the updater's roster is installed, and the merge
    counter grows by exactly one when, and only when, the merge branch
    ran. *)
Theorem finishDrag_installs s mid sx sy cx cy gx gy :
  mid <> "" -> 10 <= msqrt ((cx - sx) ^ 2 + (cy - sy) ^ 2) -> (GRID_ROWS / 2 <= gy)%Z ->
  entities (finishDrag s (Some mid) sx sy cx cy (Some (gx, gy))) =
    fst (placementUpdater s mid gx gy (entities s)) /\
  merges (gameStats (finishDrag s (Some mid) sx sy cx cy (Some (gx, gy)))) =
    (merges (gameStats s) + if snd (placementUpdater s mid gx gy (entities s)) then 1 else 0)%Z.
Proof.
  intros Hmid Hdist Hgy. unfold finishDrag.
  rewrite bool_decide_eq_false_2 by done.
  case_q (Qltb (msqrt ((cx - sx) ^ 2 + (cy - sy) ^ 2)) 10); [lra|].
  rewrite (proj2 (Z.ltb_ge _ _) Hgy).
  destruct (placementUpdater s mid gx gy (entities s)) as [es []]; simpl; split; [done | lia | done | lia].
Qed.

Lemma lookupId_member l e : NoDup (id <$> l) -> e ∈ l -> lookupId l (id e) = Some e.
Proof.
  intros Hnd He. apply lookupId_Some; [done|]. apply list_elem_of_lookup in He as [i Hi]. eauto.
Qed.

(** C11: a whole gesture (press on a unit, release on a grid cell)
    preserves the preparation invariant, whatever the unit pressed and
    the cell of release. *)
Theorem drag_preserves_prep_inv s e sx sy cx cy gx gy :
  session_ok s -> prep_inv (entities s) -> e ∈ entities s ->
  (0 <= gy < GRID_ROWS)%Z -> (0 <= gx < GRID_COLS)%Z ->
  let '(s1, d) := handleMouseDown s e in
  prep_inv (entities (finishDrag s1 d sx sy cx cy (Some (gx, gy)))).
Proof.
  intros Hs Hinv He Hy Hx. unfold handleMouseDown.
  case_decide; [by destruct (finishDrag_shape s None sx sy cx cy (Some (gx, gy)))
                   as [-> | [(u & -> & _) | (? & ? & ? & ? & _)]]|].
  case_decide as Hside.
  { destruct (finishDrag_shape (set_selectedUnit s (Some e)) None sx sy cx cy (Some (gx, gy)))
      as [-> | [(u & -> & _) | (? & ? & ? & ? & _)]]; done. }
  destruct (finishDrag_shape s (Some (id e)) sx sy cx cy (Some (gx, gy)))
    as [-> | [(u & -> & _) | (mid & gx' & gy' & [= <-] & [= <- <-] & Hgy & ->)]]; [done | done |].
  assert (Hpl : prep_inv (fst (placementUpdater s (id e) gx gy (entities s)))).
  { apply (placementUpdater_prep_inv s (id e) gx gy e); try done; [|lia].
    apply lookupId_member; [apply Hinv | done]. }
  cbv zeta. by destruct (snd (placementUpdater s (id e) gx gy (entities s))).
Qed.

End DragFacts.

(** ** Witnesses *)

Section Witnesses.

Ltac prep_inv_by_eval := apply prep_invb_spec; vm_compute; reflexivity.

Lemma archers_state_ok : session_ok archers_state.
Proof. repeat split; intros; cbn; unfold noArtifacts; lia. Qed.

Lemma mixed_state_ok : session_ok mixed_state.
Proof. repeat split; intros; cbn; unfold noArtifacts; lia. Qed.

(** Dragging archer a1 onto archer a2 leaves one level-2 archer with
    144 hp (= floor(80 * 1.8)) at a2's cell. *)
Lemma placement_merge_witness :
  prep_inv (entities archers_state) /\
  lookupId (fst (placementUpdater archers_state "a1" 1 7 (entities archers_state))) "a2"
  = Some (set_level_hp archer2 2 144) /\
  lookupId (fst (placementUpdater archers_state "a1" 1 7 (entities archers_state))) "a1" = None.
Proof.
  assert (Hinv : prep_inv (entities archers_state)) by prep_inv_by_eval.
  destruct (placement_merge archers_state "a1" 1 7 archer1 archer2) as (_ & _ & Hk);
    [done | vm_compute; reflexivity | by right; left | done | done | done | done |].
  split; [done|]. rewrite !Hk. vm_compute. split; reflexivity.
Defined.

Lemma placement_swap_witness :
  lookupId (fst (placementUpdater mixed_state "a1" 1 7 (entities mixed_state))) "a1"
  = Some (set_cell archer1 1 7) /\
  lookupId (fst (placementUpdater mixed_state "a1" 1 7 (entities mixed_state))) "t2"
  = Some (set_cell tank2 0 7).
Proof.
  destruct (placement_swap mixed_state "a1" 1 7 archer1 tank2) as (_ & _ & Hk);
    [prep_inv_by_eval | vm_compute; reflexivity | by right; left | done | done | by left |].
  rewrite !Hk. vm_compute. split; reflexivity.
Defined.

Lemma placement_move_witness :
  lookupId (fst (placementUpdater archers_state "a1" 3 6 (entities archers_state))) "a1"
  = Some (set_cell archer1 3 6).
Proof.
  destruct (placement_move archers_state "a1" 3 6 archer1) as (_ & _ & Hk);
    [prep_inv_by_eval | vm_compute; reflexivity | |].
  - intros e He _. repeat (apply elem_of_cons in He as [->|He]); [done | done |].
    by apply not_elem_of_nil in He.
  - rewrite Hk. vm_compute. reflexivity.
Defined.

(** A 5-pixel gesture is a tap: the roster is unchanged. *)
Lemma finishDrag_rejects_witness :
  entities (finishDrag archers_state (Some "a1") 0 0 3 4 (Some (1%Z, 7%Z))) = entities archers_state.
Proof.
  apply (finishDrag_rejects archers_state (Some "a1") 0 0 3 4 (Some (1%Z, 7%Z))).
  left. vm_compute. reflexivity.
Defined.

(** A 50-pixel drag of a1 onto a2 counts one merge. *)
Lemma finishDrag_installs_witness :
  merges (gameStats (finishDrag archers_state (Some "a1") 0 0 50 0 (Some (1%Z, 7%Z)))) = 1%Z.
Proof.
  rewrite (proj2 (finishDrag_installs archers_state "a1" 0 0 50 0 1 7 ltac:(done)
             ltac:(vm_compute; discriminate) ltac:(grid_lia))).
  vm_compute. reflexivity.
Defined.

Lemma drag_preserves_prep_inv_witness :
  let '(s1, d) := handleMouseDown archers_state archer1 in
  prep_inv (entities (finishDrag s1 d 0 0 50 0 (Some (1%Z, 7%Z)))).
Proof.
  apply (drag_preserves_prep_inv archers_state archer1 0 0 50 0 1 7);
    [apply archers_state_ok | prep_inv_by_eval | by left | grid_lia | grid_lia].
Defined.

End Witnesses.
