(* ===== verification/Economy.v ===== *)
(** * Economy: the shop, research, artifact, altar and reward handlers of src/App.tsx

    Each handler of the [App] component that spends or earns coins is a
    function [GameState -> ... -> GameState]: [handleBuyUnit] (lines
    696-815), [handleSynthesize] (356-410), [applyTechUpgrade] (412-435),
    [applyGlobalUpgrade] (437-470), [handleBuyArtifact] (472-508),
    [handleSellUnit] (510-529), [claimAchievement] (531-543),
    [claimSupply] (175-185) and the supply timer (160-168).  The draws of
    [Math.random()] and the fresh ids of [createEntity] are arguments.
    The [setX(prev => ...)] updaters of one handler see the state the
    handler read (React runs them in order on the same snapshot), so
    each handler is the composition of its writes.

    [econ_inv] is the invariant of the preparation phase and [prep_step]
    its step relation (every handler and every placement gesture);
    [prep_reachable_inv] proves the invariant of every reachable state by
    rule induction.  [randomProbs], [premiumProbs] and [sampleCumulative]
    read the gacha as the weighted tables of the spec's design note, and
    [gacha_cumulative_tables] proves the code's cascades equal to them. *)

From S2P Require Import Prelude Types Constants Stats Session Placement.
From stdpp Require Import relations.
Local Open Scope Q_scope.

#[export] Instance UnitType_inhabited : Inhabited UnitType := populate INFANTRY.
#[export] Instance ArtifactType_inhabited : Inhabited ArtifactType := populate HOLY_SWORD.

(** [Object.values(UnitType).filter(t => UNIT_BASE_STATS[t].tier === tr)] *)
Definition typesOfTier (tr : UnitTier) : list UnitType :=
  List.filter (fun t => bool_decide (tier (UNIT_BASE_STATS t) = tr)) allUnitTypes.

(** [arr[Math.floor(Math.random() * arr.length)]] with the draw [r]. *)
Definition pickRandom {A} `{Inhabited A} (l : list A) (r : Q) : A :=
  l !!! Z.to_nat (Qfloor (r * inject_Z (Z.of_nat (length l)))).

(** The tier thresholds of the RANDOM summon (lines 729-755); [rand] is
    the first draw, [r] the one that picks the type within the tier. *)
Definition rollRandom (luck : Z) (rand r : Q) : UnitType :=
  let luckLvl := inject_Z (luck - 1) in
  let legendProb := 0.01 + luckLvl * 0.005 in
  let epicProb := 0.09 + luckLvl * 0.01 in
  let rareProb := 0.30 + luckLvl * 0.02 in
  let legendThreshold := 1 - legendProb in
  let epicThreshold := legendThreshold - epicProb in
  let rareThreshold := epicThreshold - rareProb in
  if Qltb legendThreshold rand then pickRandom (typesOfTier LEGENDARY) r
  else if Qltb epicThreshold rand then pickRandom (typesOfTier EPIC) r
  else if Qltb rareThreshold rand then pickRandom (typesOfTier RARE) r
  else pickRandom (typesOfTier COMMON) r.

(** The PREMIUM summon (lines 757-775). *)
Definition rollPremium (luck : Z) (rand r : Q) : UnitType :=
  let luckLvl := inject_Z (luck - 1) in
  let legendProb := 0.10 + luckLvl * 0.01 in
  let epicProb := 0.40 + luckLvl * 0.02 in
  if Qltb (1 - legendProb) rand then pickRandom (typesOfTier LEGENDARY) r
  else if Qltb (1 - legendProb - epicProb) rand then pickRandom (typesOfTier EPIC) r
  else pickRandom (typesOfTier RARE) r.

(** [buyType: UnitType | 'RANDOM' | 'PREMIUM'] *)
Inductive BuyType := RANDOM | PREMIUM | SPECIFIC (t : UnitType).

(** [entities.filter(e => e.side === Side.PLAYER).length] *)
Definition playerCount (es : list Entity) : Z :=
  Z.of_nat (length (filter (fun e => side e = PLAYER) es)).

(** [!entities.find(e => e.gridX === x && e.gridY === y && e.hp > 0)] *)
Definition cellFree (es : list Entity) (gx gy : Z) : bool :=
  negb (existsb (fun e => (gridX e =? gx)%Z && (gridY e =? gy)%Z && alive e) es).

(** The two loops of lines 718-725: rows from [GRID_ROWS - 1] down to
    [GRID_ROWS / 2], columns from 0 up. *)
Definition availableSpots (es : list Entity) : list (Z * Z) :=
  flat_map (fun gy => List.map (fun gx => (gx, gy))
                        (List.filter (fun gx => cellFree es gx gy) (seqZ 0 GRID_COLS)))
    (reverse (seqZ (GRID_ROWS / 2) (GRID_ROWS - GRID_ROWS / 2))).

(** [cost] (lines 706-716) *)
Definition buyCost (s : GameState) (bt : BuyType) : Z :=
  match bt with
  | RANDOM => recruitCost s
  | PREMIUM => (recruitCost s * 2)%Z
  | SPECIFIC t => unitCosts s t
  end.

(** [finalType] *)
Definition buyFinalType (s : GameState) (bt : BuyType) (rand r : Q) : UnitType :=
  match bt with
  | RANDOM => rollRandom (globalTech s LUCK) rand r
  | PREMIUM => rollPremium (globalTech s LUCK) rand r
  | SPECIFIC t => t
  end.

(** [handleBuyUnit(buyType)] *)
Definition handleBuyUnit (s : GameState) (bt : BuyType) (rand r : Q) (newId : string) : GameState :=
  if (maxUnitCap s <=? playerCount (entities s))%Z then s else
  let cost := buyCost s bt in
  if (cost <=? coins s)%Z then
    match availableSpots (entities s) with
    | [] => s
    | (sx, sy) :: _ =>
        let finalType := buyFinalType s bt rand r in
        let newUnit := createEntity newId finalType 1 PLAYER sx sy
                         (getPlayerTechLevel s finalType) (artifactLevels s) in
        let s := set_coins s (coins s - cost)%Z in
        let s := match bt with
                 | SPECIFIC t => set_unitCosts s ((unitCosts s) ⟨t ↦ unitCosts s t + 10⟩)%Z
                 | _ => set_recruitCost s (recruitCost s + RECRUIT_COST_INCREASE)%Z
                 end in
        let s := set_entities s (entities s ++ [newUnit]) in
        set_gameStats s (add_summon (gameStats s))
    end
  else s.

(** [handleSynthesize(recipe)]: the ingredients are searched among the
    player's units, then re-validated inside the [setEntities] updater. *)
Definition handleSynthesize (s : GameState) (recipe : SynthesisRecipe) (newId : string) : GameState :=
  if (coins s <? cost recipe)%Z then s else
  let playerEntities := filter (fun e => side e = PLAYER) (entities s) in
  let ing1 := snd <$> findIndexB (fun e => bool_decide (type e = ingredient1 recipe)
                                          && (minLevel recipe <=? level e)%Z) playerEntities in
  let ing2 := match ing1 with
              | Some i1 => snd <$> findIndexB (fun e => bool_decide (type e = ingredient2 recipe)
                             && (minLevel recipe <=? level e)%Z && negb (hasId (id i1) e)) playerEntities
              | None => None
              end in
  match ing1, ing2 with
  | Some i1, Some i2 =>
      let s := set_coins s (coins s - cost recipe)%Z in
      let prev := entities s in
      if negb (existsb (hasId (id i1)) prev) || negb (existsb (hasId (id i2)) prev) then s else
      let withoutIngredients :=
        filter (fun e => id e <> id i1 /\ id e <> id i2) prev in
      let newUnit := createEntity newId (result recipe) 1 PLAYER (gridX i1) (gridY i1)
                       (getPlayerTechLevel s (result recipe)) (artifactLevels s) in
      set_entities s (withoutIngredients ++ [newUnit])
  | _, _ => s
  end.

(** [{ ...ent, maxHp: newStats.hp, hp: newStats.hp }] for the units [p]
    selects, with the stats [stats] gives them. *)
Definition refreshUnits (p : Entity -> bool) (stats : Entity -> UnitStats) (es : list Entity)
    : list Entity :=
  (fun ent => if p ent then set_maxHp_hp ent (hp_stat (stats ent)) (hp_stat (stats ent))
               else ent) <$> es.

(** [applyTechUpgrade(type)] *)
Definition applyTechUpgrade (s : GameState) (t : UnitType) : GameState :=
  let lvl := techLevels s t in
  let cost := (TECH_COST_BASE + (lvl - 1) * TECH_COST_INCREASE)%Z in
  if (cost <=? coins s)%Z then
    let s := set_coins s (coins s - cost)%Z in
    let newLevel := (techLevels s t + 1)%Z in
    let s := set_techLevels s ((techLevels s) ⟨t ↦ newLevel⟩) in
    set_entities s (refreshUnits
      (fun ent => bool_decide (side ent = PLAYER) && bool_decide (type ent = t))
      (fun ent => getUnitStats (type ent) (level ent) newLevel (artifactLevels s)) (entities s))
  else s.

(** [applyGlobalUpgrade(type)] *)
Definition applyGlobalUpgrade (s : GameState) (g : GlobalTechType) : GameState :=
  let info := GLOBAL_TECH_INFO g in
  let lvl := globalTech s g in
  if (techMaxLevel info <=? lvl)%Z then s else
  let cost := (baseCost info + (lvl - 1) * costInc info)%Z in
  if (cost <=? coins s)%Z then
    let s := set_coins s (coins s - cost)%Z in
    let newLvl := (globalTech s g + 1)%Z in
    let s := set_globalTech s ((globalTech s) ⟨g ↦ newLvl⟩) in
    if bool_decide (g = MYTHIC_MASTERY) then
      set_entities s (refreshUnits
        (fun ent => bool_decide (side ent = PLAYER) && bool_decide (tier (UNIT_BASE_STATS (type ent)) = MYTHIC))
        (fun ent => getUnitStats (type ent) (level ent) newLvl (artifactLevels s)) (entities s))
    else s
  else s.

(** [handleBuyArtifact()] with the draw [r]: a random artifact gains a
    level; every player unit gets the new maximum and keeps its missing
    hit points ([hp + (newStats.hp - maxHp)]). *)
Definition handleBuyArtifact (s : GameState) (r : Q) : GameState :=
  if (artifactCost s <=? coins s)%Z then
    let s := set_coins s (coins s - artifactCost s)%Z in
    let randomType := pickRandom allArtifactTypes r in
    let newLevels := (artifactLevels s) ⟨randomType ↦ artifactLevels s randomType + 1⟩%Z in
    let s := set_artifactLevels s newLevels in
    let s := set_entities s ((fun ent =>
               if bool_decide (side ent = PLAYER) then
                 let newStats := getUnitStats (type ent) (level ent) (getPlayerTechLevel s (type ent)) newLevels in
                 set_maxHp_hp ent (hp_stat newStats) (hp ent + (hp_stat newStats - maxHp ent))%Z
               else ent) <$> entities s) in
    set_artifactCost s (artifactCost s + ARTIFACT_COST_INCREASE)%Z
  else s.

(** The refund of [handleSellUnit] (lines 516-522). *)
Definition sellRefund (s : GameState) (u : Entity) : Z :=
  let baseValue := Qfloor (inject_Z (recruitCost s) * tierCostMult (tier (UNIT_BASE_STATS (type u)))) in
  let totalValue := inject_Z baseValue * 2 ^ (level u - 1) in
  Qfloor (totalValue * 0.2).

(** [handleSellUnit()] *)
Definition handleSellUnit (s : GameState) : GameState :=
  match selectedUnit s with
  | None => s
  | Some u =>
      if decide (side u <> PLAYER) then s else
      let s := set_coins s (coins s + sellRefund s u)%Z in
      let s := set_entities s (filter (fun e => id e <> id u) (entities s)) in
      set_selectedUnit s None
  end.

(** [claimAchievement(achId, reward)]; the [Set] of claimed ids is a
    list in insertion order. *)
Definition claimAchievement (s : GameState) (achId : string) (reward : Z) : GameState :=
  if bool_decide (achId ∈ claimedAchievements s) then s else
  set_claimedAchievements (set_coins s (coins s + reward)%Z) (claimedAchievements s ++ [achId]).

(** [claimSupply()] at time [now] ([Date.now()]). *)
Definition claimSupply (s : GameState) (now : Q) : GameState :=
  let baseAmount := (100 + gameLevel s * 10)%Z in
  let finalAmount := Qfloor (inject_Z baseAmount * getGoldMultiplier s) in
  set_canClaimSupply (set_lastSupplyTime (set_coins s (coins s + finalAmount)%Z) now) false.

(** One run of the [setInterval] callback of the supply timer. *)
Definition supplyTimerTick (s : GameState) (now : Q) : GameState :=
  if negb (canClaimSupply s) && Qltb 30000 (now - lastSupplyTime s)
     && negb (bool_decide (phase s = DIFFICULTY_SELECT))
  then set_canClaimSupply s true else s.

(** ** The preparation phase as a step relation *)

(** A player unit's stats are current: its maximum is the hp
    [getUnitStats] gives at its level with the session's tech and
    artifact levels, and it is at full health. *)
Definition stats_fresh (s : GameState) (e : Entity) : Prop :=
  side e = PLAYER ->
  maxHp e = hp_stat (getUnitStats (type e) (level e) (getPlayerTechLevel s (type e)) (artifactLevels s)) /\
  hp e = maxHp e.

(** The invariant of the preparation phase. *)
Record econ_inv (s : GameState) : Prop := {
  ei_session : session_ok s;
  ei_level : (1 <= gameLevel s)%Z;
  ei_coins : (0 <= coins s)%Z;
  ei_recruit : (0 <= recruitCost s)%Z;
  ei_global : forall g, (globalTech s g <= techMaxLevel (GLOBAL_TECH_INFO g))%Z;
  ei_roster : prep_inv (entities s);
  ei_fresh : forall e, e ∈ entities s -> stats_fresh s e;
  ei_cap : (playerCount (entities s) <= maxUnitCap s)%Z
}.

(** [getGridFromClientPos] returns a cell of the grid or [null]. *)
Definition grid_cell (tp : option (Z * Z)) : Prop :=
  match tp with
  | None => True
  | Some (gx, gy) => (0 <= gx < GRID_COLS)%Z /\ (0 <= gy < GRID_ROWS)%Z
  end.

(** ** The gacha as cumulative tables (spec, design note 3)

    The probabilities of the RANDOM summon at a luck level, as the
    comment of lines 738-740 states them (common takes the remainder),
    and those of the PREMIUM summon (rare takes the remainder). *)
Definition randomProbs (luck : Z) : Q * Q * Q * Q :=
  let k := inject_Z (luck - 1) in
  let legend := 0.01 + k * 0.005 in
  let epic := 0.09 + k * 0.01 in
  let rare := 0.30 + k * 0.02 in
  (1 - (legend + epic + rare), rare, epic, legend).

Definition premiumProbs (luck : Z) : Q * Q * Q :=
  let k := inject_Z (luck - 1) in
  let legend := 0.10 + k * 0.01 in
  let epic := 0.40 + k * 0.02 in
  (1 - legend - epic, epic, legend).

(** A weighted-table sampler: the first tier whose cumulative bound the
    uniform draw does not exceed, [last] above the table. *)
Fixpoint sampleCumulative (table : list (Q * UnitTier)) (last : UnitTier) (rand : Q) : UnitTier :=
  match table with
  | [] => last
  | (b, t) :: rest => if Qleb rand b then t else sampleCumulative rest last rand
  end.

Definition randomTable (luck : Z) : list (Q * UnitTier) :=
  let '(c, r, e, _) := randomProbs luck in [(c, COMMON); (c + r, RARE); (c + r + e, EPIC)].

Definition premiumTable (luck : Z) : list (Q * UnitTier) :=
  let '(r, e, _) := premiumProbs luck in [(r, RARE); (r + e, EPIC)].

Section Steps.
Context `{MathSqrt}.

(** The actions of the preparation phase, each with the guard of its
    call site: a fresh id for a new unit ([Math.random()] ids are assumed
    distinct), the research list shows only non-mythic types (line
    1529), achievements come from [ACHIEVEMENTS], and a gesture is a
    press on a unit followed by a release on a cell or off the grid. *)
Inductive prep_step : GameState -> GameState -> Prop :=
  | step_buy s bt rand r newId :
      newId ∉ id <$> entities s -> prep_step s (handleBuyUnit s bt rand r newId)
  | step_synthesize s recipe newId :
      newId ∉ id <$> entities s -> prep_step s (handleSynthesize s recipe newId)
  | step_tech s t :
      tier (UNIT_BASE_STATS t) <> MYTHIC -> prep_step s (applyTechUpgrade s t)
  | step_global s g : prep_step s (applyGlobalUpgrade s g)
  | step_artifact s r : prep_step s (handleBuyArtifact s r)
  | step_sell s : prep_step s (handleSellUnit s)
  | step_claim s ach :
      ach ∈ ACHIEVEMENTS -> prep_step s (claimAchievement s (ach_id ach) (reward ach))
  | step_supply s now : prep_step s (claimSupply s now)
  | step_timer s now : prep_step s (supplyTimerTick s now)
  | step_drag s e sx sy cx cy tp :
      e ∈ entities s -> grid_cell tp ->
      prep_step s (let '(s1, d) := handleMouseDown s e in finishDrag s1 d sx sy cx cy tp).

End Steps.

(** ** Roster lemmas *)

Section RosterFacts.

Lemma playerCount_app l l' : playerCount (l ++ l') = (playerCount l + playerCount l')%Z.
Proof. unfold playerCount. rewrite list.filter_app, length_app. lia. Qed.

Lemma playerCount_one e : playerCount [e] = if decide (side e = PLAYER) then 1%Z else 0%Z.
Proof. unfold playerCount. rewrite list.filter_cons, list.filter_nil. by case_decide. Qed.

Lemma playerCount_nonneg l : (0 <= playerCount l)%Z.
Proof. unfold playerCount. lia. Qed.

Lemma playerCount_cons e l : playerCount (e :: l) = (playerCount [e] + playerCount l)%Z.
Proof. apply (playerCount_app [e] l). Qed.

Lemma playerCount_sides (l l' : list Entity) : side <$> l = side <$> l' -> playerCount l = playerCount l'.
Proof.
  revert l'. induction l as [|e l IH]; intros [|e' l'] Hs; try discriminate Hs; [done|].
  rewrite !fmap_cons in Hs. injection Hs as He Hl.
  rewrite (playerCount_cons e l), (playerCount_cons e' l'), !playerCount_one, He, (IH l' Hl).
  done.
Qed.

Lemma playerCount_filter (P : Entity -> Prop) `{forall e, Decision (P e)} l :
  (playerCount (filter P l) <= playerCount l)%Z.
Proof.
  induction l as [|e l IH]; [done|]. rewrite list.filter_cons, (playerCount_cons e l).
  pose proof (playerCount_nonneg [e]).
  case_decide; [rewrite playerCount_cons|]; lia.
Qed.

Lemma playerCount_delete (l : list Entity) i : (playerCount (delete i l) <= playerCount l)%Z.
Proof.
  revert i. induction l as [|e l IH]; intros [|i]; [apply Z.le_refl | apply Z.le_refl | |].
  - change (delete 0%nat (e :: l)) with l. rewrite (playerCount_cons e l).
    pose proof (playerCount_nonneg [e]). lia.
  - change (delete (S i) (e :: l)) with (e :: delete i l). rewrite (playerCount_cons e (delete i l)), (playerCount_cons e l).
    specialize (IH i). lia.
Qed.

Lemma playerCount_fmap (f : Entity -> Entity) l :
  (forall e, side (f e) = side e) -> playerCount (f <$> l) = playerCount l.
Proof.
  intros Hf. apply playerCount_sides. rewrite <- list_fmap_compose.
  apply list_fmap_ext. intros. apply Hf.
Qed.

(** Filtering out a player unit lowers the count. *)
Lemma playerCount_filter_drop (P : Entity -> Prop) `{forall e, Decision (P e)} l e :
  e ∈ l -> side e = PLAYER -> ~ P e -> (playerCount (filter P l) + 1 <= playerCount l)%Z.
Proof.
  intros He Hs HP. induction l as [|e' l IH]; [by apply not_elem_of_nil in He|].
  rewrite list.filter_cons, (playerCount_cons e' l).
  pose proof (playerCount_nonneg [e']). pose proof (playerCount_filter P l).
  apply elem_of_cons in He as [->|He].
  - rewrite decide_False by done. rewrite playerCount_one, decide_True by done. lia.
  - specialize (IH He). case_decide; [rewrite (playerCount_cons e')|]; lia.
Qed.

(** The roster invariant under the list operations of the handlers. *)
Lemma prep_inv_filter (P : Entity -> Prop) `{forall e, Decision (P e)} l :
  prep_inv l -> prep_inv (filter P l).
Proof.
  intros [Hids Hcells Hunits]. split.
  - eapply sublist_NoDup; [done | apply fmap_sublist, sublist_filter].
  - eapply sublist_NoDup; [done | apply fmap_sublist, sublist_filter].
  - intros e He. apply list_elem_of_filter in He as [_ He]. by apply Hunits.
Qed.

Lemma prep_inv_snoc l v :
  prep_inv l -> id v ∉ id <$> l -> cell v ∉ cell <$> l -> unit_ok v -> prep_inv (l ++ [v]).
Proof.
  intros [Hids Hcells Hunits] Hid Hcell Hv. split.
  - rewrite fmap_app, list.NoDup_app. split; [done|]. split; [|apply NoDup_singleton].
    intros k Hk Hk'. apply list_elem_of_singleton in Hk' as ->. done.
  - rewrite fmap_app, list.NoDup_app. split; [done|]. split; [|apply NoDup_singleton].
    intros k Hk Hk'. apply list_elem_of_singleton in Hk' as ->. done.
  - intros e He. apply elem_of_app in He as [He|He%list_elem_of_singleton]; [by apply Hunits | by subst].
Qed.

Lemma prep_inv_fmap (f : Entity -> Entity) l :
  (forall e, id (f e) = id e /\ cell (f e) = cell e) ->
  (forall e, e ∈ l -> unit_ok (f e)) -> prep_inv l -> prep_inv (f <$> l).
Proof.
  intros Hf Hu [Hids Hcells Hunits]. split.
  - rewrite <- list_fmap_compose. erewrite list_fmap_ext; [exact Hids|]. intros. apply Hf.
  - rewrite <- list_fmap_compose. erewrite list_fmap_ext; [exact Hcells|]. intros. apply Hf.
  - intros e' He'. apply list_elem_of_fmap in He' as (e & -> & He). by apply Hu.
Qed.

End RosterFacts.


(** ** Each handler preserves the invariant *)

Section HandlerInv.

Lemma getPlayerTechLevel_ext s s' t :
  techLevels s' = techLevels s -> globalTech s' = globalTech s ->
  getPlayerTechLevel s' t = getPlayerTechLevel s t.
Proof. intros Ht Hg. unfold getPlayerTechLevel. by rewrite Ht, Hg. Qed.

Lemma stats_fresh_transfer s s' e :
  (forall t, getPlayerTechLevel s' t = getPlayerTechLevel s t) -> artifactLevels s' = artifactLevels s ->
  stats_fresh s e -> stats_fresh s' e.
Proof. intros Ht Ha Hf Hs. rewrite Ht, Ha. by apply Hf. Qed.

Lemma getGoldMultiplier_ge1 s : session_ok s -> 1 <= getGoldMultiplier s.
Proof. intros (_ & _ & Ha). unfold getGoldMultiplier. apply artifactMult_ge1; [apply Ha | lra]. Qed.

Lemma ACHIEVEMENTS_reward_nonneg a : a ∈ ACHIEVEMENTS -> (0 <= reward a)%Z.
Proof.
  intros Ha. repeat (apply elem_of_cons in Ha as [->|Ha]; [cbn; lia|]).
  by apply not_elem_of_nil in Ha.
Qed.

(** A handler that keeps the roster, the research, the artifacts, the
    level and the recruit price, and keeps the coins non-negative. *)
Lemma econ_inv_frame s s' :
  econ_inv s -> entities s' = entities s -> techLevels s' = techLevels s ->
  globalTech s' = globalTech s -> artifactLevels s' = artifactLevels s ->
  gameLevel s' = gameLevel s -> recruitCost s' = recruitCost s -> (0 <= coins s')%Z ->
  econ_inv s'.
Proof.
  intros [Hs Hl Hc Hr Hgl Hp Hf Hcap] He HT HG HA HL HR HC.
  split; unfold session_ok, maxUnitCap in *; rewrite ?He, ?HT, ?HG, ?HA, ?HL, ?HR; try done.
  intros e He'. apply (stats_fresh_transfer s); [| done | by apply Hf].
  intros t. by apply getPlayerTechLevel_ext.
Qed.

Lemma claimSupply_inv s now : econ_inv s -> econ_inv (claimSupply s now).
Proof.
  intros Hinv. apply (econ_inv_frame s); try done.
  unfold claimSupply. cbn [coins set_canClaimSupply set_lastSupplyTime set_coins].
  pose proof (ei_coins _ Hinv). pose proof (ei_level _ Hinv).
  pose proof (getGoldMultiplier_ge1 s (ei_session _ Hinv)).
  enough (0 <= Qfloor (inject_Z (100 + gameLevel s * 10) * getGoldMultiplier s))%Z by lia.
  apply Qfloor_nonneg, Qmult_le_0_compat; [unfold Qle; cbn; lia | lra].
Qed.

Lemma supplyTimerTick_inv s now : econ_inv s -> econ_inv (supplyTimerTick s now).
Proof.
  intros Hinv. unfold supplyTimerTick. case_match; [|done].
  apply (econ_inv_frame s); try done. apply Hinv.
Qed.

Lemma claimAchievement_inv s a : a ∈ ACHIEVEMENTS -> econ_inv s ->
  econ_inv (claimAchievement s (ach_id a) (reward a)).
Proof.
  intros Ha Hinv. unfold claimAchievement. case_bool_decide; [done|].
  apply (econ_inv_frame s); try done. cbn.
  pose proof (ei_coins _ Hinv). pose proof (ACHIEVEMENTS_reward_nonneg a Ha). lia.
Qed.

Lemma sellRefund_nonneg s u : (0 <= recruitCost s)%Z -> (0 <= sellRefund s u)%Z.
Proof.
  intros Hr. unfold sellRefund.
  set (b := Qfloor (inject_Z (recruitCost s) * tierCostMult (tier (UNIT_BASE_STATS (type u))))).
  assert (Hb : (0 <= b)%Z).
  { apply Qfloor_nonneg, Qmult_le_0_compat; [unfold Qle; cbn; lia|].
    destruct (tier _); unfold Qle; cbn; lia. }
  clearbody b. assert (Hp : 0 < 2 ^ (level u - 1)) by (apply Qpower_0_lt; unfold Qlt; cbn; lia).
  apply Qfloor_nonneg, Qmult_le_0_compat; [|unfold Qle; cbn; lia].
  apply Qmult_le_0_compat; [unfold Qle; cbn; lia | by apply Qlt_le_weak].
Qed.

Lemma handleSellUnit_inv s : econ_inv s -> econ_inv (handleSellUnit s).
Proof.
  intros Hinv. destruct Hinv as [Hs Hl Hc Hr Hg Hp Hf Hcap]. unfold handleSellUnit.
  destruct (selectedUnit s) as [u|]; [|by split]. case_decide; [by split|].
  pose proof (sellRefund_nonneg s u Hr).
  pose proof (playerCount_filter (fun e => id e <> id u) (entities s)).
  split; cbn [coins entities set_selectedUnit set_entities set_coins]; try done; try lia.
  - by apply prep_inv_filter.
  - intros e He. apply list_elem_of_filter in He as [_ He]. by apply Hf.
  - unfold maxUnitCap in *. cbn. lia.
Qed.

Lemma hp_stat_pos s t L T :
  session_ok s -> (1 <= L)%Z -> (1 <= T)%Z -> (0 < hp_stat (getUnitStats t L T (artifactLevels s)))%Z.
Proof.
  intros (_ & _ & Ha) HL HT. pose proof (hp_stat_ge80 t L T (artifactLevels s) HL HT (Ha _)). lia.
Qed.

(** The stat refresh of the research and artifact handlers keeps the
    roster invariant when it gives living units positive hp. *)
Lemma refresh_prep_inv p st l :
  (forall e, e ∈ l -> p e = true -> (0 < hp_stat (st e))%Z) -> prep_inv l -> prep_inv (refreshUnits p st l).
Proof.
  intros Hpos Hinv. apply prep_inv_fmap; [intros e; by destruct (p e) | | done].
  intros e He. destruct (p e) eqn:Hp; [|by apply Hinv].
  destruct (pi_units _ Hinv e He) as (_ & Hlvl & Hhalf).
  split; [cbn; by apply Hpos|]. by split.
Qed.

Lemma refresh_playerCount p st l : playerCount (refreshUnits p st l) = playerCount l.
Proof. apply playerCount_fmap. intros e. by destruct (p e). Qed.

(** A refreshed unit gets the stats of the new session; the others keep
    theirs when their tech level did not change. *)
Lemma refresh_fresh s s' p st l e' :
  artifactLevels s' = artifactLevels s ->
  (forall e, p e = true -> st e = getUnitStats (type e) (level e) (getPlayerTechLevel s' (type e)) (artifactLevels s')) ->
  (forall e, e ∈ l -> side e = PLAYER -> p e = false -> getPlayerTechLevel s' (type e) = getPlayerTechLevel s (type e)) ->
  (forall e, e ∈ l -> stats_fresh s e) ->
  e' ∈ refreshUnits p st l -> stats_fresh s' e'.
Proof.
  intros Ha Hst Hother Hf He'. apply list_elem_of_fmap in He' as (e & -> & He).
  destruct (p e) eqn:Hp; intros Hside.
  - cbn [maxHp hp type level set_maxHp_hp]. rewrite Hst by done. by split.
  - destruct (Hf e He Hside) as [Hm Hh]. split; [|done]. by rewrite Hm, Hother, Ha.
Qed.

Lemma applyTechUpgrade_inv s t :
  tier (UNIT_BASE_STATS t) <> MYTHIC -> econ_inv s -> econ_inv (applyTechUpgrade s t).
Proof.
  intros Hmy Hinv. pose proof Hinv as [Hs Hl Hc Hr Hg Hp Hf Hcap]. unfold applyTechUpgrade.
  destruct (_ <=? coins s)%Z eqn:Hcost; [|done]. apply Z.leb_le in Hcost. cbv zeta.
  destruct Hs as (Ht & Hgt & Ha). pose proof (Ht t) as Ht0.
  split; cbn [techLevels globalTech artifactLevels gameLevel coins recruitCost entities
              set_entities set_techLevels set_coins]; try done; try lia.
  - unfold session_ok. cbn [techLevels globalTech artifactLevels set_entities set_techLevels set_coins].
    repeat split; [|apply Hgt | apply Ha]. intros x. unfold fupd. case_decide; [lia | apply Ht].
  - apply refresh_prep_inv; [|done]. intros e He _.
    apply hp_stat_pos; [done | apply (pi_units _ Hp e He) | lia].
  - intros e'. eapply refresh_fresh with (s := s); [done | | | exact Hf].
    + intros e Hpe. apply andb_true_iff in Hpe as [_ Hte%bool_decide_eq_true_1].
      unfold getPlayerTechLevel. rewrite Hte, decide_False by done. cbn. by rewrite fupd_eq.
    + intros e _ Hside Hpe. rewrite Hside in Hpe. cbn in Hpe.
      unfold getPlayerTechLevel. cbn [techLevels globalTech set_entities set_techLevels set_coins].
      destruct (decide (tier (UNIT_BASE_STATS (type e)) = MYTHIC)); [done|].
      apply fupd_neq. intros Hte. rewrite Hte, (bool_decide_eq_true_2 (t = t)) in Hpe by done. discriminate.
  - rewrite refresh_playerCount. unfold maxUnitCap in *. cbn. lia.
Qed.

Lemma applyGlobalUpgrade_inv s g : econ_inv s -> econ_inv (applyGlobalUpgrade s g).
Proof.
  intros Hinv. pose proof Hinv as [Hs Hl Hc Hr Hg Hp Hf Hcap]. unfold applyGlobalUpgrade.
  destruct (techMaxLevel _ <=? globalTech s g)%Z eqn:Hmax; [done|]. apply Z.leb_gt in Hmax.
  destruct (_ <=? coins s)%Z eqn:Hcost; [|done]. apply Z.leb_le in Hcost. cbv zeta.
  destruct Hs as (Ht & Hgt & Ha). pose proof (Hgt g) as Hg0.
  assert (Hsess : session_ok (set_globalTech s ((globalTech s) ⟨g ↦ (globalTech s g + 1)%Z⟩))).
  { unfold session_ok. cbn [techLevels globalTech artifactLevels set_globalTech].
    repeat split; [apply Ht | | apply Ha]. intros x. unfold fupd. case_decide; [lia | apply Hgt]. }
  assert (Hglob : forall x, (((globalTech s) ⟨g ↦ (globalTech s g + 1)%Z⟩) x <= techMaxLevel (GLOBAL_TECH_INFO x))%Z).
  { intros x. unfold fupd. case_decide; [subst; lia | apply Hg]. }
  assert (Hcap' : (maxUnitCap s <= maxUnitCap (set_globalTech s ((globalTech s) ⟨g ↦ (globalTech s g + 1)%Z⟩)))%Z).
  { unfold maxUnitCap, BASE_UNIT_CAP, UNIT_CAP_PER_LEVEL. cbn. unfold fupd. case_decide; [subst|]; lia. }
  case_bool_decide as Hmm.
  - subst g. split; cbn [techLevels globalTech artifactLevels gameLevel coins recruitCost entities
                         set_entities set_globalTech set_coins]; try done; try lia.
    + apply refresh_prep_inv; [|done]. intros e He _.
      apply hp_stat_pos; [done | apply (pi_units _ Hp e He) | lia].
    + intros e'. eapply refresh_fresh with (s := s); [done | | | exact Hf].
      * intros e Hpe. apply andb_true_iff in Hpe as [_ Hte%bool_decide_eq_true_1].
        unfold getPlayerTechLevel. rewrite decide_True by done. cbn. by rewrite fupd_eq.
      * intros e _ Hside Hpe. rewrite Hside in Hpe. cbn in Hpe.
        unfold getPlayerTechLevel. cbn [techLevels globalTech set_globalTech set_coins].
        destruct (decide (tier (UNIT_BASE_STATS (type e)) = MYTHIC)) as [Hm|]; [|done].
        rewrite (bool_decide_eq_true_2 _ Hm) in Hpe. discriminate.
    + rewrite refresh_playerCount. unfold maxUnitCap in *. cbn in *. lia.
  - split; cbn [techLevels globalTech artifactLevels gameLevel coins recruitCost entities
                set_globalTech set_coins]; try done; try lia.
    + intros e He. apply (stats_fresh_transfer s); [| done | by apply Hf].
      intros t. unfold getPlayerTechLevel. cbn [techLevels globalTech set_globalTech set_coins].
      destruct (decide (tier (UNIT_BASE_STATS t) = MYTHIC)); [|done]. by apply fupd_neq.
    + unfold maxUnitCap in *. cbn in *. lia.
Qed.

Lemma handleBuyArtifact_inv s r : econ_inv s -> econ_inv (handleBuyArtifact s r).
Proof.
  intros Hinv. pose proof Hinv as [Hs Hl Hc Hr Hg Hp Hf Hcap]. unfold handleBuyArtifact.
  destruct (artifactCost s <=? coins s)%Z eqn:Hcost; [|done]. apply Z.leb_le in Hcost. cbv zeta.
  set (a := pickRandom allArtifactTypes r).
  set (nl := (artifactLevels s) ⟨a ↦ (artifactLevels s a + 1)%Z⟩).
  destruct Hs as (Ht & Hgt & Ha).
  assert (Hnl : forall x, (0 <= nl x)%Z).
  { intros x. unfold nl, fupd. case_decide; [subst; specialize (Ha a) | apply Ha]. lia. }
  assert (Hpos : forall e, e ∈ entities s -> side e = PLAYER ->
            (0 < hp_stat (getUnitStats (type e) (level e) (getPlayerTechLevel s (type e)) nl))%Z).
  { intros e He _. pose proof (hp_stat_ge80 (type e) (level e) (getPlayerTechLevel s (type e)) nl).
    pose proof (getPlayerTechLevel_ge1 s (type e) (conj Ht (conj Hgt Ha))).
    destruct (pi_units _ Hp e He) as (_ & Hlvl & _). specialize (H (proj1 (conj Hlvl Hlvl)) H0 (Hnl _)).
    lia. }
  split; cbn [techLevels globalTech artifactLevels gameLevel coins recruitCost entities
              set_artifactCost set_entities set_artifactLevels set_coins]; try done; try lia.
  - apply prep_inv_fmap; [intros e; cbn beta; by case_bool_decide | | done].
    intros e He. cbn beta. case_bool_decide as Hside; [|by apply Hp].
    destruct (pi_units _ Hp e He) as (_ & Hlvl & Hhalf). destruct (Hf e He Hside) as [Hm Hh].
    split; [cbn [hp set_maxHp_hp]; rewrite (getPlayerTechLevel_ext s _ (type e)) by reflexivity;
            rewrite Hh; fold nl; specialize (Hpos e He Hside); lia | by split].
  - intros e' He'. apply list_elem_of_fmap in He' as (e & -> & He). cbn beta.
    case_bool_decide as Hside; intros Hside'; [|done].
    destruct (Hf e He Hside) as [Hm Hh]. cbn [maxHp hp type level set_maxHp_hp]. split; [done | lia].
  - rewrite playerCount_fmap; [|intros e; by case_bool_decide]. unfold maxUnitCap in *. cbn in *. lia.
Qed.

Lemma availableSpots_spec l sx sy :
  (sx, sy) ∈ availableSpots l ->
  cellFree l sx sy = true /\ (GRID_ROWS / 2 <= sy < GRID_ROWS)%Z /\ (0 <= sx < GRID_COLS)%Z.
Proof.
  unfold availableSpots. rewrite list_elem_of_In, in_flat_map. intros (gy & Hgy & Hin).
  apply in_map_iff in Hin as (gx & [= <- <-] & Hx). apply filter_In in Hx as [Hx Hfree].
  apply list_elem_of_In, elem_of_seqZ in Hx.
  apply list_elem_of_In, elem_of_reverse, elem_of_seqZ in Hgy.
  split; [done|]. grid_lia.
Qed.

Lemma cellFree_not_occupied l sx sy : prep_inv l -> cellFree l sx sy = true -> (sx, sy) ∉ cell <$> l.
Proof.
  intros Hp Hfree Hin. apply list_elem_of_fmap in Hin as (e & Hc & He).
  unfold cellFree in Hfree. apply negb_true_iff, not_true_iff_false in Hfree.
  apply Hfree, existsb_exists. exists e. split; [by apply list_elem_of_In|].
  unfold cell in Hc. injection Hc as -> ->. rewrite !Z.eqb_refl. cbn.
  apply alive_true, (pi_units _ Hp e He).
Qed.

(** A new level-1 player unit on a cell of the player half. *)
Lemma createEntity_unit_ok s newId t gx gy :
  session_ok s -> (GRID_ROWS / 2 <= gy < GRID_ROWS)%Z -> (0 <= gx < GRID_COLS)%Z ->
  unit_ok (createEntity newId t 1 PLAYER gx gy (getPlayerTechLevel s t) (artifactLevels s)).
Proof.
  intros Hs Hy Hx. split; [apply hp_stat_pos; [done | lia | by apply getPlayerTechLevel_ge1]|].
  split; [cbn; lia|]. by split.
Qed.

(** Appending a fresh unit to a sub-roster: the shape of [handleBuyUnit]
    and [handleSynthesize]. *)
Lemma econ_inv_snoc s s' l u :
  econ_inv s -> entities s' = l ++ [u] -> techLevels s' = techLevels s -> globalTech s' = globalTech s ->
  artifactLevels s' = artifactLevels s -> gameLevel s' = gameLevel s ->
  (0 <= recruitCost s')%Z -> (0 <= coins s')%Z ->
  prep_inv l -> (forall e, e ∈ l -> e ∈ entities s) -> (playerCount l + 1 <= maxUnitCap s)%Z ->
  id u ∉ id <$> l -> cell u ∉ cell <$> l -> unit_ok u -> side u = PLAYER -> stats_fresh s u ->
  econ_inv s'.
Proof.
  intros [Hs Hl Hc Hr Hg Hp Hf Hcap] He HT HG HA HL HR HC Hpl Hsub Hcnt Hid Hcell Hu Hside Hfu.
  assert (Htech : forall t, getPlayerTechLevel s' t = getPlayerTechLevel s t)
    by (intros; by apply getPlayerTechLevel_ext).
  split; unfold session_ok, maxUnitCap in *; rewrite ?He, ?HT, ?HG, ?HA, ?HL; try done.
  - by apply prep_inv_snoc.
  - intros e He'. apply elem_of_app in He' as [He'|He']; [|apply list_elem_of_singleton in He' as ->];
      apply (stats_fresh_transfer s); auto.
  - rewrite playerCount_app, playerCount_one, decide_True by done. lia.
Qed.

Lemma handleBuyUnit_inv s bt rand r newId :
  newId ∉ id <$> entities s -> econ_inv s -> econ_inv (handleBuyUnit s bt rand r newId).
Proof.
  intros Hfresh Hinv. pose proof Hinv as [Hs Hl Hc Hr Hg Hp Hf Hcap]. unfold handleBuyUnit.
  destruct (maxUnitCap s <=? playerCount (entities s))%Z eqn:Hfull; [done|]. apply Z.leb_gt in Hfull.
  destruct (buyCost s bt <=? coins s)%Z eqn:Hcost; [|done]. apply Z.leb_le in Hcost.
  destruct (availableSpots (entities s)) as [|[sx sy] rest] eqn:Hsp; [done|]. cbv zeta.
  destruct (availableSpots_spec (entities s) sx sy) as (Hfree & Hy & Hx); [rewrite Hsp; left|].
  set (u := createEntity newId (buyFinalType s bt rand r) 1 PLAYER sx sy _ (artifactLevels s)).
  assert (Hu : unit_ok u) by (by apply createEntity_unit_ok).
  assert (Hcell : cell u ∉ cell <$> entities s) by (by apply cellFree_not_occupied).
  destruct bt; cbn [buyCost] in Hcost;
    eapply (econ_inv_snoc s _ (entities s) u); try reflexivity; try done; cbn;
    unfold RECRUIT_COST_INCREASE; lia.
Qed.

Lemma handleSynthesize_inv s recipe newId :
  newId ∉ id <$> entities s -> econ_inv s -> econ_inv (handleSynthesize s recipe newId).
Proof.
  intros Hfresh Hinv. pose proof Hinv as [Hs Hl Hc Hr Hg Hp Hf Hcap]. unfold handleSynthesize.
  destruct (coins s <? cost recipe)%Z eqn:Hcost; [done|]. apply Z.ltb_ge in Hcost. cbv zeta.
  destruct (findIndexB (fun e => _ && _) (filter _ (entities s))) as [[j1 i1]|] eqn:H1; simpl; [|done].
  destruct (findIndexB (fun e => _ && _ && negb _) (filter _ (entities s))) as [[j2 i2]|] eqn:H2;
    simpl; [|done].
  apply findIndexB_member in H1 as [Hi1 _]. apply list_elem_of_filter in Hi1 as [Hs1 Hi1].
  destruct (negb _ || negb _); [apply (econ_inv_frame s); try done; cbn; lia|].
  destruct (pi_units _ Hp i1 Hi1) as (_ & _ & Hhalf).
  unfold on_own_half in Hhalf. rewrite Hs1 in Hhalf. destruct Hhalf as [Hy Hx].
  set (P := fun e : Entity => id e <> id i1 /\ id e <> id i2).
  lazymatch goal with
  | |- econ_inv (set_entities ?t (?l ++ [?u])) =>
      refine (econ_inv_snoc s (set_entities t (l ++ [u])) l u Hinv _ _ _ _ _ Hr _ _ _ _ _ _ _ _ _)
  end.
  1-5: reflexivity.
  - cbn. lia.
  - by apply prep_inv_filter.
  - intros e He. by apply list_elem_of_filter in He as [_ He].
  - pose proof (playerCount_filter_drop P (entities s) i1 Hi1 Hs1 ltac:(unfold P; tauto)). lia.
  - intros Hin. apply list_elem_of_fmap in Hin as (e & He & Hel).
    apply list_elem_of_filter in Hel as [_ Hel]. apply Hfresh, list_elem_of_fmap. by exists e.
  - intros Hin. apply list_elem_of_fmap in Hin as (e & Hce & Hel).
    apply list_elem_of_filter in Hel as [[Hne _] Hel]. apply Hne. f_equal.
    apply (NoDup_fmap_inj_on cell (entities s)); [apply Hp | done | done | done].
  - rewrite (getPlayerTechLevel_ext s) by reflexivity. by apply createEntity_unit_ok.
  - done.
  - by intros _.
Qed.

End HandlerInv.

(** ** The placement gesture in the preparation invariant *)

Section DragInv.
Context `{MathSqrt}.

Lemma econ_inv_roster s s' :
  econ_inv s -> techLevels s' = techLevels s -> globalTech s' = globalTech s ->
  artifactLevels s' = artifactLevels s -> gameLevel s' = gameLevel s ->
  recruitCost s' = recruitCost s -> coins s' = coins s ->
  prep_inv (entities s') -> (forall e, e ∈ entities s' -> stats_fresh s e) ->
  (playerCount (entities s') <= playerCount (entities s))%Z -> econ_inv s'.
Proof.
  intros [Hs Hl Hc Hr Hg Hp Hf Hcap] HT HG HA HL HR HC Hp' Hf' Hcnt.
  split; unfold session_ok, maxUnitCap in *; rewrite ?HT, ?HG, ?HA, ?HL, ?HR, ?HC; try done; [|lia].
  intros e He. apply (stats_fresh_transfer s); [|done | auto].
  intros t. by apply getPlayerTechLevel_ext.
Qed.

(** Every unit of the updater's roster is a unit of [prev], a unit of
    [prev] moved to another cell, or a merged unit of [prev] one level up
    with the full health of its new level. *)
Lemma placementUpdater_forall s mid gx gy l (P : Entity -> Prop) :
  (forall e, e ∈ l -> P e) -> (forall e a b, e ∈ l -> P (set_cell e a b)) ->
  (forall tg, tg ∈ l -> P (set_level_hp tg (level tg + 1)
     (hp_stat (getUnitStats (type tg) (level tg + 1) (getPlayerTechLevel s (type tg)) (artifactLevels s))))) ->
  forall x, x ∈ fst (placementUpdater s mid gx gy l) -> P x.
Proof.
  intros Hl Hc Hm. unfold placementUpdater.
  destruct (findIndexB (hasId mid) l) as [[i me]|] eqn:Hi; [|exact Hl].
  apply findIndexB_Some in Hi as (Hli & _). apply list_elem_of_lookup_2 in Hli.
  destruct (findIndexB (occupies mid gx gy) l) as [[j tg]|] eqn:Hj.
  - apply findIndexB_Some in Hj as (Hlj & _). apply list_elem_of_lookup_2 in Hlj.
    destruct (_ && _); cbn [fst]; intros x Hx.
    + apply elem_of_delete_inv, elem_of_insert_inv in Hx as [->|Hx]; auto.
    + apply elem_of_insert_inv in Hx as [->|Hx]; [auto|].
      apply elem_of_insert_inv in Hx as [->|Hx]; auto.
  - cbn [fst]. intros x Hx. apply elem_of_insert_inv in Hx as [->|Hx]; auto.
Qed.

Lemma playerCount_insert_cell (l : list Entity) i e a b :
  l !! i = Some e -> playerCount (<[i := set_cell e a b]> l) = playerCount l.
Proof. intros Hi. apply playerCount_sides. by apply (list_fmap_insert_same side _ i e). Qed.

(** The updater never adds a player unit. *)
Lemma placementUpdater_playerCount s mid gx gy l :
  (playerCount (fst (placementUpdater s mid gx gy l)) <= playerCount l)%Z.
Proof.
  unfold placementUpdater.
  destruct (findIndexB (hasId mid) l) as [[i me]|] eqn:Hi; [|apply Z.le_refl].
  apply findIndexB_Some in Hi as (Hli & Hme & _).
  destruct (findIndexB (occupies mid gx gy) l) as [[j tg]|] eqn:Hj.
  - apply findIndexB_Some in Hj as (Hlj & Hocc & _). destruct (_ && _); cbn [fst].
    + etrans; [apply playerCount_delete|]. apply Z.eq_le_incl, playerCount_sides.
      by apply (list_fmap_insert_same side _ j tg).
    + apply occupies_true in Hocc as (_ & Hne & _). unfold hasId in Hme. case_bool_decide; [|done].
      assert (i <> j) by (intros ->; congruence).
      rewrite (playerCount_insert_cell _ j tg) by by rewrite list_lookup_insert_ne.
      rewrite (playerCount_insert_cell _ i me) by done. apply Z.le_refl.
  - cbn [fst]. rewrite (playerCount_insert_cell _ i me) by done. apply Z.le_refl.
Qed.

Lemma placementUpdater_fresh s mid gx gy :
  (forall e, e ∈ entities s -> stats_fresh s e) ->
  forall x, x ∈ fst (placementUpdater s mid gx gy (entities s)) -> stats_fresh s x.
Proof.
  intros Hf. apply placementUpdater_forall; [done | intros e a b He; exact (Hf e He) |].
  intros tg _ _. split; reflexivity.
Qed.

(** The whole gesture of [step_drag]. *)
Lemma drag_econ_inv s e sx sy cx cy tp :
  econ_inv s -> e ∈ entities s -> grid_cell tp ->
  econ_inv (let '(s1, d) := handleMouseDown s e in finishDrag s1 d sx sy cx cy tp).
Proof.
  intros Hinv He Htp. pose proof Hinv as [Hs Hl Hc Hr Hg Hp Hf Hcap]. unfold handleMouseDown.
  case_decide; [done|]. case_decide as Hside; [by apply (econ_inv_frame s)|].
  destruct (finishDrag_shape s (Some (id e)) sx sy cx cy tp)
    as [-> | [(u & -> & _) | (mid & gx & gy & [= <-] & -> & Hgy & ->)]];
    [done | by apply (econ_inv_frame s) |].
  destruct Htp as [Hx Hy].
  assert (Hpl : prep_inv (fst (placementUpdater s (id e) gx gy (entities s)))).
  { apply (placementUpdater_prep_inv s (id e) gx gy e); try done; [|lia].
    apply lookupId_member; [apply Hp | done]. }
  cbv zeta. destruct (snd (placementUpdater s (id e) gx gy (entities s)));
    (apply (econ_inv_roster s); [done.. | by apply placementUpdater_fresh | apply placementUpdater_playerCount]).
Qed.

End DragInv.

(** ** Reachability *)

Section Reach.
Context `{MathSqrt}.

Lemma prep_step_inv s s' : prep_step s s' -> econ_inv s -> econ_inv s'.
Proof.
  intros Hst. destruct Hst.
  - by apply handleBuyUnit_inv.
  - by apply handleSynthesize_inv.
  - by apply applyTechUpgrade_inv.
  - apply applyGlobalUpgrade_inv.
  - apply handleBuyArtifact_inv.
  - apply handleSellUnit_inv.
  - by apply claimAchievement_inv.
  - apply claimSupply_inv.
  - apply supplyTimerTick_inv.
  - intros Hinv. by apply drag_econ_inv.
Qed.

(** C3: every state the preparation phase can reach, by any sequence of
    purchases, syntheses, upgrades, sales, claims, timer ticks and
    placement gestures, keeps the economy invariant: coins, recruit price
    and level in range, global research within its maxima, a roster with
    unique ids and cells, live units on their own half, player units at
    the full health of their level and research, and no more player
    units than the capacity allows. *)
Theorem prep_reachable_inv s s' : econ_inv s -> rtc prep_step s s' -> econ_inv s'.
Proof. intros Hinv Hr. induction Hr as [|x y z Hxy _ IH]; [done|]. by apply IH, (prep_step_inv x). Qed.

End Reach.

(** ** Purchases and the gacha *)

Section Gacha.

(** [arr[Math.floor(Math.random() * arr.length)]] is an element of a
    non-empty [arr]. *)
Lemma pickRandom_elem {A} `{Inhabited A} (l : list A) (r : Q) :
  l <> [] -> (0 <= r < 1)%Q -> pickRandom l r ∈ l.
Proof.
  intros Hne Hr. unfold pickRandom.
  destruct (Qfloor_draw_range r (Z.of_nat (length l)) Hr) as [H0 H1]; [destruct l; [done | cbn; lia]|].
  destruct (lookup_lt_is_Some_2 l (Z.to_nat (Qfloor (r * inject_Z (Z.of_nat (length l)))))) as [x Hx]; [lia|].
  rewrite list_lookup_total_alt, Hx. by eapply list_elem_of_lookup_2.
Qed.

Lemma typesOfTier_pick (T : UnitTier) (r : Q) :
  T <> MYTHIC -> 0 <= r < 1 -> tier (UNIT_BASE_STATS (pickRandom (typesOfTier T) r)) = T.
Proof.
  intros HT Hr. assert (Hne : typesOfTier T <> []) by (destruct T; done).
  pose proof (pickRandom_elem (typesOfTier T) r Hne Hr) as Hin.
  apply list_elem_of_In, filter_In in Hin as [_ Hb]. by apply bool_decide_eq_true_1 in Hb.
Qed.

(** C27: the threshold cascades of the two summons are the cumulative
    tables of the spec's design note: for every luck level from 1 on,
    the tier of the unit drawn by [rollRandom] (RANDOM) and by
    [rollPremium] (PREMIUM) is the tier the cumulative table of its
    probabilities assigns to the draw. *)
Theorem gacha_cumulative_tables luck rand r :
  (1 <= luck)%Z -> 0 <= r < 1 ->
  tier (UNIT_BASE_STATS (rollRandom luck rand r)) = sampleCumulative (randomTable luck) LEGENDARY rand /\
  tier (UNIT_BASE_STATS (rollPremium luck rand r)) = sampleCumulative (premiumTable luck) LEGENDARY rand.
Proof.
  intros Hl Hr. assert (Hk : 0 <= inject_Z (luck - 1)) by (unfold Qle; cbn; lia).
  unfold rollRandom, rollPremium, randomTable, premiumTable, randomProbs, premiumProbs. cbv zeta.
  cbn [sampleCumulative]. split; repeat match goal with
    | |- context [Qltb ?a ?b] => case_q (Qltb a b)
    | |- context [Qleb ?a ?b] => case_q (Qleb a b)
    end; cbn [sampleCumulative]; try lra; apply typesOfTier_pick; done.
Qed.

(** For every luck level the research allows (1 to its maximum 10),
    and so in every state of the preparation invariant, every tier of
    both summons has a positive probability: the legendary, epic and
    rare shares grow with luck and the remainder left to the commons
    (RANDOM) or the rares (PREMIUM) stays positive. *)
Theorem summon_probabilities_positive s :
  econ_inv s ->
  let luck := globalTech s LUCK in
  (let '(c, r, e, l) := randomProbs luck in 0 < c /\ 0 < r /\ 0 < e /\ 0 < l) /\
  (let '(r, e, l) := premiumProbs luck in 0 < r /\ 0 < e /\ 0 < l).
Proof.
  intros Hinv. pose proof (ei_global _ Hinv LUCK) as Hmax. destruct (ei_session _ Hinv) as (_ & Hg & _).
  specialize (Hg LUCK). cbn in Hmax. cbv zeta. unfold randomProbs, premiumProbs. cbv zeta.
  assert (0 <= inject_Z (globalTech s LUCK - 1) <= 9) by (split; unfold Qle; cbn; lia).
  split_and!; lra.
Qed.

(** C19: a purchase is refused, with no change at all, when the unit cap
    is reached, when the coins do not cover the price, or when the
    player half has no free cell. *)
Theorem handleBuyUnit_rejects s bt rand r newId :
  ((maxUnitCap s <= playerCount (entities s))%Z \/ (coins s < buyCost s bt)%Z \/ availableSpots (entities s) = []) ->
  handleBuyUnit s bt rand r newId = s.
Proof.
  intros Hrej. unfold handleBuyUnit.
  destruct (maxUnitCap s <=? playerCount (entities s))%Z eqn:Hcap; [done|]. apply Z.leb_gt in Hcap.
  destruct (buyCost s bt <=? coins s)%Z eqn:Hc; [|done]. apply Z.leb_le in Hc.
  destruct Hrej as [? | [? | ->]]; [lia | lia | done].
Qed.

(** C18: otherwise the price is paid, a level-1 unit of the drawn type is
    appended on the first free cell of the scan (bottom row first, left
    to right), which is a free cell of the player half, the summon
    counter grows by one, and the price that was paid grows: the
    recruit price by 10 after a RANDOM or PREMIUM summon, the unit's own
    price by 10 after a specific one. *)
Theorem handleBuyUnit_spec s bt rand r newId sx sy rest :
  (playerCount (entities s) < maxUnitCap s)%Z -> (buyCost s bt <= coins s)%Z ->
  availableSpots (entities s) = (sx, sy) :: rest ->
  let s' := handleBuyUnit s bt rand r newId in
  let t := buyFinalType s bt rand r in
  coins s' = (coins s - buyCost s bt)%Z /\
  entities s' = entities s ++ [createEntity newId t 1 PLAYER sx sy (getPlayerTechLevel s t) (artifactLevels s)] /\
  cellFree (entities s) sx sy = true /\ (GRID_ROWS / 2 <= sy < GRID_ROWS)%Z /\ (0 <= sx < GRID_COLS)%Z /\
  summons (gameStats s') = (summons (gameStats s) + 1)%Z /\
  match bt with
  | SPECIFIC u => unitCosts s' u = (unitCosts s u + 10)%Z /\ recruitCost s' = recruitCost s
  | _ => recruitCost s' = (recruitCost s + RECRUIT_COST_INCREASE)%Z
  end.
Proof.
  intros Hcap Hc Hsp. cbv zeta.
  destruct (availableSpots_spec (entities s) sx sy) as (Hfree & Hy & Hx); [rewrite Hsp; left|].
  unfold handleBuyUnit. rewrite (proj2 (Z.leb_gt _ _) Hcap), (proj2 (Z.leb_le _ _) Hc), Hsp.
  destruct bt as [| | u]; cbn [coins entities gameStats recruitCost unitCosts set_coins set_entities
    set_gameStats set_recruitCost set_unitCosts summons add_summon]; split_and!; try done; try lia; by rewrite fupd_eq.
Qed.

(** Buying an artifact, when the coins cover its price, pays it,
    raises the drawn artifact by one level and the price by 50, and
    re-prices every player unit in place: same id and cell, the new
    maximum of its level, tech and artifacts, and the same missing hit
    points as before (heal-on-upgrade, section 4.2 of the spec); enemies
    are untouched.  Without the coins nothing changes. *)
Theorem handleBuyArtifact_spec s r :
  ((coins s < artifactCost s)%Z -> handleBuyArtifact s r = s) /\
  ((artifactCost s <= coins s)%Z ->
   let s' := handleBuyArtifact s r in
   let a := pickRandom allArtifactTypes r in
   coins s' = (coins s - artifactCost s)%Z /\ artifactCost s' = (artifactCost s + ARTIFACT_COST_INCREASE)%Z /\
   artifactLevels s' a = (artifactLevels s a + 1)%Z /\
   (forall b, b <> a -> artifactLevels s' b = artifactLevels s b) /\
   length (entities s') = length (entities s) /\
   forall k e, entities s !! k = Some e -> exists e', entities s' !! k = Some e' /\
     id e' = id e /\ cell e' = cell e /\
     (side e = PLAYER ->
        maxHp e' = hp_stat (getUnitStats (type e) (level e) (getPlayerTechLevel s (type e)) (artifactLevels s')) /\
        (maxHp e' - hp e' = maxHp e - hp e)%Z) /\
     (side e = ENEMY -> e' = e)).
Proof.
  split; intros Hc; unfold handleBuyArtifact.
  - by rewrite (proj2 (Z.leb_gt _ _) Hc).
  - rewrite (proj2 (Z.leb_le _ _) Hc). cbv zeta. cbn [coins artifactCost artifactLevels entities set_coins
      set_artifactLevels set_entities set_artifactCost]. split_and!; [done | done | by rewrite fupd_eq | |
      by rewrite length_fmap |].
    + intros b Hb. by rewrite fupd_neq.
    + intros k e Hk. rewrite list_lookup_fmap, Hk. eexists. split; [reflexivity|].
      destruct (side e) eqn:Hs; cbn.
      * rewrite bool_decide_eq_true_2 by done. split_and!; [done | done | | done].
        intros _. split; [reflexivity | cbn; lia].
      * try rewrite bool_decide_eq_false_2 by discriminate. split_and!; done.
Qed.

(** C34: selling the selected player unit adds the refund
    [floor(floor(recruitCost * tierMult) * 2^(level-1) * 0.2)] to the
    coins, removes every unit with its id and clears the selection; with
    no selection, or an enemy selected, nothing changes. *)
Theorem handleSellUnit_spec s :
  (match selectedUnit s with Some u => side u <> PLAYER | None => True end -> handleSellUnit s = s) /\
  forall u, selectedUnit s = Some u -> side u = PLAYER ->
  coins (handleSellUnit s) = (coins s + sellRefund s u)%Z /\
  entities (handleSellUnit s) = filter (fun e => id e <> id u) (entities s) /\
  selectedUnit (handleSellUnit s) = None /\
  (sellRefund s u = Qfloor (inject_Z (Qfloor (inject_Z (recruitCost s) * tierCostMult (tier (UNIT_BASE_STATS (type u)))))
                            * 2 ^ (level u - 1) / 5)).
Proof.
  unfold handleSellUnit. split.
  - destruct (selectedUnit s) as [u|]; [|done]. intros Hs. by rewrite decide_True.
  - intros u -> Hs. rewrite decide_False by (intros Hn; apply Hn, Hs). split_and!; [done | done | done |].
    unfold sellRefund. apply Qfloor_comp. field.
Qed.

End Gacha.

(** ** Witnesses *)

Section Witnesses.

Lemma archers_econ_inv : econ_inv archers_state.
Proof.
  split.
  - repeat split; intros; cbn; unfold noArtifacts; lia.
  - cbn. lia.
  - cbn. lia.
  - vm_compute. discriminate.
  - intros []; vm_compute; discriminate.
  - apply prep_invb_spec. vm_compute. reflexivity.
  - intros e He _. repeat (apply elem_of_cons in He as [->|He]); [vm_compute; split; reflexivity..|].
    by apply not_elem_of_nil in He.
  - vm_compute. discriminate.
Qed.

(** A purchase from the two-archer roster keeps the invariant. *)
Lemma prep_reachable_inv_witness :
  econ_inv archers_state /\ econ_inv (handleBuyUnit archers_state RANDOM 0 0 "a3").
Proof.
  split; [exact archers_econ_inv|].
  apply (prep_reachable_inv archers_state); [exact archers_econ_inv|].
  apply rtc_once, step_buy. apply (bool_decide_unpack _). vm_compute. reflexivity.
Defined.

(** A draw of 0.995 at luck 1 is in the legendary band of RANDOM. *)
Lemma gacha_cumulative_tables_witness :
  tier (UNIT_BASE_STATS (rollRandom 1 (995 # 1000) 0)) = LEGENDARY.
Proof.
  rewrite (proj1 (gacha_cumulative_tables 1 (995 # 1000) 0 ltac:(lia) ltac:(lra))).
  vm_compute. reflexivity.
Defined.

Lemma summon_probabilities_positive_witness :
  0 < fst (fst (fst (randomProbs (globalTech archers_state LUCK)))).
Proof.
  destruct (summon_probabilities_positive archers_state archers_econ_inv) as [H _]. revert H. cbv zeta.
  destruct (randomProbs _) as [[[c r] e] l]. cbn. tauto.
Defined.

(** Without coins, a RANDOM summon is refused. *)
Lemma handleBuyUnit_rejects_witness :
  handleBuyUnit (set_coins archers_state 0) RANDOM 0 0 "a3" = set_coins archers_state 0.
Proof. apply handleBuyUnit_rejects. right; left. vm_compute. reflexivity. Defined.

(** The first RANDOM summon from the two-archer roster costs 100 and
    lands on cell (2, 7), next to the archers. *)
Lemma handleBuyUnit_spec_witness :
  coins (handleBuyUnit archers_state RANDOM 0 0 "a3") = 1900%Z.
Proof.
  destruct (handleBuyUnit_spec archers_state RANDOM 0 0 "a3" 2 7 (tail (availableSpots (entities archers_state))))
    as (-> & _); [vm_compute; reflexivity | vm_compute; discriminate | vm_compute; reflexivity | reflexivity].
Defined.

Lemma handleBuyArtifact_spec_witness :
  coins (handleBuyArtifact archers_state 0) = 1800%Z.
Proof. destruct (proj2 (handleBuyArtifact_spec archers_state 0) ltac:(vm_compute; discriminate)) as (-> & _).
  reflexivity. Defined.

(** Selling the selected archer [a1] leaves [a2] alone. *)
Lemma handleSellUnit_spec_witness :
  entities (handleSellUnit (set_selectedUnit archers_state (Some archer1))) = [archer2].
Proof.
  destruct (proj2 (handleSellUnit_spec (set_selectedUnit archers_state (Some archer1))) archer1 eq_refl eq_refl)
    as (_ & -> & _). vm_compute. reflexivity.
Defined.

End Witnesses.
