(* ===== verification/LevelGen.v ===== *)
(** * LevelGen: the procedural level generator (src/services/geminiService.ts)

    [generateLevel(levelNumber, difficulty)] picks the enemy count from
    the level and the difficulty, then, for each enemy, draws cells with
    [Math.random()] in a do-while loop of at most 20 attempts that avoids
    the cells already in the [occupied] set, and draws the enemy's type
    among the types unlocked at that level.

    The draws are a stream [rng : nat -> Q] read through a cursor: a
    computation of [RandM A] takes the stream and the cursor and returns
    its result with the advanced cursor, so the order of the draws is the
    order of the [Math.random()] calls.  [RandM] is a reader-and-state
    monad with stdpp's [mret] and [≫=] (and the [x ← m; k] notation).
    The [occupied] set of keys [`${gridX},${gridY}`] is a [gset] of cells
    (the key is injective on integer cells).  The 300 ms [setTimeout]
    before the promise resolves is not modelled: it delays, it does not
    change the result. *)

From S2P Require Import Prelude Types Constants Stats Economy.
From stdpp Require Import gmap.
Local Open Scope Z_scope.

(** ** The random-draw monad *)

Definition RandM (A : Type) : Type := (nat -> Q) -> nat -> A * nat.

#[export] Instance RandM_ret : MRet RandM := fun A a rng n => (a, n).
#[export] Instance RandM_bind : MBind RandM :=
  fun A B f m rng n => let '(a, n') := m rng n in f a rng n'.

(** [Math.random()]: the draw under the cursor. *)
Definition random : RandM Q := fun rng n => (rng n, S n).

(** ** The generator *)

(** [enemies.push({ type, level, side, gridX, gridY })] *)
Record EnemySpec := mkEnemySpec {
  es_type : UnitType;
  es_level : Z;
  es_side : Side;
  es_gridX : Z;
  es_gridY : Z
}.

(** [LevelConfig] *)
Record LevelConfig := mkLevelConfig {
  levelNumber : Z;
  enemies : list EnemySpec
}.

(** [Math.floor(GRID_ROWS / 2) - 1] *)
Definition enemyMaxRow : Z := GRID_ROWS / 2 - 1.

(** [availableTypes] and its three [push]es. *)
Definition availableTypesOf (lvl : Z) : list UnitType :=
  [INFANTRY; ARCHER] ++ (if 3 <? lvl then [TANK; SPEARMAN] else [])
  ++ (if 6 <? lvl then [MAGE; ASSASSIN] else [])
  ++ (if 10 <? lvl then [GOLEM; DRAGON] else []).

(** [baseCount] *)
Definition baseCount (lvl : Z) (d : Difficulty) : Z :=
  let b := 2 + lvl / 4 in
  match d with
  | HELL => b + (1 + lvl / 5)
  | HARD => b + lvl / 10
  | NORMAL => b
  end.

(** [Math.min(baseCount, 16)] *)
Definition enemyCount (lvl : Z) (d : Difficulty) : Z := Z.min (baseCount lvl d) 16.

(** [enemyLevel] *)
Definition enemyLevelOf (lvl : Z) (d : Difficulty) : Z :=
  match d with
  | NORMAL => 1 + lvl / 8
  | HARD => 1 + lvl / 6
  | HELL => 2 + lvl / 5
  end.

Definition Occupied := gset (Z * Z).

(** One pass of the do-while body: [gridX], then [gridY]. *)
Definition drawCell : RandM (Z * Z) :=
  r1 ← random; r2 ← random;
  mret (Qfloor (r1 * inject_Z GRID_COLS), Qfloor (r2 * inject_Z (enemyMaxRow + 1))).

(** The do-while loop: [attempts] is the counter of the code, [budget]
    the passes left.  The loop stops when the cell is free or the counter
    reaches 20; with [attempts + budget >= 19] the budget never cuts it
    short ([placeAttempts_budget]). *)
Fixpoint placeAttempts (occupied : Occupied) (attempts budget : nat) : RandM (Z * Z * nat) :=
  c ← drawCell;
  let attempts := S attempts in
  if bool_decide (c ∈ occupied) && bool_decide (attempts < 20)%nat then
    match budget with
    | O => mret (c.1, c.2, attempts)
    | S b => placeAttempts occupied attempts b
    end
  else mret (c.1, c.2, attempts).

(** The [for] loop over [i < count]: one enemy per pass whose cell search
    ended with [attempts < 20]. *)
Fixpoint spawnLoop (lvl : Z) (d : Difficulty) (n : nat) (occupied : Occupied)
    (acc : list EnemySpec) : RandM (list EnemySpec) :=
  match n with
  | O => mret acc
  | S n' =>
      p ← placeAttempts occupied 0 19;
      let '(gx, gy, attempts) := p in
      if bool_decide (attempts < 20)%nat then
        r ← random;
        let type := pickRandom (availableTypesOf lvl) r in
        spawnLoop lvl d n' ({[(gx, gy)]} ∪ occupied)
          (acc ++ [mkEnemySpec type (enemyLevelOf lvl d) ENEMY gx gy])
      else spawnLoop lvl d n' occupied acc
  end.

(** [generateLevel(levelNumber, difficulty)] *)
Definition generateLevel (lvl : Z) (d : Difficulty) : RandM LevelConfig :=
  es ← spawnLoop lvl d (Z.to_nat (enemyCount lvl d)) ∅ [];
  mret (mkLevelConfig lvl es).

Definition es_cell (e : EnemySpec) : Z * Z := (es_gridX e, es_gridY e).

(** What every generated enemy satisfies. *)
Definition enemy_ok (lvl : Z) (d : Difficulty) (e : EnemySpec) : Prop :=
  es_side e = ENEMY /\ es_level e = enemyLevelOf lvl d /\ es_type e ∈ availableTypesOf lvl /\
  0 <= es_gridX e < GRID_COLS /\ 0 <= es_gridY e < GRID_ROWS / 2.

(** ** Draw streams for the examples *)

(** A stream that spreads its draws over [[0, 1)]. *)
Definition rng_demo (n : nat) : Q := Qmake (Z.of_nat ((n * 37) mod 100)) 100.

(** A stream whose first enemy takes cell (0, 0), whose second enemy
    hits (0, 0) nineteen times and the free cell (3, 2) on the 20th
    pass. *)
Definition rng_last (n : nat) : Q := if (n <? 41)%nat then 0 else Qmake 1 2.

(** ** The draws *)

Lemma availableTypesOf_nonempty lvl : availableTypesOf lvl <> [].
Proof. done. Qed.


Section Draws.
Context (rng : nat -> Q) (Hrng : forall n, (0 <= rng n < 1)%Q).

Lemma placeAttempts_unfold occ a b n :
  placeAttempts occ a b rng n =
    let c := (Qfloor (rng n * inject_Z GRID_COLS), Qfloor (rng (S n) * inject_Z (enemyMaxRow + 1))) in
    if bool_decide (c ∈ occ) && bool_decide (S a < 20)%nat then
      match b with
      | O => ((c.1, c.2, S a), S (S n))
      | S b' => placeAttempts occ (S a) b' rng (S (S n))
      end
    else ((c.1, c.2, S a), S (S n)).
Proof.
  destruct b; cbv [placeAttempts mbind RandM_bind mret RandM_ret drawCell random];
    destruct (_ && _); reflexivity.
Qed.

Lemma drawn_cell_range n :
  0 <= Qfloor (rng n * inject_Z GRID_COLS) < GRID_COLS /\
  0 <= Qfloor (rng (S n) * inject_Z (enemyMaxRow + 1)) < GRID_ROWS / 2.
Proof.
  split; [apply Qfloor_draw_range; [apply Hrng | grid_lia]|].
  replace (GRID_ROWS / 2) with (enemyMaxRow + 1) by (unfold enemyMaxRow; lia).
  apply Qfloor_draw_range; [apply Hrng | unfold enemyMaxRow; grid_lia].
Qed.

(** The result of the cell search: the counter ends in [(a, 20]], two
    draws per pass, the cell is on the enemy half, and it is free when
    the counter stayed below 20. *)
Lemma placeAttempts_spec occ a b n :
  (19 <= a + b)%nat -> (a < 20)%nat ->
  let '((gx, gy, att), n') := placeAttempts occ a b rng n in
  (a < att <= 20)%nat /\ n' = (n + 2 * (att - a))%nat /\
  0 <= gx < GRID_COLS /\ 0 <= gy < GRID_ROWS / 2 /\ ((att < 20)%nat -> (gx, gy) ∉ occ).
Proof.
  revert a n. induction b as [|b IH]; intros a n Hab Ha; rewrite placeAttempts_unfold; cbv zeta;
    destruct (drawn_cell_range n) as [Hx Hy].
  - rewrite (bool_decide_eq_false_2 (S a < 20)%nat) by lia. rewrite andb_false_r.
    cbn [fst snd]. split_and!; lia.
  - case_bool_decide as Hin; case_bool_decide as Hlt; cbn [andb fst snd].
    + specialize (IH (S a) (S (S n)) ltac:(lia) Hlt).
      destruct (placeAttempts occ (S a) b rng (S (S n))) as [[[gx gy] att] n'].
      destruct IH as (Hatt & Hn & Hgx & Hgy & Hfree). split_and!; try lia; done.
    + split_and!; lia.
    + split_and!; try lia; by intros _.
    + split_and!; try lia; by intros _.
Qed.

(** C33: the cell search ends by itself within 20 passes: from the
    counter [a], any budget of at least [19 - a] passes gives the same
    result, so the budget of the definition never cuts the loop short. *)
Theorem placeAttempts_budget occ a b b' n :
  (19 <= a + b)%nat -> (19 <= a + b')%nat -> placeAttempts occ a b rng n = placeAttempts occ a b' rng n.
Proof.
  revert a b' n. induction b as [|b IH]; intros a b' n Hb Hb';
    rewrite (placeAttempts_unfold occ a _ n), (placeAttempts_unfold occ a b' n); cbv zeta.
  - rewrite (bool_decide_eq_false_2 (S a < 20)%nat) by lia. by rewrite andb_false_r.
  - destruct b' as [|b'].
    + rewrite (bool_decide_eq_false_2 (S a < 20)%nat) by lia. by rewrite andb_false_r.
    + destruct (_ && _); [apply IH; lia | done].
Qed.

Lemma spawnLoop_unfold lvl d k occ acc n :
  spawnLoop lvl d (S k) occ acc rng n =
    let '((gx, gy, att), n1) := placeAttempts occ 0 19 rng n in
    if bool_decide (att < 20)%nat then
      spawnLoop lvl d k ({[(gx, gy)]} ∪ occ)
        (acc ++ [mkEnemySpec (pickRandom (availableTypesOf lvl) (rng n1)) (enemyLevelOf lvl d) ENEMY gx gy])
        rng (S n1)
    else spawnLoop lvl d k occ acc rng n1.
Proof.
  cbv [spawnLoop mbind RandM_bind random]; fold spawnLoop.
  destruct (placeAttempts occ 0 19 rng n) as [[[gx gy] att] n1]. by destruct (bool_decide _).
Qed.

(** The invariant of the [for] loop: the cells pushed are distinct (the
    [occupied] set holds exactly their keys), every enemy is valid, at
    most one enemy per pass, and at most 41 draws per pass. *)
Lemma spawnLoop_spec lvl d k occ acc n :
  NoDup (es_cell <$> acc) -> (forall c, c ∈ occ <-> c ∈ es_cell <$> acc) ->
  (forall e, e ∈ acc -> enemy_ok lvl d e) ->
  let '(es, n') := spawnLoop lvl d k occ acc rng n in
  NoDup (es_cell <$> es) /\ (forall e, e ∈ es -> enemy_ok lvl d e) /\
  (length acc <= length es <= length acc + k)%nat /\ (n' <= n + 41 * k)%nat.
Proof.
  revert occ acc n. induction k as [|k IH]; intros occ acc n Hnd Hocc Hok.
  { cbn. split_and!; [done | done | lia | lia | lia]. }
  rewrite spawnLoop_unfold.
  pose proof (placeAttempts_spec occ 0 19 n ltac:(lia) ltac:(lia)) as Hsp.
  destruct (placeAttempts occ 0 19 rng n) as [[[gx gy] att] n1].
  destruct Hsp as (Hatt & -> & Hgx & Hgy & Hfree). case_bool_decide as Hlt.
  - set (e := mkEnemySpec _ _ _ _ _).
    assert (Hnew : es_cell e ∉ es_cell <$> acc) by (rewrite <- Hocc; by apply Hfree).
    assert (Hnd' : NoDup (es_cell <$> acc ++ [e])).
    { rewrite fmap_app. apply list.NoDup_app. split_and!; [done | | apply NoDup_singleton].
      intros c Hc Hc'. apply list_elem_of_singleton in Hc' as ->. by apply Hnew. }
    assert (Hocc' : forall c, c ∈ {[(gx, gy)]} ∪ occ <-> c ∈ es_cell <$> acc ++ [e]).
    { intros c. rewrite fmap_app. change (es_cell <$> [e]) with [es_cell e].
      rewrite elem_of_union, elem_of_singleton, elem_of_app, list_elem_of_singleton, Hocc.
      tauto. }
    assert (Hok' : forall x, x ∈ acc ++ [e] -> enemy_ok lvl d x).
    { intros x Hx. apply elem_of_app in Hx as [Hx|Hx%list_elem_of_singleton]; [by apply Hok|subst x].
      unfold enemy_ok, e. cbn [es_side es_level es_type es_gridX es_gridY]. split_and!; try done; try lia;
        apply pickRandom_elem; [apply availableTypesOf_nonempty | apply Hrng]. }
    specialize (IH _ _ (S (n + 2 * (att - 0))) Hnd' Hocc' Hok').
    destruct (spawnLoop lvl d k _ _ rng _) as [es n']. destruct IH as (? & ? & Hlen & Hn').
    rewrite length_app in Hlen. cbn in Hlen. split_and!; [done | done | lia | lia | lia].
  - specialize (IH occ acc (n + 2 * (att - 0))%nat Hnd Hocc Hok).
    destruct (spawnLoop lvl d k occ acc rng _) as [es n']. destruct IH as (? & ? & ? & ?).
    split_and!; [done | done | lia | lia | lia].
Qed.

End Draws.

(** ** The generated level *)

Section Generator.
Context (rng : nat -> Q) (Hrng : forall n, (0 <= rng n < 1)%Q).

Lemma generateLevel_eq lvl d n :
  generateLevel lvl d rng n =
    let '(es, n') := spawnLoop lvl d (Z.to_nat (enemyCount lvl d)) ∅ [] rng n in (mkLevelConfig lvl es, n').
Proof. reflexivity. Qed.

(** The loop only appends. *)
Lemma spawnLoop_prefix lvl d k occ acc n : acc `prefix_of` fst (spawnLoop lvl d k occ acc rng n).
Proof.
  revert occ acc n. induction k as [|k IH]; intros occ acc n; [done|].
  rewrite spawnLoop_unfold. destruct (placeAttempts occ 0 19 rng n) as [[[gx gy] att] n1].
  case_bool_decide; [|apply IH]. etrans; [by apply prefix_app_r | apply IH].
Qed.

Lemma spawnLoop_init lvl d k n :
  let '(es, n') := spawnLoop lvl d k ∅ [] rng n in
  NoDup (es_cell <$> es) /\ (forall e, e ∈ es -> enemy_ok lvl d e) /\
  (length es <= k)%nat /\ (n' <= n + 41 * k)%nat.
Proof.
  pose proof (spawnLoop_spec rng Hrng lvl d k ∅ [] n) as Hs.
  destruct (spawnLoop lvl d k ∅ [] rng n) as [es n'].
  destruct Hs as (? & ? & ? & ?); [apply NoDup_nil_2 | | by intros ? ?%elem_of_nil |].
  - intros c. rewrite elem_of_empty. cbn. rewrite elem_of_nil. done.
  - cbn in *. split_and!; [done | done | lia | lia].
Qed.

Lemma placeAttempts_empty n :
  placeAttempts ∅ 0 19 rng n =
    ((Qfloor (rng n * inject_Z GRID_COLS), Qfloor (rng (S n) * inject_Z (enemyMaxRow + 1)), 1%nat), S (S n)).
Proof. rewrite placeAttempts_unfold. cbv zeta. by rewrite bool_decide_eq_false_2 by apply not_elem_of_empty. Qed.

(** C13: the generator never puts two enemies on one cell, and every
    enemy is an enemy-side unit of the level's enemy level, of a type
    unlocked at that level, on a cell of the enemy half of the grid. *)
Theorem generateLevel_valid lvl d n :
  let cfg := fst (generateLevel lvl d rng n) in
  levelNumber cfg = lvl /\ NoDup (es_cell <$> enemies cfg) /\ forall e, e ∈ enemies cfg -> enemy_ok lvl d e.
Proof.
  pose proof (spawnLoop_init lvl d (Z.to_nat (enemyCount lvl d)) n) as Hs. rewrite generateLevel_eq.
  destruct (spawnLoop _ _ _ _ _ rng n) as [es n']. cbn. tauto.
Qed.

(** C28: on a non-negative level the generator places at least one enemy
    (the first search runs on an empty grid) and at most [enemyCount]
    enemies, which is between 2 and 16; it reads at most 41 draws per
    pass of its loop. *)
Theorem generateLevel_count lvl d n :
  0 <= lvl ->
  let '(cfg, n') := generateLevel lvl d rng n in
  (1 <= length (enemies cfg) <= Z.to_nat (enemyCount lvl d))%nat /\ (2 <= enemyCount lvl d <= 16) /\
  (n' <= n + 41 * Z.to_nat (enemyCount lvl d))%nat.
Proof.
  intros Hl. assert (Hc : 2 <= enemyCount lvl d <= 16).
  { unfold enemyCount, baseCount. destruct d; cbv zeta; Z.div_mod_to_equations; lia. }
  pose proof (spawnLoop_init lvl d (Z.to_nat (enemyCount lvl d)) n) as Hs. rewrite generateLevel_eq.
  destruct (Z.to_nat (enemyCount lvl d)) as [|k] eqn:Hk; [lia|].
  rewrite spawnLoop_unfold, placeAttempts_empty, (bool_decide_eq_true_2 (1 < 20)%nat) in Hs |- * by lia.
  cbv beta iota zeta in Hs |- *.
  match goal with |- context [spawnLoop ?l ?d' ?k' ?o ?a rng ?m] => pose proof (spawnLoop_prefix l d' k' o a m) as Hp end.
  destruct (spawnLoop _ _ _ _ _ rng _) as [es n']. cbn [fst snd enemies] in Hp |- *.
  apply prefix_length in Hp. cbn in Hp. destruct Hs as (_ & _ & Hlen & Hn). split_and!; lia.
Qed.

End Generator.

(** ** Witnesses *)

Section Witnesses.

Lemma rng_demo_range n : (0 <= rng_demo n < 1)%Q.
Proof.
  unfold rng_demo, Qle, Qlt. cbn. pose proof (Nat.mod_upper_bound (n * 37) 100 ltac:(lia)). lia.
Qed.

Lemma placeAttempts_budget_witness :
  placeAttempts ∅ 0 19 rng_demo 0%nat = placeAttempts ∅ 0 40 rng_demo 0%nat.
Proof. apply (placeAttempts_budget rng_demo ∅ 0 19 40 0%nat); lia. Defined.

(** Level 13 on HELL: eight enemies on distinct cells of the enemy half. *)
Lemma generateLevel_valid_witness :
  length (enemies (fst (generateLevel 13 HELL rng_demo 0%nat))) = 8%nat /\
  NoDup (es_cell <$> enemies (fst (generateLevel 13 HELL rng_demo 0%nat))).
Proof.
  split; [vm_compute; reflexivity|].
  apply (generateLevel_valid rng_demo rng_demo_range 13 HELL 0%nat).
Defined.

Lemma generateLevel_count_witness :
  (1 <= length (enemies (fst (generateLevel 5 NORMAL rng_demo 0%nat))) <= Z.to_nat (enemyCount 5 NORMAL))%nat.
Proof.
  pose proof (generateLevel_count rng_demo rng_demo_range 5 NORMAL 0%nat ltac:(lia)) as H.
  destruct (generateLevel 5 NORMAL rng_demo 0%nat). apply H.
Defined.

End Witnesses.

(** C40: the counter, not the cell, decides: when the 20th pass of the
    search finds a free cell, the enemy is still dropped.  On level 1 of
    NORMAL (two enemies) with [rng_last], the second search ends on the
    free cell (3, 2) with the counter at 20, and the level has a single
    enemy. *)
Example last_attempt_discarded :
  fst (placeAttempts {[(0, 0)]} 0 19 rng_last 3%nat) = (3, 2, 20%nat) /\
  ((3, 2) ∉ ({[(0, 0)]} : Occupied)) /\
  length (enemies (fst (generateLevel 1 NORMAL rng_last 0%nat))) = 1%nat.
Proof. split; [vm_compute; reflexivity|]. split; [set_solver | vm_compute; reflexivity]. Qed.
