(* ===== verification/Combat.v ===== *)
(** * Combat: the battle tick of src/App.tsx ([battleTick], lines 550-683)

    One animation frame of the battle:
    - [deathSweep]: the first [forEach] (lines 563-575) marks every entity
      with [hp <= 0] as DEAD, counts the newly dead enemies and computes
      the flags [playerAlive] and [enemyAlive];
    - [updateEntity]: the body of the second [forEach] (lines 583-660),
      run for each index in order on the shared array [activeEntities];
      every write is an [alter] at the index of the object the code
      writes ([entity] is index [i], [target] is index [j]), so later
      entities see earlier damage and movement exactly as in the code;
      [attackStep] is the range branch, [moveStep] the move branch with
      the separation loop [separationStep];
    - [battleTick]: the phase guard, [dt] and its clamp, the kill
      counter, the victory loot and the phase transition; its boolean
      result says whether the next frame is requested;
    - [runBattle]: the [requestAnimationFrame] chain on a list of frame
      timestamps.
    The flag [somethingChanged] is written but never read by the code and
    is not modelled.  Positions are stored in lowest terms ([Qred], which
    keeps their value), so that long runs stay executable. *)

From S2P Require Import Prelude Types Constants Stats Session.
Local Open Scope Q_scope.

Section Tick.
Context `{MathSqrt}.

(** [entity.targetId ? ... : null]: the empty string is falsy. *)
Definition truthyId (t : option string) : option string :=
  match t with
  | Some k => if bool_decide (k = "") then None else Some k
  | None => None
  end.

(** The tech level and artifacts an entity fights with (lines 587-591). *)
Definition combatTech (s : GameState) (e : Entity) : Z :=
  if decide (side e = PLAYER) then getPlayerTechLevel s (type e)
  else Z.max 1 (Qceiling (inject_Z (gameLevel s) / 5)).

Definition combatArtifacts (s : GameState) (e : Entity) : ArtifactLevels :=
  if decide (side e = PLAYER) then artifactLevels s else noArtifacts.

Definition combatStats (s : GameState) (e : Entity) : UnitStats :=
  getUnitStats (type e) (level e) (combatTech s e) (combatArtifacts s e).

(** One iteration of the separation loop (lines 645-655) for the moving
    entity at index [i], visiting index [k]. *)
Definition separationStep (safeDt : Q) (i : nat) (arr : list Entity) (k : nat) : list Entity :=
  let entity := arr !!! i in
  match arr !! k with
  | None => arr
  | Some other =>
      if negb (bool_decide (id entity = id other)) && alive other then
        let d := getDistance entity other in
        if Qltb d 0.6 then
          let pushX := x entity - x other in
          let pushY := y entity - y other in
          alter (fun e => set_xy e (Qred (x e + pushX * 3 * safeDt)) (Qred (y e + pushY * 3 * safeDt))) i arr
        else arr
      else arr
  end.

(** The attack branch (lines 614-626): entity [i] hits target [j] when
    its cooldown has elapsed.  [if (state !== X) state = X] is the
    assignment [state = X] (the test only feeds [somethingChanged]). *)
Definition attackStep (timestamp : Q) (stats : UnitStats) (i j : nat) (arr : list Entity) : list Entity :=
  let arr := alter (fun e => set_state e ATTACKING) i arr in
  if Qltb (1000 / attackSpeed stats) (timestamp - lastAttackTime (arr !!! i)) then
    let arr := alter (fun t => set_hp t (hp t - damage stats)) j arr in
    alter (fun e => set_lastAttackTime e timestamp) i arr
  else arr.

(** The move branch (lines 627-657): a step of [moveSpeed * safeDt]
    toward target [j], then the separation loop over the whole array. *)
Definition moveStep (safeDt : Q) (stats : UnitStats) (i j : nat) (arr : list Entity) : list Entity :=
  let arr := alter (fun e => set_state e MOVING) i arr in
  let speed := moveSpeed stats * safeDt in
  let entity := arr !!! i in
  let target := arr !!! j in
  let dx := x target - x entity in
  let dy := y target - y entity in
  let len := msqrt (dx * dx + dy * dy) in
  let arr := if Qltb 0 len
             then alter (fun e => set_xy e (Qred (x e + dx / len * speed)) (Qred (y e + dy / len * speed))) i arr
             else arr in
  fold_left (separationStep safeDt i) (seq 0 (length arr)) arr.

(** Lines 595-606: keep the current target if it is still alive, else
    acquire the nearest one; [None] is the early [return] after
    [entity.state = 'IDLE']. *)
Definition acquireTarget (arr : list Entity) (i : nat) : option (list Entity) :=
  let entity := arr !!! i in
  let currentTarget :=
    match truthyId (targetId entity) with
    | Some tid => findIndexB (fun e => hasId tid e && alive e) arr
    | None => None
    end in
  match currentTarget with
  | Some _ => Some arr
  | None =>
      match findNearestTarget entity arr with
      | Some newTarget => Some (alter (fun e => set_targetId e (Some (id newTarget))) i arr)
      | None => None
      end
  end.

(** Lines 608-659: look the target up by id, face it, then attack or move. *)
Definition engage (timestamp safeDt : Q) (stats : UnitStats) (arr : list Entity) (i : nat) : list Entity :=
  match findIndexB (fun e => bool_decide (Some (id e) = targetId (arr !!! i))) arr with
  | None => arr
  | Some (j, _) =>
      let facing := Qltb (x (arr !!! i)) (x (arr !!! j)) in
      let arr := alter (fun e => set_facing e facing) i arr in
      let dist := getDistance (arr !!! i) (arr !!! j) in
      if Qleb dist (range stats) then attackStep timestamp stats i j arr
      else moveStep safeDt stats i j arr
  end.

(** The body of [activeEntities.forEach(entity => ...)] for index [i]. *)
Definition updateEntity (s : GameState) (timestamp safeDt : Q) (arr : list Entity) (i : nat)
    : list Entity :=
  let entity := arr !!! i in
  if negb (alive entity) then arr else
  let stats := combatStats s entity in
  match acquireTarget arr i with
  | None => alter (fun e => set_state e IDLE) i arr
  | Some arr => engage timestamp safeDt stats arr i
  end.

(** The whole second [forEach], over the indices of the array. *)
Definition updateAll (s : GameState) (timestamp safeDt : Q) (arr : list Entity) : list Entity :=
  fold_left (updateEntity s timestamp safeDt) (seq 0 (length arr)) arr.

(** The first [forEach] (lines 563-575), as written: the accumulator is
    [(activeEntities, playerAlive, enemyAlive, newKills)]. *)
Definition sweepStep (acc : list Entity * bool * bool * Z) (e : Entity) : list Entity * bool * bool * Z :=
  let '(out, playerAlive, enemyAlive, newKills) := acc in
  if alive e then
    (out ++ [e], playerAlive || bool_decide (side e = PLAYER),
     enemyAlive || bool_decide (side e = ENEMY), newKills)
  else if bool_decide (state e <> DEAD) then
    (out ++ [set_state e DEAD], playerAlive, enemyAlive,
     if bool_decide (side e = ENEMY) then (newKills + 1)%Z else newKills)
  else (out ++ [e], playerAlive, enemyAlive, newKills).

Definition deathSweep (arr : list Entity) : list Entity * bool * bool * Z :=
  fold_left sweepStep arr ([], false, false, 0%Z).

(** [battleTick(timestamp)]; the boolean is [true] when the next frame is
    requested ([battleLoopId.current = requestAnimationFrame(battleTick)]). *)
Definition battleTick (s : GameState) (timestamp : Q) : GameState * bool :=
  if negb (bool_decide (phase s = BATTLE)) then (s, false) else
  let dt := (timestamp - lastTime s) / 1000 in
  let s := set_lastTime s timestamp in
  let safeDt := Qmin dt 0.1 in
  let '(active, playerAlive, enemyAlive, newKills) := deathSweep (entities s) in
  let s := if (0 <? newKills)%Z then set_gameStats s (add_kills (gameStats s) newKills) else s in
  let active := if playerAlive && enemyAlive then updateAll s timestamp safeDt active else active in
  let s := set_entities s active in
  if negb playerAlive && negb enemyAlive then (set_phase s DEFEAT, false)
  else if negb playerAlive then (set_phase s DEFEAT, false)
  else if negb enemyAlive then
    let baseLoot := (150 + gameLevel s * 50)%Z in
    let s := set_coins s (coins s + Qfloor (inject_Z baseLoot * getGoldMultiplier s))%Z in
    let s := set_gameStats s (add_win (gameStats s)) in
    (set_phase s VICTORY, false)
  else (s, true).

(** The frame loop: each requested frame runs at the next timestamp. *)
Fixpoint runBattle (s : GameState) (frames : list Q) : GameState :=
  match frames with
  | [] => s
  | t :: rest =>
      let '(s', again) := battleTick s t in
      if again then runBattle s' rest else s'
  end.

(** [setPhase(GamePhase.BATTLE)] and the effect of lines 685-691, which
    sets [lastTimeRef] to [performance.now()] before the first frame. *)
Definition startBattle (s : GameState) (now : Q) : GameState :=
  set_lastTime (set_phase s BATTLE) now.

End Tick.

(** ** Specification-side definitions *)

(** The sweep in closed form. *)
Definition sweepOne (e : Entity) : Entity :=
  if alive e then e else if bool_decide (state e <> DEAD) then set_state e DEAD else e.

Definition livingOn (sd : Side) (arr : list Entity) : bool :=
  existsb (fun e => alive e && bool_decide (side e = sd)) arr.

Definition newlyDeadEnemy (e : Entity) : bool :=
  negb (alive e) && bool_decide (state e <> DEAD) && bool_decide (side e = ENEMY).

Definition newKillsOf (arr : list Entity) : Z := Z.of_nat (length (List.filter newlyDeadEnemy arr)).

(** What a tick may do to one entity: identity fields fixed, hp never
    raised, the state of a dead entity untouched, and no entity made
    DEAD (only the sweep does that). *)
Definition keeps (e e' : Entity) : Prop :=
  same_identity e e' /\ (hp e' <= hp e)%Z /\
  ((hp e <= 0)%Z -> state e' = state e) /\ (state e' = DEAD -> state e = DEAD).

Definition evolves (arr arr' : list Entity) : Prop :=
  length arr' = length arr /\
  forall k e, arr !! k = Some e -> exists e', arr' !! k = Some e' /\ keeps e e'.

(** Every entity marked DEAD has no hit points left. *)
Definition dead_ok (arr : list Entity) : Prop :=
  forall e, e ∈ arr -> state e = DEAD -> (hp e <= 0)%Z.

Definition dead_okb (arr : list Entity) : bool :=
  forallb (fun e => negb (bool_decide (state e = DEAD)) || bool_decide (hp e <= 0)%Z) arr.

(** A stored target id names an entity of the other side (or none). *)
Definition targets_ok (arr : list Entity) : Prop :=
  forall e t, e ∈ arr -> t ∈ arr -> targetId e = Some (id t) -> side t <> side e.

(** The index of the acting entity holds a live entity. *)
Definition live_at (arr : list Entity) (i : nat) : Prop :=
  forall e, arr !! i = Some e -> (0 < hp e)%Z.

(** What a whole battle frame does to one entity (sweep, then the
    updates): identity fields fixed, hp never raised, an entity found
    without hit points marked DEAD, and DEAD only for such an entity or
    one already DEAD. *)
Definition ticks (e e' : Entity) : Prop :=
  same_identity e e' /\ (hp e' <= hp e)%Z /\
  ((hp e <= 0)%Z -> state e' = DEAD) /\ (state e' = DEAD -> state e = DEAD \/ (hp e <= 0)%Z).

(** ** Fixtures: a small battle *)

(** An infantry unit at (3,7) facing an archer at (3,2), with a second
    enemy already at 0 hp but not yet marked DEAD. *)
Definition fx_p1 : Entity := createEntity "p1" INFANTRY 1 PLAYER 3 7 1 noArtifacts.
Definition fx_e1 : Entity := createEntity "e1" ARCHER 1 ENEMY 3 2 1 noArtifacts.
Definition fx_e2 : Entity := set_hp (createEntity "e2" INFANTRY 1 ENEMY 2 1 1 noArtifacts) 0.

Definition battle_state : GameState :=
  startBattle (set_entities (initialGameState NORMAL 0) [fx_p1; fx_e1; fx_e2]) 0.

(** ** Frame lemmas: what one step may change *)

Section Frame.
Context `{MathSqrt}.

Lemma dead_okb_spec arr : dead_okb arr = true -> dead_ok arr.
Proof.
  unfold dead_okb. rewrite forallb_forall. intros Hall e He Hst.
  apply list_elem_of_In, Hall, orb_true_iff in He as [Hn|Hh].
  - by rewrite bool_decide_eq_true_2 in Hn.
  - by apply bool_decide_eq_true in Hh.
Qed.

Lemma keeps_refl e : keeps e e.
Proof. split; [apply same_identity_refl | repeat split; auto; lia]. Qed.

Lemma keeps_trans e1 e2 e3 : keeps e1 e2 -> keeps e2 e3 -> keeps e1 e3.
Proof.
  intros (Hi1 & Hh1 & Hs1 & Hd1) (Hi2 & Hh2 & Hs2 & Hd2).
  split; [by eapply same_identity_trans|]. split; [lia|]. split.
  - intros Hle. rewrite Hs2 by lia. by apply Hs1.
  - auto.
Qed.

Lemma evolves_refl arr : evolves arr arr.
Proof. split; [done|]. intros k e Hk. exists e. split; [done | apply keeps_refl]. Qed.

Lemma evolves_trans a1 a2 a3 : evolves a1 a2 -> evolves a2 a3 -> evolves a1 a3.
Proof.
  intros [Hl1 H1] [Hl2 H2]. split; [lia|]. intros k e Hk.
  destruct (H1 k e Hk) as (e2 & Hk2 & Hke2). destruct (H2 k e2 Hk2) as (e3 & Hk3 & Hke3).
  exists e3. split; [done | by eapply keeps_trans].
Qed.

Lemma evolves_alter f i arr :
  (forall e, arr !! i = Some e -> keeps e (f e)) -> evolves arr (alter f i arr).
Proof.
  intros Hf. split; [apply length_alter|]. intros k e Hk.
  rewrite list_lookup_alter. case_decide as Hik.
  - subst k. rewrite Hk. exists (f e). split; [done | by apply Hf].
  - exists e. split; [done | apply keeps_refl].
Qed.

Lemma evolves_fold {A} (step : list Entity -> A -> list Entity) (l : list A) arr :
  (forall arr a, evolves arr (step arr a)) -> evolves arr (fold_left step l arr).
Proof.
  intros Hstep. revert arr. induction l as [|a l IH]; intros arr; [apply evolves_refl|].
  simpl. eapply evolves_trans; [apply Hstep | apply IH].
Qed.

(** The writes of the tick, one by one. *)
Lemma keeps_set_xy e px py : keeps e (set_xy e px py).
Proof. split; [repeat split | repeat split; auto; cbn; lia]. Qed.

Lemma keeps_set_facing e b : keeps e (set_facing e b).
Proof. split; [repeat split | repeat split; auto; cbn; lia]. Qed.

Lemma keeps_set_targetId e t : keeps e (set_targetId e t).
Proof. split; [repeat split | repeat split; auto; cbn; lia]. Qed.

Lemma keeps_set_lastAttackTime e t : keeps e (set_lastAttackTime e t).
Proof. split; [repeat split | repeat split; auto; cbn; lia]. Qed.

Lemma keeps_set_state_live e st : (0 < hp e)%Z -> st <> DEAD -> keeps e (set_state e st).
Proof. intros Hhp Hst. split; [repeat split|]. cbn. repeat split; [lia | lia | done]. Qed.

Lemma keeps_hit e d : (0 <= d)%Z -> keeps e (set_hp e (hp e - d)).
Proof. intros Hd. split; [repeat split|]. cbn. repeat split; auto; lia. Qed.

Lemma live_at_total arr i : alive (arr !!! i) = true -> live_at arr i.
Proof. intros Ha e He. rewrite (list_lookup_total_correct _ _ _ He) in Ha. by apply alive_true. Qed.

Lemma live_at_alter f arr i j :
  (forall e, hp (f e) = hp e) -> live_at arr i -> live_at (alter f j arr) i.
Proof.
  intros Hf Hl e He. rewrite list_lookup_alter in He. case_decide; [|by apply Hl].
  subst. destruct (arr !! i) as [e0|] eqn:E; [|done]. cbn in He. injection He as <-.
  rewrite Hf. by apply Hl.
Qed.

Lemma evolves_set_state_live arr i st :
  live_at arr i -> st <> DEAD -> evolves arr (alter (fun e => set_state e st) i arr).
Proof. intros Hl Hst. apply evolves_alter. intros e He. apply keeps_set_state_live; [by apply Hl | done]. Qed.

Lemma separationStep_evolves dt i arr k : evolves arr (separationStep dt i arr k).
Proof.
  unfold separationStep. destruct (arr !! k); [|apply evolves_refl].
  repeat case_match; try apply evolves_refl. apply evolves_alter. intros. apply keeps_set_xy.
Qed.

Lemma evolves_then_fold {A} (step : list Entity -> A -> list Entity) (l : list A) arr a :
  evolves arr a -> (forall arr' b, evolves arr' (step arr' b)) -> evolves arr (fold_left step l a).
Proof. intros Ha Hstep. eapply evolves_trans; [exact Ha | by apply evolves_fold]. Qed.

Lemma moveStep_evolves dt st i j arr : live_at arr i -> evolves arr (moveStep dt st i j arr).
Proof.
  intros Hl. unfold moveStep. cbv zeta.
  apply evolves_then_fold; [|intros; apply separationStep_evolves].
  apply (evolves_trans _ (alter (fun e => set_state e MOVING) i arr));
    [apply evolves_set_state_live; [done | discriminate]|].
  case_match; [|apply evolves_refl]. apply evolves_alter. intros. apply keeps_set_xy.
Qed.

Lemma attackStep_evolves ts st i j arr :
  live_at arr i -> (0 <= damage st)%Z -> evolves arr (attackStep ts st i j arr).
Proof.
  intros Hl Hd. unfold attackStep. cbv zeta.
  apply (evolves_trans _ (alter (fun e => set_state e ATTACKING) i arr));
    [apply evolves_set_state_live; [done | discriminate]|].
  case_match; [|apply evolves_refl].
  eapply evolves_trans; apply evolves_alter; intros;
    [by apply keeps_hit | apply keeps_set_lastAttackTime].
Qed.

(** Damage is never negative, so a hit never heals. *)
Lemma combat_damage_nonneg s e : session_ok s -> (0 <= damage (combatStats s e))%Z.
Proof.
  intros Hs. unfold combatStats. cbn [damage getUnitStats]. apply Qfloor_nonneg.
  unfold damageRaw.
  assert (Htech : (1 <= combatTech s e)%Z).
  { unfold combatTech. case_decide; [by apply getPlayerTechLevel_ge1 | lia]. }
  assert (Hart : (0 <= combatArtifacts s e HOLY_SWORD)%Z).
  { unfold combatArtifacts. destruct Hs as (_ & _ & Ha). case_decide; [apply Ha | done]. }
  pose proof (techMult_ge1 _ Htech). pose proof (artifactMult_ge1 _ 0.05 Hart ltac:(lra)).
  assert (0 < DAMAGE_MULTIPLIER ^ (level e - 1)) by (apply Qpower_0_lt; unfold DAMAGE_MULTIPLIER; lra).
  assert (0 <= inject_Z (damage (UNIT_BASE_STATS (type e)))) by (destruct (type e); unfold Qle; simpl; lia).
  apply Qmult_le_0_compat; [apply Qmult_le_0_compat; [apply Qmult_le_0_compat|] |]; lra.
Qed.

Lemma acquireTarget_evolves arr i arr1 :
  acquireTarget arr i = Some arr1 -> evolves arr arr1 /\ (live_at arr i -> live_at arr1 i).
Proof.
  unfold acquireTarget. intros Hre. repeat case_match; simplify_eq;
    first [ (split; [apply evolves_refl | done])
          | (split; [apply evolves_alter; intros; apply keeps_set_targetId | intros; by apply live_at_alter]) ].
Qed.

Lemma engage_evolves ts dt st arr i :
  live_at arr i -> (0 <= damage st)%Z -> evolves arr (engage ts dt st arr i).
Proof.
  intros Hl Hd. unfold engage.
  destruct (findIndexB _ arr) as [[j t]|] eqn:Hfind; [|apply evolves_refl]. cbv zeta.
  set (a1 := alter _ i arr).
  assert (Hl1 : live_at a1 i) by (by apply live_at_alter).
  apply (evolves_trans _ a1); [apply evolves_alter; intros; apply keeps_set_facing|].
  case_match; [by apply attackStep_evolves | by apply moveStep_evolves].
Qed.

Lemma updateEntity_evolves s ts dt arr i : session_ok s -> evolves arr (updateEntity s ts dt arr i).
Proof.
  intros Hs. unfold updateEntity.
  destruct (alive (arr !!! i)) eqn:Hal; cbn [negb]; [|apply evolves_refl].
  apply live_at_total in Hal.
  destruct (acquireTarget arr i) as [arr1|] eqn:Hre.
  - destruct (acquireTarget_evolves arr i arr1 Hre) as [Hev Hl1].
    eapply evolves_trans; [exact Hev|]. apply engage_evolves; [auto | by apply combat_damage_nonneg].
  - apply evolves_set_state_live; [done | discriminate].
Qed.

Lemma updateAll_evolves s ts dt arr : session_ok s -> evolves arr (updateAll s ts dt arr).
Proof. intros Hs. apply evolves_fold. intros. by apply updateEntity_evolves. Qed.

End Frame.

(** ** The death sweep and the outcome of a tick *)

Section Outcome.
Context `{MathSqrt}.

Lemma fold_sweep l out p e n :
  fold_left sweepStep l (out, p, e, n) =
  (out ++ (sweepOne <$> l), p || livingOn PLAYER l, e || livingOn ENEMY l, (n + newKillsOf l)%Z).
Proof.
  revert out p e n. induction l as [|a l IH]; intros out p e n; cbn [fold_left].
  - rewrite app_nil_r, !orb_false_r. unfold newKillsOf. cbn. f_equal. lia.
  - unfold livingOn, newKillsOf in *. rewrite fmap_cons. cbn [existsb List.filter].
    unfold sweepOne at 1, newlyDeadEnemy at 1, sweepStep at 2.
    destruct (alive a); cbn [negb andb orb].
    + by rewrite IH, <- app_assoc, !orb_assoc.
    + destruct (bool_decide (state a <> DEAD)); cbn [andb orb];
        [destruct (bool_decide (side a = ENEMY)) |]; rewrite IH, <- app_assoc; cbn [length];
        f_equal; try done; lia.
Qed.

(** The first [forEach] computes the sweep in closed form. *)
Lemma deathSweep_spec arr :
  deathSweep arr = (sweepOne <$> arr, livingOn PLAYER arr, livingOn ENEMY arr, newKillsOf arr).
Proof. unfold deathSweep. by rewrite fold_sweep. Qed.

Lemma newKillsOf_nonneg arr : (0 <= newKillsOf arr)%Z.
Proof. unfold newKillsOf. lia. Qed.

(** Outside the battle phase a frame does nothing and schedules
    nothing (a stray tick after victory, defeat or a reset is inert). *)
Theorem battleTick_inert s ts : phase s <> BATTLE -> battleTick s ts = (s, false).
Proof. intros Hph. unfold battleTick. by rewrite bool_decide_eq_false_2. Qed.

(** C2: the outcome of a battle frame.  Another frame is requested
    exactly when both sides still have a living unit at the start of the
    frame; otherwise the battle ends: VICTORY when only the player has
    living units (loot [floor((150 + 50 level) * goldMultiplier)] and one
    more win), DEFEAT when the player has none (also when neither side
    has).  The kill counter grows by the number of enemies newly found
    dead. *)
Theorem battleTick_outcome s ts :
  phase s = BATTLE ->
  let pa := livingOn PLAYER (entities s) in
  let ea := livingOn ENEMY (entities s) in
  snd (battleTick s ts) = pa && ea /\
  phase (fst (battleTick s ts)) = (if pa && ea then BATTLE else if pa then VICTORY else DEFEAT) /\
  coins (fst (battleTick s ts)) =
    (if pa && negb ea then coins s + Qfloor (inject_Z (150 + gameLevel s * 50) * getGoldMultiplier s)
     else coins s)%Z /\
  wins (gameStats (fst (battleTick s ts))) =
    (if pa && negb ea then wins (gameStats s) + 1 else wins (gameStats s))%Z /\
  kills (gameStats (fst (battleTick s ts))) = (kills (gameStats s) + newKillsOf (entities s))%Z.
Proof.
  intros Hph. cbv zeta. unfold battleTick. rewrite bool_decide_eq_true_2 by done. cbn [negb].
  cbn [entities set_lastTime]. rewrite deathSweep_spec.
  pose proof (newKillsOf_nonneg (entities s)) as Hnk.
  destruct (livingOn PLAYER (entities s)), (livingOn ENEMY (entities s));
    destruct (0 <? newKillsOf (entities s))%Z eqn:Hk; apply Z.ltb_lt in Hk || apply Z.ltb_ge in Hk;
    cbn; repeat split; (done || lia).
Qed.

(** The sweep only writes [state]. *)
Lemma sweepOne_identity e : same_identity e (sweepOne e) /\ hp (sweepOne e) = hp e.
Proof. unfold sweepOne. repeat case_match; split; try apply same_identity_refl; done. Qed.

Lemma sweepOne_dead e : (hp e <= 0)%Z -> state (sweepOne e) = DEAD.
Proof.
  intros Hhp. unfold sweepOne. rewrite (proj2 (alive_false e) Hhp).
  case_bool_decide as Hs; [done | destruct (decide (state e = DEAD)); tauto].
Qed.

Lemma sweepOne_dead_inv e : state (sweepOne e) = DEAD -> state e = DEAD \/ (hp e <= 0)%Z.
Proof.
  unfold sweepOne. destruct (alive e) eqn:Ha; [by left|].
  right. by apply alive_false.
Qed.

Lemma ticks_of_keeps e e' : keeps (sweepOne e) e' -> ticks e e'.
Proof.
  intros (Hid & Hhp & Hst & Hd). destruct (sweepOne_identity e) as [Hid0 Hhp0].
  split; [by eapply same_identity_trans|]. split; [lia|]. split.
  - intros Hle. rewrite Hst by lia. by apply sweepOne_dead.
  - intros He'. by apply sweepOne_dead_inv, Hd.
Qed.

Lemma lookup_sweep (arr : list Entity) k e :
  arr !! k = Some e -> (sweepOne <$> arr) !! k = Some (sweepOne e).
Proof. intros Hk. by rewrite list_lookup_fmap, Hk. Qed.

(** In the battle phase the entities after a frame are the swept array,
    or [updateAll] run on it (with the state after the kill update). *)
Lemma battleTick_entities s ts :
  phase s = BATTLE -> session_ok s ->
  entities (fst (battleTick s ts)) = sweepOne <$> entities s \/
  exists s0 dt, session_ok s0 /\
    entities (fst (battleTick s ts)) = updateAll s0 ts dt (sweepOne <$> entities s).
Proof.
  intros Hph Hs. unfold battleTick. rewrite bool_decide_eq_true_2 by done. cbn [negb].
  cbn [entities set_lastTime]. rewrite deathSweep_spec.
  destruct (livingOn PLAYER (entities s)), (livingOn ENEMY (entities s)); cbn; auto.
  right. eexists _, _. split; [|reflexivity]. by case_match.
Qed.

Lemma battleTick_evolves_swept s ts :
  phase s = BATTLE -> session_ok s ->
  evolves (sweepOne <$> entities s) (entities (fst (battleTick s ts))).
Proof.
  intros Hph Hs. destruct (battleTick_entities s ts Hph Hs) as [-> | (s0 & dt & Hs0 & ->)];
    [apply evolves_refl | by apply updateAll_evolves].
Qed.

Lemma evolves_swept_ticks (arr arr' : list Entity) :
  evolves (sweepOne <$> arr) arr' ->
  length arr' = length arr /\
  forall k e, arr !! k = Some e -> exists e', arr' !! k = Some e' /\ ticks e e'.
Proof.
  intros [Hlen Hev]. rewrite length_fmap in Hlen. split; [done|].
  intros k e Hk. destruct (Hev k _ (lookup_sweep _ _ _ Hk)) as (e' & Hk' & Hke).
  exists e'. split; [done | by apply ticks_of_keeps].
Qed.

(** C7: what a battle frame does to each entity.  The array keeps its
    length and its order, and the entity at each index keeps its
    identity fields, never gains hit points, is marked DEAD when it
    started the frame with no hit points, and is DEAD afterwards only if
    it was DEAD already or had no hit points. *)
Theorem battleTick_ticks s ts :
  phase s = BATTLE -> session_ok s ->
  length (entities (fst (battleTick s ts))) = length (entities s) /\
  forall k e, entities s !! k = Some e ->
    exists e', entities (fst (battleTick s ts)) !! k = Some e' /\ ticks e e'.
Proof. intros Hph Hs. by apply evolves_swept_ticks, battleTick_evolves_swept. Qed.

(** C10: the invariant [dead_ok] (an entity marked DEAD has no hit
    points) holds after every frame, in any phase. *)
Theorem battleTick_dead_ok s ts :
  session_ok s -> dead_ok (entities s) -> dead_ok (entities (fst (battleTick s ts))).
Proof.
  intros Hs Hdead.
  destruct (decide (phase s = BATTLE)) as [Hph|Hph]; [|by unfold battleTick; rewrite bool_decide_eq_false_2].
  destruct (evolves_swept_ticks _ _ (battleTick_evolves_swept s ts Hph Hs)) as [Hlen Hev].
  intros e' He' Hst. apply list_elem_of_lookup in He' as [k Hk'].
  destruct (lookup_lt_is_Some_2 (entities s) k) as [e Hk];
    [rewrite <- Hlen; by apply lookup_lt_Some in Hk'|].
  destruct (Hev k e Hk) as (e'' & Hk'' & _ & Hhp & _ & Hd). simplify_eq.
  destruct (Hd Hst) as [He|He]; [|lia].
  pose proof (Hdead e ltac:(by eapply list_elem_of_lookup_2) He). lia.
Qed.

End Outcome.

(** ** Entities without hit points are frozen for the rest of a frame

    With distinct ids, an entity with no hit points is neither updated
    (the guard [if (entity.hp <= 0) return]) nor written by another
    entity: its target is found by id, and the found target is alive. *)

Section Frozen.
Context `{MathSqrt}.

Lemma truthyId_Some t k : truthyId t = Some k -> t = Some k.
Proof. destruct t as [k'|]; cbn; [case_bool_decide; congruence | done]. Qed.

Lemma ids_alter (f : Entity -> Entity) i (l : list Entity) :
  (forall e, id (f e) = id e) -> id <$> alter f i l = id <$> l.
Proof.
  intros Hf. apply list_eq. intros k. rewrite !list_lookup_fmap, list_lookup_alter.
  case_decide; [subst; destruct (l !! k); cbn; by rewrite ?Hf | done].
Qed.

Lemma evolves_ids arr arr' : evolves arr arr' -> id <$> arr' = id <$> arr.
Proof.
  intros [Hlen Hev]. apply list_eq. intros k. rewrite !list_lookup_fmap.
  destruct (arr !! k) as [e|] eqn:Hk.
  - destruct (Hev k e Hk) as (e' & -> & Hid & _). cbn. by rewrite (proj1 Hid).
  - apply lookup_ge_None in Hk. rewrite lookup_ge_None_2; [done | lia].
Qed.

Lemma NoDup_id_inj (l : list Entity) j j' t t' :
  NoDup (id <$> l) -> l !! j = Some t -> l !! j' = Some t' -> id t = id t' -> j = j'.
Proof.
  intros Hnd Hj Hj' Hid. eapply NoDup_lookup; [exact Hnd | |].
  - by rewrite list_lookup_fmap, Hj.
  - by rewrite list_lookup_fmap, Hj', Hid.
Qed.

Lemma fold_left_lookup_stable {A} (step : list Entity -> A -> list Entity) (l : list A) arr k :
  (forall a x, step a x !! k = a !! k) -> fold_left step l arr !! k = arr !! k.
Proof.
  intros Hstep. revert arr. induction l as [|x l IH]; intros arr; [done|].
  cbn. by rewrite IH, Hstep.
Qed.

(** The writes of the acting entity [i] at any other index. *)
Lemma separationStep_other dt i arr k' k : i <> k -> separationStep dt i arr k' !! k = arr !! k.
Proof. intros Hik. unfold separationStep. repeat case_match; try done. by apply lookup_alter_other. Qed.

Lemma moveStep_other dt st i j arr k : i <> k -> moveStep dt st i j arr !! k = arr !! k.
Proof.
  intros Hik. unfold moveStep. cbv zeta.
  rewrite fold_left_lookup_stable by (intros; by apply separationStep_other).
  case_match; by rewrite !lookup_alter_other by done.
Qed.

Lemma attackStep_other ts st i j arr k : i <> k -> j <> k -> attackStep ts st i j arr !! k = arr !! k.
Proof. intros. unfold attackStep. cbv zeta. case_match; by rewrite !lookup_alter_other by done. Qed.

Lemma engage_other ts dt st arr i k :
  i <> k ->
  (forall j t, findIndexB (fun e => bool_decide (Some (id e) = targetId (arr !!! i))) arr = Some (j, t) ->
     j <> k) ->
  engage ts dt st arr i !! k = arr !! k.
Proof.
  intros Hik Hj. unfold engage.
  destruct (findIndexB _ arr) as [[j t]|] eqn:Hf; [|done]. cbv zeta.
  specialize (Hj j t eq_refl).
  case_match; [rewrite attackStep_other by done | rewrite moveStep_other by done];
    by apply lookup_alter_other.
Qed.

Lemma acquireTarget_other arr i arr1 k : acquireTarget arr i = Some arr1 -> i <> k -> arr1 !! k = arr !! k.
Proof. unfold acquireTarget. intros Hacq Hik. repeat case_match; simplify_eq; by rewrite ?lookup_alter_other. Qed.

Lemma acquireTarget_ids arr i arr1 : acquireTarget arr i = Some arr1 -> id <$> arr1 = id <$> arr.
Proof. unfold acquireTarget. intros Hacq. repeat case_match; simplify_eq; by rewrite ?ids_alter. Qed.

(** A write that keeps [id] and [hp] leaves them readable at every index. *)
Lemma alter_lookup_id_hp (f : Entity -> Entity) i (l : list Entity) j t :
  (forall e, id (f e) = id e /\ hp (f e) = hp e) ->
  alter f i l !! j = Some t -> exists t0, l !! j = Some t0 /\ id t = id t0 /\ hp t = hp t0.
Proof.
  intros Hf Hj. rewrite list_lookup_alter in Hj. case_decide; subst.
  - destruct (l !! j) as [t0|]; cbn in Hj; [injection Hj as <- | done]. exists t0. split; [done | apply Hf].
  - by exists t.
Qed.

(** The target [engage] finds after a fresh acquisition is alive. *)
Lemma retarget_alive (arr : list Entity) i nt j t :
  NoDup (id <$> arr) -> findNearestTarget (arr !!! i) arr = Some nt ->
  alter (fun e => set_targetId e (Some (id nt))) i arr !! j = Some t ->
  Some (id t) = targetId (alter (fun e => set_targetId e (Some (id nt))) i arr !!! i) ->
  (0 < hp t)%Z.
Proof.
  intros Hnd Hnt Hj Hid.
  rewrite list_lookup_total_alt, list_lookup_alter, decide_True in Hid by done.
  destruct (arr !! i); cbn in Hid; [injection Hid as Hid | done].
  destruct (alter_lookup_id_hp (fun e0 => set_targetId e0 (Some (id nt))) _ _ _ _ (fun _ => conj eq_refl eq_refl) Hj) as (t0 & Hj0 & Hid0 & ->).
  destruct (findNearestTarget_Some _ _ _ Hnt) as (Hin & _ & Hhp).
  apply list_elem_of_lookup in Hin as [jn Hjn].
  assert (j = jn) as -> by (eapply NoDup_id_inj; eauto; congruence). by simplify_eq.
Qed.

(** With distinct ids, the entity [engage] looks up by the stored target
    id is alive. *)
Lemma acquireTarget_target_alive arr i arr1 j t :
  NoDup (id <$> arr) -> acquireTarget arr i = Some arr1 ->
  findIndexB (fun e => bool_decide (Some (id e) = targetId (arr1 !!! i))) arr1 = Some (j, t) ->
  (0 < hp t)%Z.
Proof.
  intros Hnd Hacq Hf. apply findIndexB_Some in Hf as (Hj & Hid & _). apply bool_decide_eq_true in Hid.
  unfold acquireTarget in Hacq.
  destruct (truthyId (targetId (arr !!! i))) as [tid|] eqn:Htr;
    [destruct (findIndexB (fun e => hasId tid e && alive e) arr) as [[j0 t0]|] eqn:Hcur|].
  - injection Hacq as <-. apply truthyId_Some in Htr.
    apply findIndexB_Some in Hcur as (Hj0 & Hok & _). apply andb_true_iff in Hok as [Hid0 Hal0].
    apply hasId_true in Hid0. rewrite Htr in Hid. injection Hid as Hid.
    assert (j = j0) as -> by (eapply NoDup_id_inj; eauto; congruence). simplify_eq.
    by apply alive_true.
  - destruct (findNearestTarget (arr !!! i) arr) as [nt|] eqn:Hnt; [|done].
    injection Hacq as <-. by eapply retarget_alive.
  - destruct (findNearestTarget (arr !!! i) arr) as [nt|] eqn:Hnt; [|done].
    injection Hacq as <-. by eapply retarget_alive.
Qed.

(** One entity's update leaves an entity without hit points as it is. *)
Lemma updateEntity_frozen s ts dt arr i k e :
  NoDup (id <$> arr) -> arr !! k = Some e -> (hp e <= 0)%Z ->
  updateEntity s ts dt arr i !! k = Some e.
Proof.
  intros Hnd Hk Hhp. unfold updateEntity.
  destruct (decide (i = k)) as [->|Hik].
  { rewrite (list_lookup_total_correct _ _ _ Hk), (proj2 (alive_false e) Hhp). done. }
  destruct (alive (arr !!! i)); cbn [negb]; [|done].
  destruct (acquireTarget arr i) as [arr1|] eqn:Hacq; [|by rewrite lookup_alter_other].
  pose proof (acquireTarget_other _ _ _ _ Hacq Hik) as Hk1. rewrite <- Hk, <- Hk1.
  apply engage_other; [done|]. intros j t Hf ->.
  pose proof (acquireTarget_target_alive _ _ _ _ _ Hnd Hacq Hf) as Ht.
  apply findIndexB_Some in Hf as (Hj & _). rewrite Hk1, Hk in Hj. simplify_eq. lia.
Qed.

Lemma updateAll_frozen s ts dt arr k e :
  session_ok s -> NoDup (id <$> arr) -> arr !! k = Some e -> (hp e <= 0)%Z ->
  updateAll s ts dt arr !! k = Some e.
Proof.
  intros Hs. unfold updateAll. generalize (seq 0 (length arr)) as l.
  intros l. revert arr. induction l as [|i l IH]; intros arr Hnd Hk Hhp; [done|].
  cbn [fold_left]. apply IH; [| by apply updateEntity_frozen | done].
  by rewrite (evolves_ids _ _ (updateEntity_evolves s ts dt arr i Hs)).
Qed.

Lemma ids_sweep (l : list Entity) : id <$> (sweepOne <$> l) = id <$> l.
Proof.
  induction l as [|a l IH]; [done|]. rewrite !fmap_cons, IH.
  by rewrite (proj1 (proj1 (sweepOne_identity a))).
Qed.

(** C1: with distinct ids, an entity that starts a battle frame without
    hit points ends it exactly as the sweep left it: marked DEAD, and
    otherwise unchanged.  It does not move, attack, retarget or take
    damage: no other entity's attack lands on it. *)
Theorem battleTick_dead_frozen s ts k e :
  phase s = BATTLE -> session_ok s -> NoDup (id <$> entities s) ->
  entities s !! k = Some e -> (hp e <= 0)%Z ->
  entities (fst (battleTick s ts)) !! k = Some (sweepOne e).
Proof.
  intros Hph Hs Hnd Hk Hhp. pose proof (lookup_sweep _ _ _ Hk) as Hk'.
  destruct (battleTick_entities s ts Hph Hs) as [-> | (s0 & dt & Hs0 & ->)]; [done|].
  apply updateAll_frozen; [done | by rewrite ids_sweep | done |].
  by rewrite (proj2 (sweepOne_identity e)).
Qed.

End Frozen.

(** ** Witnesses *)

Lemma battle_state_ok : session_ok battle_state.
Proof. exact (initialGameState_ok NORMAL 0). Qed.

Lemma battleTick_inert_witness :
  battleTick (set_phase battle_state VICTORY) 16 = (set_phase battle_state VICTORY, false).
Proof. apply battleTick_inert. discriminate. Defined.

Lemma battleTick_outcome_witness :
  newKillsOf (entities battle_state) = 1%Z /\
  kills (gameStats (fst (battleTick battle_state 16))) =
    (kills (gameStats battle_state) + newKillsOf (entities battle_state))%Z.
Proof.
  split; [vm_compute; reflexivity|].
  destruct (battleTick_outcome battle_state 16 eq_refl) as (_ & _ & _ & _ & Hk). exact Hk.
Defined.

Lemma battleTick_ticks_witness :
  length (entities (fst (battleTick battle_state 16))) = length (entities battle_state).
Proof. exact (proj1 (battleTick_ticks battle_state 16 eq_refl battle_state_ok)). Defined.

Lemma battleTick_dead_ok_witness :
  dead_ok (entities battle_state) /\ dead_ok (entities (fst (battleTick battle_state 16))).
Proof.
  assert (Hd : dead_ok (entities battle_state)) by (apply dead_okb_spec; vm_compute; reflexivity).
  split; [exact Hd | exact (battleTick_dead_ok battle_state 16 battle_state_ok Hd)].
Defined.

Lemma battleTick_dead_frozen_witness :
  entities (fst (battleTick battle_state 16)) !! 2%nat = Some (sweepOne fx_e2).
Proof.
  apply battleTick_dead_frozen; [reflexivity | exact battle_state_ok | | reflexivity | vm_compute; discriminate].
  apply (bool_decide_unpack _ (dec := NoDup_dec _)). vm_compute. reflexivity.
Defined.

