(* ===== verification/Progression.v ===== *)
(** * Progression: levels, runs, resets and the saved difficulty (src/App.tsx)

    The App component drives a run through its phases: the difficulty
    screen starts a run ([startGame]), a level is loaded asynchronously
    ([loadLevel] awaits [generateLevel]), the preparation phase ends with
    the fight button, the battle loop ends in VICTORY or DEFEAT, and
    [nextLevel] / [retryLevel] load the next level or the same one again,
    until the last level of the difficulty clears the game and unlocks
    the next difficulty.  [handleModeReset] and [handleFullReset] restart
    a run or wipe the progress, and an effect writes the highest unlocked
    difficulty to [localStorage] whenever it changes.

    [App] extends the session with the state these handlers add: the
    loading flag, the unlocked-difficulty banner, the stored value of the
    key [aow_max_diff], and the [loadLevel] calls that await their
    level ([pending]): the part of [loadLevel] before the [await] is
    [loadLevel_start], the part after it is [loadLevel_finish], and any
    other event can run in between.  [app_step] is the event relation of
    the whole component: every button and frame of the screens, every
    preparation-phase handler of [Economy], and the completion of a
    pending load; the events that can change the unlocked difficulty are
    followed by the [localStorage] effect (after the others it does
    nothing).  [prog_inv] is the invariant of the reachable states, and
    [load_installs_valid_roster] composes the generator, the stat model
    and the placement invariant. *)

From S2P Require Import Prelude Types Constants Stats Session Placement Economy LevelGen Combat.
From stdpp Require Import relations pretty.
Local Open Scope Z_scope.

(** ** Difficulties and their saved form *)

(** [getDifficultyRank] *)
Definition getDifficultyRank (d : Difficulty) : Z :=
  match d with NORMAL => 0 | HARD => 1 | HELL => 2 end.

(** The string values of [enum Difficulty], written by
    [localStorage.setItem('aow_max_diff', maxUnlockedDifficulty)]. *)
Definition difficultyToString (d : Difficulty) : string :=
  match d with NORMAL => "NORMAL" | HARD => "HARD" | HELL => "HELL" end.

(** The initializer of [maxUnlockedDifficulty]: the saved value when it
    is HARD or HELL, NORMAL otherwise (also when the key is absent). *)
Definition parseSavedDifficulty (saved : option string) : Difficulty :=
  match saved with
  | Some v => if bool_decide (v = "HARD") then HARD else if bool_decide (v = "HELL") then HELL else NORMAL
  | None => NORMAL
  end.

(** ** The component state around the session *)

(** A [loadLevel(lvl, diff)] call suspended at [await generateLevel]:
    the player units it computed before the [await], and its arguments. *)
Record PendingLoad := mkPendingLoad {
  pl_units : list Entity;
  pl_level : Z;
  pl_diff : Difficulty
}.

Record App := mkApp {
  st : GameState;
  loadingLevel : bool;
  justUnlockedDifficulty : option Difficulty;
  storage : option string;
  pending : list PendingLoad
}.

Definition set_st (a : App) (s : GameState) : App :=
  mkApp s (loadingLevel a) (justUnlockedDifficulty a) (storage a) (pending a).
Definition set_loadingLevel (a : App) (b : bool) : App :=
  mkApp (st a) b (justUnlockedDifficulty a) (storage a) (pending a).
Definition set_justUnlocked (a : App) (d : option Difficulty) : App :=
  mkApp (st a) (loadingLevel a) d (storage a) (pending a).
Definition set_storage (a : App) (v : option string) : App :=
  mkApp (st a) (loadingLevel a) (justUnlockedDifficulty a) v (pending a).
Definition set_pending (a : App) (p : list PendingLoad) : App :=
  mkApp (st a) (loadingLevel a) (justUnlockedDifficulty a) (storage a) p.

(** The first render: the saved key read by the initializer, and the
    effect of lines 155-157 writing it back on mount. *)
Definition initApp (saved : option string) (now : Q) : App :=
  let d := parseSavedDifficulty saved in
  mkApp (initialGameState d now) false None (Some (difficultyToString d)) [].

(** The effect [localStorage.setItem('aow_max_diff', maxUnlockedDifficulty)]
    with dependency [[maxUnlockedDifficulty]]: it runs after an event
    that changed the value. *)
Definition persistEffect (before after : App) : App :=
  if decide (maxUnlockedDifficulty (st after) = maxUnlockedDifficulty (st before)) then after
  else set_storage after (Some (difficultyToString (maxUnlockedDifficulty (st after)))).

(** ** Loading a level *)

(** [{ ...e, x: e.gridX, y: e.gridY, hp: stats.hp, maxHp: stats.hp,
    targetId: null, state: 'IDLE', facingRight: true }] *)
Definition prepareUnit (s : GameState) (e : Entity) : Entity :=
  let h := hp_stat (getUnitStats (type e) (level e) (getPlayerTechLevel s (type e)) (artifactLevels s)) in
  mkEntity (id e) (type e) (side e) (level e) (gridX e) (gridY e) (inject_Z (gridX e)) (inject_Z (gridY e))
    h h (lastAttackTime e) None IDLE true.

(** [loadLevel(lvl, diff)] up to the [await]: the loading flag, the
    selection cleared, and the player units refreshed with the current
    tech and artifacts, kept for the second half. *)
Definition loadLevel_start (a : App) (lvl : Z) (d : Difficulty) : App :=
  let s := set_selectedUnit (st a) None in
  let playerUnits := prepareUnit s <$> filter (fun e => side e = PLAYER) (entities s) in
  set_pending (set_loadingLevel (set_st a s) true) (pending a ++ [mkPendingLoad playerUnits lvl d]).

(** [Math.max(1, Math.ceil(lvl / 10 * diffSetting.enemyMult))] *)
Definition enemyTechLevel (lvl : Z) (d : Difficulty) : Z :=
  Z.max 1 (Qceiling (inject_Z lvl / 10 * enemyMult (DIFFICULTY_SETTINGS d))).

(** [config.enemies.map(e => createEntity(...))], the [i]-th enemy with
    the random id [ids i]. *)
Definition enemyUnits (lvl : Z) (d : Difficulty) (cfg : LevelConfig) (ids : nat -> string) : list Entity :=
  imap (fun i e => createEntity (ids i) (es_type e) (es_level e) ENEMY (es_gridX e) (es_gridY e)
                     (enemyTechLevel lvl d) noArtifacts) (enemies cfg).

(** [loadLevel] after the [await] of the [i]-th pending call: on success
    ([Some cfg]) the player units and the enemies are installed and the
    phase becomes PREPARATION; on a rejection ([None]) the [catch] only
    logs; the [finally] clears the loading flag in both cases. *)
Definition loadLevel_finish (a : App) (i : nat) (res : option LevelConfig) (ids : nat -> string) : App :=
  match pending a !! i with
  | None => a
  | Some pl =>
      let a := set_pending a (delete i (pending a)) in
      let a := match res with
               | Some cfg =>
                   let nextEntities := pl_units pl ++ enemyUnits (pl_level pl) (pl_diff pl) cfg ids in
                   set_st a (set_phase (set_entities (st a) nextEntities) PREPARATION)
               | None => a
               end in
      set_loadingLevel a false
  end.

(** ** Runs *)

(** [resetRunData()]: [cancelAnimationFrame] stops the battle loop (the
    frames of [app_step] run only in the BATTLE phase); the run's
    counters, research, artifacts and roster go back to their initial
    values. *)
Definition resetRunData (s : GameState) : GameState :=
  let s := set_gameLevel s 1 in
  let s := set_coins s 2000 in
  let s := set_recruitCost s RECRUIT_COST in
  let s := set_unitCosts s initialUnitCosts in
  let s := set_gameStats s (mkGameStats 0 0 0 0) in
  let s := set_globalTech s (fun _ => 1) in
  let s := set_techLevels s (fun _ => 1) in
  let s := set_artifactLevels s noArtifacts in
  let s := set_artifactCost s ARTIFACT_COST_BASE in
  set_entities s [].

(** [startGame(diff)]; [loadLevel] reads [entitiesRef.current], which
    [resetRunData] has just emptied. *)
Definition startGame (a : App) (d : Difficulty) : App :=
  let s := resetRunData (set_difficulty (st a) d) in
  loadLevel_start (set_st a s) 1 d.

(** [nextLevel()] *)
Definition nextLevel (a : App) : App :=
  let s := st a in
  let d := difficulty s in
  if (maxLevel (DIFFICULTY_SETTINGS d) <=? gameLevel s) then
    let a :=
      if bool_decide (d = NORMAL) && (getDifficultyRank (maxUnlockedDifficulty s) <? getDifficultyRank HARD) then
        set_justUnlocked (set_st a (set_maxUnlockedDifficulty s HARD)) (Some HARD)
      else if bool_decide (d = HARD) && (getDifficultyRank (maxUnlockedDifficulty s) <? getDifficultyRank HELL) then
        set_justUnlocked (set_st a (set_maxUnlockedDifficulty s HELL)) (Some HELL)
      else set_justUnlocked a None in
    set_st a (set_phase (st a) GAME_CLEAR)
  else
    loadLevel_start (set_st a (set_gameLevel s (gameLevel s + 1))) (gameLevel s + 1) d.

(** [retryLevel()] *)
Definition retryLevel (a : App) : App :=
  loadLevel_start a (gameLevel (st a)) (difficulty (st a)).

(** [handleModeReset()] after [window.confirm] (the answer [ok]): the
    run is reset, the phase set to PREPARATION, and the [setTimeout(..., 0)]
    callback calls [loadLevel(1, difficulty)]. *)
Definition handleModeReset (a : App) (ok : bool) : App :=
  if negb ok then a else
  let s := set_phase (resetRunData (st a)) PREPARATION in
  loadLevel_start (set_st a s) 1 (difficulty s).

(** [handleFullReset()] after [window.confirm]. *)
Definition handleFullReset (a : App) (ok : bool) : App :=
  if negb ok then a else
  let a := set_storage a None in
  let s := set_maxUnlockedDifficulty (st a) NORMAL in
  let s := set_claimedAchievements s [] in
  let s := resetRunData s in
  set_st a (set_phase s DIFFICULTY_SELECT).

(** ** The events of the component *)

(** The screens on which the help modal (with its two reset buttons) can
    be opened: every phase but the difficulty screen and the game-clear
    screen, which are rendered by early returns. *)
Definition main_screen (p : GamePhase) : Prop := p <> DIFFICULTY_SELECT /\ p <> GAME_CLEAR.

(** The player part of a roster as placement and battle leave it: unique
    ids and cells, levels at least 1, every unit on the player half.
    Battle frames change positions, hit points and states, not these. *)
Definition player_roster_ok (l : list Entity) : Prop :=
  let ps := filter (fun e => side e = PLAYER) l in
  NoDup (id <$> ps) /\ NoDup (cell <$> ps) /\ forall e, e ∈ ps -> 1 <= level e /\ in_player_half e.

(** ** Fixtures *)

(** A first visit with HARD saved, and its state in the preparation
    phase. *)
Definition app_hard : App := initApp (Some "HARD") 0.
Definition app_hard_prep : App := set_st app_hard (set_phase (st app_hard) PREPARATION).

(** The last level of NORMAL won, with only NORMAL unlocked. *)
Definition app_cleared : App :=
  let a := initApp None 0 in set_st a (set_phase (set_gameLevel (st a) 30) VICTORY).

(** Level 1 of NORMAL won by a single archer. *)
Definition app_won : App :=
  let a := initApp None 0 in set_st a (set_phase (set_entities (st a) [archer1]) VICTORY).

(** Random ids for the enemies: ["e0"], ["e1"], ... *)
Definition enemy_ids (i : nat) : string := "e" +:+ pretty i.

(** The load that [nextLevel] starts from [app_won]. *)
Definition pl_won : PendingLoad :=
  mkPendingLoad (prepareUnit (set_selectedUnit (set_gameLevel (st app_won) 2) None) <$>
                   filter (fun e => side e = PLAYER) [archer1]) 2 NORMAL.

Section Events.
Context `{MathSqrt}.

(** One event of the component, with the [localStorage] effect after
    the events that can change the unlocked difficulty. *)
Inductive app_step : App -> App -> Prop :=
  | ev_select a d :
      phase (st a) = DIFFICULTY_SELECT ->
      getDifficultyRank d <= getDifficultyRank (maxUnlockedDifficulty (st a)) ->
      app_step a (persistEffect a (startGame a d))
  | ev_fight a now :
      phase (st a) = PREPARATION -> app_step a (set_st a (startBattle (st a) now))
  | ev_frame a ts :
      phase (st a) = BATTLE -> app_step a (set_st a (fst (battleTick (st a) ts)))
  | ev_prep a s' :
      phase (st a) = PREPARATION -> prep_step (st a) s' -> app_step a (set_st a s')
  | ev_next a :
      phase (st a) = VICTORY -> app_step a (persistEffect a (nextLevel a))
  | ev_retry a :
      phase (st a) = DEFEAT -> app_step a (retryLevel a)
  | ev_title a :
      phase (st a) = GAME_CLEAR -> app_step a (set_st a (set_phase (st a) DIFFICULTY_SELECT))
  | ev_loaded a i pl rng n ids :
      pending a !! i = Some pl -> (forall m, (0 <= rng m < 1)%Q) ->
      app_step a (loadLevel_finish a i (Some (fst (generateLevel (pl_level pl) (pl_diff pl) rng n))) ids)
  | ev_mode_reset a ok :
      main_screen (phase (st a)) -> app_step a (handleModeReset a ok)
  | ev_full_reset a ok :
      main_screen (phase (st a)) -> app_step a (persistEffect a (handleFullReset a ok)).

End Events.

(** ** Frame lemmas: what the other components leave alone *)

(** The fields of a run that only this component writes. *)
Definition run_fields (s : GameState) : Difficulty * Z * Difficulty :=
  (difficulty s, gameLevel s, maxUnlockedDifficulty s).

Ltac run_frame := repeat case_match; reflexivity.

Section Frames.
Context `{MathSqrt}.

Lemma finishDrag_run_fields s d sx sy cx cy tp :
  run_fields (finishDrag s d sx sy cx cy tp) = run_fields s /\ phase (finishDrag s d sx sy cx cy tp) = phase s.
Proof.
  destruct (finishDrag_shape s d sx sy cx cy tp) as [-> | [(u & -> & _) | (mid & gx & gy & _ & _ & _ & ->)]];
    [done | done |]. cbv zeta. by destruct (snd _).
Qed.

Lemma prep_step_run_fields s s' : prep_step s s' -> run_fields s' = run_fields s /\ phase s' = phase s.
Proof.
  intros Hst. destruct Hst.
  - unfold handleBuyUnit, run_fields. split; run_frame.
  - unfold handleSynthesize, run_fields. split; run_frame.
  - unfold applyTechUpgrade, run_fields. split; run_frame.
  - unfold applyGlobalUpgrade, run_fields. split; run_frame.
  - unfold handleBuyArtifact, run_fields. split; run_frame.
  - unfold handleSellUnit, run_fields. split; run_frame.
  - unfold claimAchievement, run_fields. split; run_frame.
  - unfold claimSupply, run_fields. split; run_frame.
  - unfold supplyTimerTick, run_fields. split; run_frame.
  - destruct (handleMouseDown s e) as [s1 d] eqn:E.
    assert (run_fields s1 = run_fields s /\ phase s1 = phase s) as [<- <-]
      by (unfold handleMouseDown in E; repeat case_decide; simplify_eq; done).
    apply finishDrag_run_fields.
Qed.

Lemma battleTick_run_fields s ts : run_fields (fst (battleTick s ts)) = run_fields s.
Proof. unfold battleTick, run_fields. run_frame. Qed.

End Frames.

(** ** The invariant of the component *)

(** What every reachable state satisfies: reading the stored key back
    gives the unlocked difficulty, and the level lies within the levels
    of the difficulty being played. *)
Record prog_inv (a : App) : Prop := {
  pgi_stored : parseSavedDifficulty (storage a) = maxUnlockedDifficulty (st a);
  pgi_level : 1 <= gameLevel (st a) <= maxLevel (DIFFICULTY_SETTINGS (difficulty (st a)))
}.

Section Invariant.
Context `{MathSqrt}.

Lemma parse_difficultyToString d : parseSavedDifficulty (Some (difficultyToString d)) = d.
Proof. by destruct d. Qed.

Lemma persistEffect_st b a : st (persistEffect b a) = st a.
Proof. unfold persistEffect. by case_decide. Qed.

Lemma persistEffect_stored b a :
  (maxUnlockedDifficulty (st a) = maxUnlockedDifficulty (st b) ->
   parseSavedDifficulty (storage a) = maxUnlockedDifficulty (st a)) ->
  parseSavedDifficulty (storage (persistEffect b a)) = maxUnlockedDifficulty (st (persistEffect b a)).
Proof. intros Hs. unfold persistEffect. case_decide; [by apply Hs | apply parse_difficultyToString]. Qed.

Lemma prog_inv_frame a a' :
  prog_inv a -> run_fields (st a') = run_fields (st a) -> storage a' = storage a -> prog_inv a'.
Proof. intros [Hs Hl] Hr Hst. injection Hr as Hd Hg Hm. split; [by rewrite Hst, Hm | by rewrite Hd, Hg]. Qed.

Lemma loadLevel_start_frame a l d :
  run_fields (st (loadLevel_start a l d)) = run_fields (st a) /\ storage (loadLevel_start a l d) = storage a.
Proof. done. Qed.

Lemma loadLevel_finish_frame a i r ids :
  run_fields (st (loadLevel_finish a i r ids)) = run_fields (st a) /\ storage (loadLevel_finish a i r ids) = storage a.
Proof. unfold loadLevel_finish. by repeat case_match. Qed.

Lemma maxLevel_ge1 d : 1 <= maxLevel (DIFFICULTY_SETTINGS d).
Proof. destruct d; cbn; lia. Qed.

Lemma app_step_prog_inv a a' : prog_inv a -> app_step a a' -> prog_inv a'.
Proof.
  intros Hinv Hst. pose proof Hinv as [Hs Hl]. destruct Hst as [a d | a now | a ts | a s' _ Hp | a | a | a
    | a i pl rng n ids | a ok | a ok].
  - split; [apply persistEffect_stored; intros _; exact Hs|].
    rewrite persistEffect_st. cbn. pose proof (maxLevel_ge1 d). lia.
  - by apply (prog_inv_frame a).
  - apply (prog_inv_frame a); [done | apply battleTick_run_fields | done].
  - apply (prog_inv_frame a); [done | apply (prep_step_run_fields _ _ Hp) | done].
  - split; [apply persistEffect_stored | rewrite persistEffect_st]; unfold nextLevel.
    + destruct (_ <=? _); [|intros _; exact Hs]. intros Hm. repeat case_match; simplify_eq/=; rewrite Hs; congruence.
    + destruct (_ <=? _) eqn:Hmax; [by repeat case_match|].
      apply Z.leb_gt in Hmax. cbn. lia.
  - apply (prog_inv_frame a); [done | apply loadLevel_start_frame | apply loadLevel_start_frame].
  - by apply (prog_inv_frame a).
  - apply (prog_inv_frame a); [done | apply loadLevel_finish_frame | apply loadLevel_finish_frame].
  - unfold handleModeReset. destruct ok; [|done]. split; [exact Hs|]. cbn.
    pose proof (maxLevel_ge1 (difficulty (st a))). lia.
  - unfold handleFullReset. destruct ok; cbn [negb].
    + split; [apply persistEffect_stored; by intros _ | rewrite persistEffect_st; cbn].
      pose proof (maxLevel_ge1 (difficulty (st a))). lia.
    + split; [apply persistEffect_stored; by intros _ | by rewrite persistEffect_st].
Qed.

Lemma initApp_prog_inv saved now : prog_inv (initApp saved now).
Proof. split; [apply parse_difficultyToString | cbn; lia]. Qed.

Lemma prog_reachable saved now a : rtc app_step (initApp saved now) a -> prog_inv a.
Proof.
  intros Hr. remember (initApp saved now) as a0 eqn:E. pose proof (initApp_prog_inv saved now) as Hi.
  rewrite <- E in Hi. clear E. induction Hr as [|x y z Hxy _ IH]; [done|]. by apply IH, (app_step_prog_inv x).
Qed.

End Invariant.

(** ** Properties *)

Section Properties.
Context `{MathSqrt}.

Lemma app_step_unlock a a' :
  app_step a a' ->
  getDifficultyRank (maxUnlockedDifficulty (st a)) <= getDifficultyRank (maxUnlockedDifficulty (st a')) \/
  a' = persistEffect a (handleFullReset a true).
Proof.
  intros Hst. destruct Hst as [a d | a now | a ts | a s' _ Hp | a | a | a | a i pl rng n ids | a ok | a ok].
  - left. rewrite persistEffect_st. cbn. lia.
  - left. cbn. lia.
  - left. cbn. pose proof (battleTick_run_fields (st a) ts) as E. injection E as _ _ ->. lia.
  - left. cbn. destruct (prep_step_run_fields _ _ Hp) as [E _]. injection E as _ _ ->. lia.
  - left. rewrite persistEffect_st. unfold nextLevel.
    destruct (_ <=? _); [|cbn; lia]. repeat case_match; cbn; simplify_eq/=; lia.
  - left. cbn. lia.
  - left. cbn. lia.
  - left. destruct (loadLevel_finish_frame a i (Some (fst (generateLevel (pl_level pl) (pl_diff pl) rng n))) ids)
      as [E _]. injection E as _ _ ->. lia.
  - left. unfold handleModeReset. destruct ok; cbn; lia.
  - destruct ok; [by right|]. left. rewrite persistEffect_st. cbn. lia.
Qed.

(** C14: reloading the page restores the progress: in every state the
    component can reach from its first render, whatever the saved value
    was, the value stored under [aow_max_diff] reads back as the
    unlocked difficulty. *)
Theorem reload_restores_unlocked saved now a :
  rtc app_step (initApp saved now) a -> parseSavedDifficulty (storage a) = maxUnlockedDifficulty (st a).
Proof. intros Hr. by destruct (prog_reachable saved now a Hr). Qed.

(** C8: in every reachable state the level is between 1 and the last
    level of the difficulty being played. *)
Theorem run_level_bounds saved now a :
  rtc app_step (initApp saved now) a -> 1 <= gameLevel (st a) <= maxLevel (DIFFICULTY_SETTINGS (difficulty (st a))).
Proof. intros Hr. by destruct (prog_reachable saved now a Hr). Qed.

(** C16: no event lowers the unlocked difficulty, except a confirmed full
    reset. *)
Theorem unlock_lowered_only_by_full_reset a a' :
  app_step a a' ->
  getDifficultyRank (maxUnlockedDifficulty (st a')) < getDifficultyRank (maxUnlockedDifficulty (st a)) ->
  a' = persistEffect a (handleFullReset a true).
Proof. intros Hst Hlt. destruct (app_step_unlock a a' Hst) as [Hle | ->]; [lia | done]. Qed.

(** C15: [nextLevel] below the last level raises the level by one and
    starts loading it, with the player units refreshed; on the last level
    it clears the game, raises the unlocked difficulty to the next one
    (NORMAL to HARD, HARD to HELL, never lowering it) and shows the
    banner exactly when it raised it. *)
Theorem nextLevel_spec a :
  let s := st a in let d := difficulty s in let a' := nextLevel a in
  (gameLevel s < maxLevel (DIFFICULTY_SETTINGS d) ->
     gameLevel (st a') = gameLevel s + 1 /\ phase (st a') = phase s /\ loadingLevel a' = true /\
     pending a' = pending a ++ [mkPendingLoad (prepareUnit (set_selectedUnit s None) <$>
                                 filter (fun e => side e = PLAYER) (entities s)) (gameLevel s + 1) d]) /\
  (maxLevel (DIFFICULTY_SETTINGS d) <= gameLevel s ->
     phase (st a') = GAME_CLEAR /\ entities (st a') = entities s /\ gameLevel (st a') = gameLevel s /\
     getDifficultyRank (maxUnlockedDifficulty (st a')) =
       (if decide (d = HELL) then getDifficultyRank (maxUnlockedDifficulty s)
        else Z.max (getDifficultyRank (maxUnlockedDifficulty s)) (getDifficultyRank d + 1)) /\
     justUnlockedDifficulty a' =
       (if decide (maxUnlockedDifficulty (st a') = maxUnlockedDifficulty s) then None
        else Some (maxUnlockedDifficulty (st a')))).
Proof.
  cbv zeta. unfold nextLevel. split; intros Hl.
  - rewrite (proj2 (Z.leb_gt _ _) Hl). done.
  - rewrite (proj2 (Z.leb_le _ _) Hl).
    destruct (difficulty (st a)) eqn:Hd, (maxUnlockedDifficulty (st a)) eqn:Hm; cbn; rewrite ?Hd, ?Hm;
      repeat (case_bool_decide; try congruence); cbn; rewrite ?Hm; split_and!; done.
Qed.

End Properties.

(** ** A completed load *)

Section Load.
Context (s : GameState) (Hs : session_ok s).

Lemma load_finish_state a lvl d cfg ids :
  let a' := loadLevel_finish (loadLevel_start a lvl d) (length (pending a)) (Some cfg) ids in
  let s0 := set_selectedUnit (st a) None in
  st a' = set_phase (set_entities s0 ((prepareUnit s0 <$> filter (fun e => side e = PLAYER) (entities s0)) ++
                                       enemyUnits lvl d cfg ids)) PREPARATION /\
  loadingLevel a' = false /\ pending a' = pending a.
Proof.
  unfold loadLevel_finish, loadLevel_start. cbn [pending set_pending set_loadingLevel set_st].
  rewrite list_lookup_middle by done. cbn. split_and!; [done | done |]. rewrite (delete_middle _ []). apply app_nil_r.
Qed.

Lemma prepareUnit_fields e :
  id (prepareUnit s e) = id e /\ cell (prepareUnit s e) = cell e /\ side (prepareUnit s e) = side e /\
  level (prepareUnit s e) = level e /\ type (prepareUnit s e) = type e.
Proof. done. Qed.

Lemma enemyTechLevel_ge1 lvl d : 1 <= enemyTechLevel lvl d.
Proof. unfold enemyTechLevel. lia. Qed.

Lemma enemyLevelOf_ge1 lvl d : 0 <= lvl -> 1 <= enemyLevelOf lvl d.
Proof. intros Hl. destruct d; cbn; Z.div_mod_to_equations; lia. Qed.

(** The enemies of a level: ids from [ids], cells and levels from the
    generator's specs. *)
Lemma enemyUnits_elem lvl d cfg ids x :
  x ∈ enemyUnits lvl d cfg ids ->
  exists i e, enemies cfg !! i = Some e /\ x = createEntity (ids i) (es_type e) (es_level e) ENEMY
                (es_gridX e) (es_gridY e) (enemyTechLevel lvl d) noArtifacts.
Proof. unfold enemyUnits. intros (i & e & -> & He)%elem_of_lookup_imap. eauto. Qed.

Lemma enemyUnits_ids_NoDup lvl d cfg ids :
  (forall i j, ids i = ids j -> i = j) -> NoDup (id <$> enemyUnits lvl d cfg ids).
Proof.
  intros Hinj. unfold enemyUnits. rewrite fmap_imap. apply NoDup_alt. intros i j x Hi Hj.
  rewrite list_lookup_imap in Hi, Hj.
  destruct (enemies cfg !! i), (enemies cfg !! j); simplify_eq/=. by apply Hinj.
Qed.

Lemma enemyUnits_cells lvl d cfg ids : cell <$> enemyUnits lvl d cfg ids = es_cell <$> enemies cfg.
Proof. unfold enemyUnits. rewrite fmap_imap, <- imap_const. by apply imap_ext. Qed.

Lemma prep_inv_app l1 l2 :
  prep_inv l1 -> prep_inv l2 ->
  (forall x y, x ∈ l1 -> y ∈ l2 -> id x <> id y /\ cell x <> cell y) -> prep_inv (l1 ++ l2).
Proof.
  intros [Hi1 Hc1 Hu1] [Hi2 Hc2 Hu2] Hd. split.
  - rewrite fmap_app, list.NoDup_app. split_and!; [done | | done].
    intros k (x & -> & Hx)%list_elem_of_fmap (y & Hy & Hy')%list_elem_of_fmap.
    destruct (Hd x y Hx Hy'); congruence.
  - rewrite fmap_app, list.NoDup_app. split_and!; [done | | done].
    intros k (x & -> & Hx)%list_elem_of_fmap (y & Hy & Hy')%list_elem_of_fmap.
    destruct (Hd x y Hx Hy'); congruence.
  - intros e [He|He]%elem_of_app; auto.
Qed.

(** The player units of [loadLevel]: the roster's player units, alive
    again with the hit points of their level, tech and artifacts. *)
Lemma prepared_players_inv l :
  player_roster_ok l -> prep_inv (prepareUnit s <$> filter (fun e => side e = PLAYER) l).
Proof.
  intros (Hids & Hcells & Hok). split.
  - rewrite <- list_fmap_compose. erewrite list_fmap_ext; [exact Hids | done].
  - rewrite <- list_fmap_compose. erewrite list_fmap_ext; [exact Hcells | done].
  - intros e' (e & -> & He)%list_elem_of_fmap. pose proof He as [Hside _]%list_elem_of_filter.
    destruct (Hok e He) as [Hl Hh]. unfold unit_ok, on_own_half. cbn [prepareUnit hp level side].
    rewrite Hside. split_and!; [apply hp_stat_pos; [done | done | by apply getPlayerTechLevel_ge1] | done | done].
Qed.

(** The enemies of a generated level, with distinct fresh ids. *)
Lemma enemies_inv lvl d cfg ids :
  0 <= lvl -> (forall i j, ids i = ids j -> i = j) ->
  NoDup (es_cell <$> enemies cfg) -> (forall e, e ∈ enemies cfg -> enemy_ok lvl d e) ->
  prep_inv (enemyUnits lvl d cfg ids).
Proof.
  intros Hl Hinj Hnd Hok. split; [by apply enemyUnits_ids_NoDup | by rewrite enemyUnits_cells |].
  intros x (i & e & Hi & ->)%enemyUnits_elem. apply list_elem_of_lookup_2 in Hi.
  destruct (Hok e Hi) as (_ & Hlv & _ & Hx & Hy). unfold unit_ok, on_own_half, in_enemy_half.
  cbn [createEntity hp level side gridX gridY]. rewrite Hlv.
  split_and!; [| apply enemyLevelOf_ge1; lia | lia..].
  enough (80 <= hp_stat (getUnitStats (es_type e) (enemyLevelOf lvl d) (enemyTechLevel lvl d) noArtifacts)) by lia.
  apply hp_stat_ge80; [by apply enemyLevelOf_ge1 | apply enemyTechLevel_ge1 | done].
Qed.

Lemma playerCount_players l : playerCount (filter (fun e => side e = PLAYER) l) = playerCount l.
Proof. unfold playerCount. by rewrite list_filter_filter_l. Qed.

Lemma playerCount_enemyUnits lvl d cfg ids : playerCount (enemyUnits lvl d cfg ids) = 0.
Proof.
  unfold playerCount. rewrite list_filter_none; [done|].
  intros x (i & e & _ & ->)%enemyUnits_elem. done.
Qed.

End Load.

(** C5: a completed load installs a valid preparation roster.  From any
    roster whose player units have unique ids and cells on the player
    half with levels of at least 1 (as placement and battle leave them),
    a [loadLevel] call that completes with the generated level and fresh
    distinct enemy ids enters the preparation phase with a roster that
    satisfies the preparation invariant: unique ids, distinct cells,
    every unit alive with level at least 1 on its own half, every player
    unit at the full hit points of its level, tech and artifacts, and the
    same number of player units as before. *)
Theorem load_installs_valid_roster a lvl d rng n ids :
  session_ok (st a) -> player_roster_ok (entities (st a)) -> (forall m, (0 <= rng m < 1)%Q) -> 0 <= lvl ->
  (forall i j, ids i = ids j -> i = j) -> (forall i e, e ∈ entities (st a) -> ids i <> id e) ->
  let a' := loadLevel_finish (loadLevel_start a lvl d) (length (pending a))
              (Some (fst (generateLevel lvl d rng n))) ids in
  phase (st a') = PREPARATION /\ loadingLevel a' = false /\ prep_inv (entities (st a')) /\
  (forall e, e ∈ entities (st a') -> stats_fresh (st a') e) /\
  playerCount (entities (st a')) = playerCount (entities (st a)).
Proof.
  intros Hs Hro Hrng Hl Hinj Hfresh. cbv zeta.
  destruct (load_finish_state a lvl d (fst (generateLevel lvl d rng n)) ids) as (-> & -> & _).
  set (cfg := fst (generateLevel lvl d rng n)).
  assert (Hcfg : NoDup (es_cell <$> enemies cfg) /\ forall e, e ∈ enemies cfg -> enemy_ok lvl d e).
  { pose proof (spawnLoop_init rng Hrng lvl d (Z.to_nat (enemyCount lvl d)) n) as Hsp.
    unfold cfg. rewrite generateLevel_eq. destruct (spawnLoop _ _ _ _ _ rng n) as [es n']. cbn. tauto. }
  destruct Hcfg as [Hnd Hok]. cbn [phase entities set_phase set_entities].
  split_and!; [done | done | | |].
  - apply prep_inv_app; [by apply (prepared_players_inv (set_selectedUnit (st a) None)) | by apply enemies_inv |].
    intros x y (e & -> & He)%list_elem_of_fmap (i & e' & Hi & ->)%enemyUnits_elem.
    pose proof He as [_ He0]%list_elem_of_filter. destruct Hro as (_ & _ & Hh).
    destruct (Hh e He) as [_ [Hy _]]. apply list_elem_of_lookup_2 in Hi. destruct (Hok e' Hi) as (_ & _ & _ & _ & Hy').
    split; cbn; [intros Heq; by apply (Hfresh i e) | intros [= _ ?]; lia].
  - intros e [(e0 & -> & _)%list_elem_of_fmap | (i & e' & _ & ->)%enemyUnits_elem]%elem_of_app Hside;
      [split; reflexivity | discriminate].
  - rewrite playerCount_app, playerCount_enemyUnits, playerCount_fmap by done.
    rewrite playerCount_players, Z.add_0_r. reflexivity.
Qed.

(** ** Progress, rejection and the pending-load race *)

Section Progress.
Context `{MathSqrt}.

(** C17: a won level below the last one always leads to the next level:
    the "next level" button and the completion of its load reach the
    preparation phase of level [L + 1], with the loading flag cleared. *)
Theorem victory_leads_to_next_level a :
  phase (st a) = VICTORY -> gameLevel (st a) < maxLevel (DIFFICULTY_SETTINGS (difficulty (st a))) ->
  exists a', rtc app_step a a' /\ phase (st a') = PREPARATION /\
    gameLevel (st a') = gameLevel (st a) + 1 /\ loadingLevel a' = false /\ pending a' = pending a.
Proof.
  intros Hph Hlt. set (L := gameLevel (st a)). set (d := difficulty (st a)).
  set (a0 := set_st a (set_gameLevel (st a) (L + 1))).
  assert (Hn : nextLevel a = loadLevel_start a0 (L + 1) d).
  { unfold nextLevel. by rewrite (proj2 (Z.leb_gt _ _) Hlt). }
  assert (Hp : persistEffect a (nextLevel a) = nextLevel a).
  { unfold persistEffect. by rewrite decide_True by (rewrite Hn; reflexivity). }
  set (cfg := fst (generateLevel (L + 1) d (fun _ => 0%Q) 0%nat)).
  destruct (load_finish_state a0 (L + 1) d cfg (fun _ => "")) as (Hst & Hld & Hpd).
  eexists. split; [|split_and!; [by rewrite Hst | by rewrite Hst | exact Hld | exact Hpd]].
  eapply rtc_l; [by apply ev_next|]. rewrite Hp, Hn. apply rtc_once.
  refine (ev_loaded _ (length (pending a0)) (mkPendingLoad _ (L + 1) d) (fun _ => 0%Q) 0%nat _ _ _).
  - apply list_lookup_middle. done.
  - intros _. split; [apply Qle_refl | reflexivity].
Qed.

(** A rejected [generateLevel] (the [catch] branch) installs nothing:
    the session is unchanged, the call leaves the pending list and the
    [finally] clears the loading flag. *)
Theorem loadLevel_rejected a i pl ids :
  pending a !! i = Some pl ->
  st (loadLevel_finish a i None ids) = st a /\ loadingLevel (loadLevel_finish a i None ids) = false /\
  pending (loadLevel_finish a i None ids) = delete i (pending a).
Proof. intros Hi. unfold loadLevel_finish. by rewrite Hi. Qed.

End Progress.

(** C30: nothing cancels a pending load.  A level won, the "next level"
    button pressed, then a confirmed full reset before the level arrives:
    the reset returns to the difficulty screen with an empty roster, and
    the load that completes afterwards puts the game back in the
    preparation phase, at level 1, with the previous run's archer. *)
Example pending_load_survives_full_reset :
  let a1 := persistEffect app_won (nextLevel app_won) in
  let a2 := persistEffect a1 (handleFullReset a1 true) in
  let a3 := loadLevel_finish a2 0%nat (Some (fst (generateLevel 2 NORMAL rng_demo 0%nat))) enemy_ids in
  rtc app_step app_won a3 /\
  phase (st a2) = DIFFICULTY_SELECT /\ entities (st a2) = [] /\
  phase (st a3) = PREPARATION /\ gameLevel (st a3) = 1 /\
  length (filter (fun e => side e = PLAYER) (entities (st a3))) = 1%nat.
Proof.
  cbv zeta. split; [|vm_compute; split_and!; reflexivity].
  eapply rtc_l; [apply ev_next; reflexivity|].
  eapply rtc_l; [apply ev_full_reset; vm_compute; split; discriminate|].
  apply rtc_once. apply (ev_loaded _ 0 pl_won); [vm_compute; reflexivity | apply rng_demo_range].
Qed.

(** ** Witnesses *)

Section Witnesses.

Lemma app_hard_start_reachable :
  rtc app_step (initApp (Some "HARD") 0) (persistEffect app_hard (startGame app_hard HARD)).
Proof. apply rtc_once, ev_select; [reflexivity | vm_compute; discriminate]. Qed.

(** Starting a HARD run after a visit that saved HARD keeps HARD saved. *)
Lemma reload_restores_unlocked_witness :
  parseSavedDifficulty (storage (persistEffect app_hard (startGame app_hard HARD))) = HARD.
Proof.
  etrans; [apply (reload_restores_unlocked (Some "HARD") 0), app_hard_start_reachable|].
  vm_compute. reflexivity.
Defined.

Lemma run_level_bounds_witness :
  1 <= gameLevel (st (persistEffect app_hard (startGame app_hard HARD))) <= 40.
Proof. apply (run_level_bounds (Some "HARD") 0), app_hard_start_reachable. Defined.

(** A full reset from a HARD run lowers the unlocked difficulty to NORMAL. *)
Lemma unlock_lowered_only_by_full_reset_witness :
  persistEffect app_hard_prep (handleFullReset app_hard_prep true) =
  persistEffect app_hard_prep (handleFullReset app_hard_prep true).
Proof.
  apply (unlock_lowered_only_by_full_reset app_hard_prep).
  - apply ev_full_reset. split; discriminate.
  - vm_compute. reflexivity.
Defined.

(** Winning level 30 of NORMAL clears the game. *)
Lemma nextLevel_spec_witness :
  phase (st (nextLevel app_cleared)) = GAME_CLEAR /\ justUnlockedDifficulty (nextLevel app_cleared) = Some HARD.
Proof.
  split; [apply (proj2 (nextLevel_spec app_cleared)); vm_compute; discriminate | vm_compute; reflexivity].
Defined.

Lemma app_won_ok : session_ok (st app_won).
Proof. repeat split; intros; cbn; unfold noArtifacts; lia. Qed.

Lemma enemy_ids_inj i j : enemy_ids i = enemy_ids j -> i = j.
Proof. unfold enemy_ids. intros [= E]. by apply (inj pretty). Qed.

(** The next level of [app_won], loaded with [rng_demo]: a valid roster. *)
Lemma load_installs_valid_roster_witness :
  let a' := loadLevel_finish (loadLevel_start app_won 2 NORMAL) 0
              (Some (fst (generateLevel 2 NORMAL rng_demo 0%nat))) enemy_ids in
  phase (st a') = PREPARATION /\ prep_inv (entities (st a')).
Proof.
  destruct (load_installs_valid_roster app_won 2 NORMAL rng_demo 0%nat enemy_ids) as (Hph & _ & Hp & _);
    [apply app_won_ok | | apply rng_demo_range | lia | apply enemy_ids_inj | |].
  - split_and!; [apply NoDup_singleton | apply NoDup_singleton |].
    intros e [_ ->%list_elem_of_singleton]%list_elem_of_filter.
    split; [cbn; lia | unfold in_player_half; cbn; grid_lia].
  - intros i e ->%list_elem_of_singleton. unfold enemy_ids. cbn. discriminate.
  - split; [exact Hph | exact Hp].
Defined.

Lemma victory_leads_to_next_level_witness :
  exists a', rtc app_step app_won a' /\ phase (st a') = PREPARATION /\ gameLevel (st a') = 2.
Proof.
  destruct (victory_leads_to_next_level app_won) as (a' & Hr & Hph & Hl & _);
    [reflexivity | vm_compute; reflexivity |].
  exists a'. split_and!; [exact Hr | exact Hph | exact Hl].
Defined.

Lemma loadLevel_rejected_witness :
  st (loadLevel_finish (loadLevel_start app_won 2 NORMAL) 0 None enemy_ids) =
  st (loadLevel_start app_won 2 NORMAL).
Proof. apply (loadLevel_rejected _ 0 pl_won). vm_compute. reflexivity. Defined.

End Witnesses.
