(* ===== verification/Panels.v ===== *)
(** * Panels: the buttons of the App render tree (src/App.tsx, lines 1107-1766)

    The shop, artifact, altar, achievement and research modals, the
    unit-info panel and the supply gift of the top bar each render their
    buttons from the session state: a button is rendered or not, carries
    a [disabled] attribute, and shows a coin figure; its [onClick] calls
    a handler of [Economy].  [Button] names them, [rendered],
    [disabledAttr] and [clickable] are the render-time guards,
    [shownPrice] the figure on the button and [onClick] the handler it
    calls, with the handler's draws ([Math.random()], the fresh id,
    [Date.now()]) as arguments.

    The theorems compare the two sides: a clickable button moves the
    coins by exactly the figure it shows, a [disabled] attribute is never
    the only thing that stops a handler, the altar's [canCraft] agrees
    with [handleSynthesize], and the trophy badge of the top bar is lit
    exactly when a reward can be claimed. *)

From S2P Require Import Prelude Types Constants Stats Session Placement Economy LevelGen Combat Progression.
Local Open Scope Z_scope.

#[export] Instance StatKey_eq_dec : EqDecision StatKey.
Proof. solve_decision. Defined.
#[export] Instance Achievement_eq_dec : EqDecision Achievement.
Proof. solve_decision. Defined.
#[export] Instance SynthesisRecipe_eq_dec : EqDecision SynthesisRecipe.
Proof. solve_decision. Defined.

(** ** The rows of the panels *)

(** [gameStats[ach.type]] *)
Definition statOf (g : GameStats) (k : StatKey) : Z :=
  match k with KILLS => kills g | MERGES => merges g | WINS => wins g | SUMMONS => summons g end.

(** The consts of an achievement row (lines 1390-1393). *)
Definition isCompleted (s : GameState) (ach : Achievement) : bool :=
  target ach <=? statOf (gameStats s) (ach_type ach).
Definition isClaimed (s : GameState) (ach : Achievement) : bool :=
  bool_decide (ach_id ach ∈ claimedAchievements s).

(** [hasClaimableAchievements] (lines 124-128): the badge on the level
    counter of the top bar. *)
Definition hasClaimableAchievements (s : GameState) : bool :=
  existsb (fun ach => (target ach <=? statOf (gameStats s) (ach_type ach))
                      && negb (bool_decide (ach_id ach ∈ claimedAchievements s))) ACHIEVEMENTS.

(** The consts of a research row (lines 1531-1533). *)
Definition techCost (s : GameState) (t : UnitType) : Z :=
  TECH_COST_BASE + (techLevels s t - 1) * TECH_COST_INCREASE.
Definition techCanAfford (s : GameState) (t : UnitType) : bool := techCost s t <=? coins s.

(** The consts of an infrastructure row (lines 1466-1470). *)
Definition globalCost (s : GameState) (g : GlobalTechType) : Z :=
  baseCost (GLOBAL_TECH_INFO g) + (globalTech s g - 1) * costInc (GLOBAL_TECH_INFO g).
Definition globalIsMax (s : GameState) (g : GlobalTechType) : bool :=
  techMaxLevel (GLOBAL_TECH_INFO g) <=? globalTech s g.
Definition globalCanAfford (s : GameState) (g : GlobalTechType) : bool :=
  (globalCost s g <=? coins s) && negb (globalIsMax s g).

(** The ingredient checks of an altar row (lines 1316-1322). *)
Definition ingredientOk (r : SynthesisRecipe) (t : UnitType) (e : Entity) : bool :=
  bool_decide (type e = t) && (minLevel r <=? level e) && bool_decide (side e = PLAYER).
Definition hasIng1 (s : GameState) (r : SynthesisRecipe) : bool :=
  existsb (ingredientOk r (ingredient1 r)) (entities s).
Definition hasIng2 (s : GameState) (r : SynthesisRecipe) : bool :=
  if bool_decide (ingredient1 r = ingredient2 r)
  then 2 <=? Z.of_nat (length (filter (fun e => ingredientOk r (ingredient1 r) e = true) (entities s)))
  else existsb (ingredientOk r (ingredient2 r)) (entities s).
Definition canCraft (s : GameState) (r : SynthesisRecipe) : bool :=
  hasIng1 s r && hasIng2 s r && (cost r <=? coins s).

(** The figure of the sell button (line 1727). *)
Definition sellValueShown (s : GameState) (u : Entity) : Z :=
  Qfloor (inject_Z (Qfloor (inject_Z (recruitCost s) * tierCostMult (tier (UNIT_BASE_STATS (type u)))))
          * (2 ^ (level u - 1)) * (2 # 10)).

(** The stats of the unit-info panel (lines 1674-1676): the player's
    tech and artifacts for a player unit, tech 1 and none for an enemy. *)
Definition infoStats (s : GameState) (u : Entity) : UnitStats :=
  let isPlayer := bool_decide (side u = PLAYER) in
  getUnitStats (type u) (level u) (if isPlayer then getPlayerTechLevel s (type u) else 1)
    (if isPlayer then artifactLevels s else noArtifacts).

(** The two stat columns of a research row (lines 1535-1536): a level-1
    unit now and after the upgrade. *)
Definition techPreview (s : GameState) (t : UnitType) : UnitStats * UnitStats :=
  (getUnitStats t 1 (techLevels s t) (artifactLevels s),
   getUnitStats t 1 (techLevels s t + 1) (artifactLevels s)).

(** ** The buttons *)

Inductive Button :=
  | BtnSummon (bt : BuyType)          (* lines 1123-1206 *)
  | BtnArtifact                       (* 1245-1258 *)
  | BtnCraft (r : SynthesisRecipe)    (* 1341-1349 *)
  | BtnClaim (ach : Achievement)      (* 1412-1420 *)
  | BtnGlobal (g : GlobalTechType)    (* 1496-1516 *)
  | BtnTech (t : UnitType)            (* 1551-1561 *)
  | BtnSell                           (* 1716-1730 *)
  | BtnSupply.                        (* 1765-1773 *)

(** Whether the render tree produces the button: the specific summons
    are listed per shop tab, and the tabs leave out MYTHIC (line 1170);
    the recipes and achievements come from their tables; the research
    list filters out MYTHIC (line 1529); the sell button needs a selected
    player unit in the preparation phase (line 1716); the claim button
    replaces the progress bar of a completed, unclaimed row (line 1411). *)
Definition rendered (s : GameState) (b : Button) : bool :=
  match b with
  | BtnSummon (SPECIFIC t) => negb (bool_decide (tier (UNIT_BASE_STATS t) = MYTHIC))
  | BtnCraft r => bool_decide (r ∈ SYNTHESIS_RECIPES)
  | BtnClaim ach => bool_decide (ach ∈ ACHIEVEMENTS) && isCompleted s ach && negb (isClaimed s ach)
  | BtnTech t => negb (bool_decide (tier (UNIT_BASE_STATS t) = MYTHIC))
  | BtnSell =>
      match selectedUnit s with
      | Some u => bool_decide (side u = PLAYER) && bool_decide (phase s = PREPARATION)
      | None => false
      end
  | _ => true
  end.

(** The [disabled] attributes. *)
Definition disabledAttr (s : GameState) (b : Button) : bool :=
  match b with
  | BtnSummon RANDOM => coins s <? recruitCost s
  | BtnSummon PREMIUM => coins s <? recruitCost s * 2
  | BtnSummon (SPECIFIC t) => coins s <? unitCosts s t
  | BtnArtifact => coins s <? artifactCost s
  | BtnCraft r => negb (canCraft s r)
  | BtnGlobal g => negb (globalCanAfford s g)
  | BtnTech t => negb (techCanAfford s t)
  | _ => false
  end.

(** A click reaches the handler: the button is rendered, not disabled,
    and has an [onClick] (the gift's is [undefined] unless
    [canClaimSupply]). *)
Definition clickable (s : GameState) (b : Button) : bool :=
  rendered s b && negb (disabledAttr s b) &&
  match b with BtnSupply => canClaimSupply s | _ => true end.

(** The coin figure the button shows; the infrastructure row at its
    maximum shows MAX, the gift no figure. *)
Definition shownPrice (s : GameState) (b : Button) : option Z :=
  match b with
  | BtnSummon RANDOM => Some (recruitCost s)
  | BtnSummon PREMIUM => Some (recruitCost s * 2)
  | BtnSummon (SPECIFIC t) => Some (unitCosts s t)
  | BtnArtifact => Some (artifactCost s)
  | BtnCraft r => Some (cost r)
  | BtnClaim ach => Some (reward ach)
  | BtnGlobal g => if globalIsMax s g then None else Some (globalCost s g)
  | BtnTech t => Some (techCost s t)
  | BtnSell => (fun u => sellValueShown s u) <$> selectedUnit s
  | BtnSupply => None
  end.

(** The buttons whose figure is paid out rather than charged. *)
Definition isPayout (b : Button) : bool :=
  match b with BtnClaim _ | BtnSell => true | _ => false end.

(** The [onClick] of each button, with the handler's draws of
    [Math.random()] ([rand], [r]), the id of a new unit and [Date.now()]
    as arguments. *)
Definition onClick (s : GameState) (b : Button) (rand r : Q) (newId : string) (now : Q) : GameState :=
  match b with
  | BtnSummon bt => handleBuyUnit s bt rand r newId
  | BtnArtifact => handleBuyArtifact s r
  | BtnCraft rc => handleSynthesize s rc newId
  | BtnClaim ach => claimAchievement s (ach_id ach) (reward ach)
  | BtnGlobal g => applyGlobalUpgrade s g
  | BtnTech t => applyTechUpgrade s t
  | BtnSell => handleSellUnit s
  | BtnSupply => claimSupply s now
  end.

(** The room [handleBuyUnit] checks before the coins: the unit cap and
    a free cell of the player's half. *)
Definition summonRoom (s : GameState) : bool :=
  (playerCount (entities s) <? maxUnitCap s) && bool_decide (availableSpots (entities s) <> []).

(** An enemy infantry of a level-20 NORMAL load, as [loadLevel]
    creates it (tech [enemyTechLevel 20 NORMAL = 2]), in a session at
    level 20. *)
Definition level20_enemy : Entity :=
  createEntity "e0" INFANTRY (enemyLevelOf 20 NORMAL) ENEMY 0 0 (enemyTechLevel 20 NORMAL) noArtifacts.
Definition level20_state : GameState :=
  set_entities (set_gameLevel archers_state 20) (entities archers_state ++ [level20_enemy]).

(** A level-3 infantry and a level-3 tank of the player: the paladin
    recipe's ingredients. *)
Definition altar_state : GameState :=
  set_phase (set_entities (initialGameState NORMAL 0)
    [createEntity "i3" INFANTRY 3 PLAYER 0 7 1 noArtifacts;
     createEntity "t3" TANK 3 PLAYER 1 7 1 noArtifacts]) PREPARATION.

(** The paladin recipe, the first row of the altar. *)
Definition paladin_recipe : SynthesisRecipe := mkRecipe "paladin" PALADIN INFANTRY TANK 3 500.

(** A session with one kill: the reward of [kill_1] can be claimed. *)
Definition first_kill_state : GameState := set_gameStats archers_state (mkGameStats 1 0 0 0).
Definition kill_1 : Achievement := mkAchievement "kill_1" KILLS 1 100.

(** ** The altar against [handleSynthesize] *)

Section Altar.
Variable (s : GameState) (r : SynthesisRecipe) (newId : string).

(** The handler's predicate on the player's units is [ingredientOk]. *)
Lemma ingredient_player t e :
  (e ∈ filter (fun e => side e = PLAYER) (entities s) /\
   (bool_decide (type e = t) && (minLevel r <=? level e)) = true)
  <-> e ∈ entities s /\ ingredientOk r t e = true.
Proof.
  rewrite list_elem_of_filter. unfold ingredientOk.
  rewrite !andb_true_iff, !bool_decide_eq_true. tauto.
Qed.

Lemma ingredient_player_hasId t k e :
  (e ∈ filter (fun e => side e = PLAYER) (entities s) /\
   (bool_decide (type e = t) && (minLevel r <=? level e) && negb (hasId k e)) = true)
  <-> e ∈ entities s /\ ingredientOk r t e = true /\ id e <> k.
Proof.
  pose proof (ingredient_player t e).
  rewrite andb_true_iff, negb_true_iff, <-not_true_iff_false, hasId_true. tauto.
Qed.

(** A disabled altar button: the handler changes nothing. *)
Lemma handleSynthesize_blocked : canCraft s r = false -> handleSynthesize s r newId = s.
Proof.
  unfold canCraft, handleSynthesize. intros Hc.
  destruct (Z.ltb_spec (coins s) (cost r)); [done|].
  destruct (findIndexB _ _) as [[k1 i1]|] eqn:E1; [cbn|done].
  destruct (findIndexB (fun e => _ && _ && negb _) _) as [[k2 i2]|] eqn:E2; [exfalso|done].
  apply findIndexB_member, ingredient_player in E1 as [Hi1 Hok1].
  apply findIndexB_member, ingredient_player_hasId in E2 as (Hi2 & Hok2 & Hne).
  assert (hasIng1 s r = true) as H1 by (apply existsb_elem; eauto).
  assert (hasIng2 s r = true) as H2.
  { unfold hasIng2. case_bool_decide as Heq.
    - apply Z.leb_le. rewrite <-Heq in Hok2.
      pose proof (two_members_length (filter (fun e => ingredientOk r (ingredient1 r) e = true) (entities s))
                    i1 i2) as Hl.
      rewrite !list_elem_of_filter in Hl. apply Nat2Z.inj_le in Hl; [lia|done|done|congruence].
    - apply existsb_elem; eauto. }
  rewrite H1, H2, (proj2 (Z.leb_le _ _)) in Hc by lia. discriminate.
Qed.

(** An enabled altar button over distinct ids: the handler consumes two
    distinct qualifying units, charges the recipe's cost and places the
    result on the first ingredient's cell. *)
Lemma handleSynthesize_enabled :
  NoDup (id <$> entities s) -> canCraft s r = true ->
  exists i1 i2, i1 ∈ entities s /\ i2 ∈ entities s /\ id i2 <> id i1 /\
    ingredientOk r (ingredient1 r) i1 = true /\ ingredientOk r (ingredient2 r) i2 = true /\
    handleSynthesize s r newId =
      set_entities (set_coins s (coins s - cost r))
        (filter (fun e => id e <> id i1 /\ id e <> id i2) (entities s) ++
         [createEntity newId (result r) 1 PLAYER (gridX i1) (gridY i1)
            (getPlayerTechLevel s (result r)) (artifactLevels s)]).
Proof.
  intros Hnd Hc. unfold canCraft in Hc. apply andb_true_iff in Hc as [Hc Hco].
  apply andb_true_iff in Hc as [H1 H2]. apply Z.leb_le in Hco.
  unfold handleSynthesize. rewrite (proj2 (Z.ltb_ge _ _)) by lia.
  destruct (findIndexB _ _) as [[k1 i1]|] eqn:E1; cycle 1.
  { exfalso. apply existsb_elem in H1 as (e & He & Hok).
    rewrite findIndexB_None in E1.
    pose proof (proj2 (ingredient_player _ e) (conj He Hok)) as [He' Hp].
    rewrite E1 in Hp by done. discriminate. }
  cbn [fmap option_fmap option_map snd].
  destruct (findIndexB (fun e => _ && _ && negb _) _) as [[k2 i2]|] eqn:E2; cycle 1.
  { exfalso. rewrite findIndexB_None in E2.
    apply findIndexB_member, ingredient_player in E1 as [Hi1 Hok1].
    assert (exists e, e ∈ entities s /\ ingredientOk r (ingredient2 r) e = true /\ id e <> id i1)
      as (e & He & Hok & Hne).
    { unfold hasIng2 in H2. case_bool_decide as Heq.
      - apply Z.leb_le in H2. rewrite <-Heq.
        destruct (NoDup_fmap_avoid id (filter (fun e => ingredientOk r (ingredient1 r) e = true)
                    (entities s)) (id i1)) as (e & He & Hne);
          [by apply NoDup_fmap_filter|lia|].
        apply list_elem_of_filter in He as [Hok He]. eauto.
      - apply existsb_elem in H2 as (e & He & Hok). exists e. split_and!; [done|done|].
        intros Hid. pose proof (NoDup_fmap_inj_on id _ _ _ Hnd He Hi1 Hid) as ->.
        apply Heq. unfold ingredientOk in Hok, Hok1.
        repeat (apply andb_true_iff in Hok as [Hok _] || apply andb_true_iff in Hok1 as [Hok1 _]).
        apply bool_decide_eq_true in Hok, Hok1. congruence. }
    pose proof (proj2 (ingredient_player_hasId _ (id i1) e) (conj He (conj Hok Hne))) as [He' Hp].
    rewrite E2 in Hp by done. discriminate. }
  apply findIndexB_member, ingredient_player in E1 as [Hi1 Hok1].
  apply findIndexB_member, ingredient_player_hasId in E2 as (Hi2 & Hok2 & Hne).
  cbn [fmap option_fmap option_map snd entities set_coins].
  assert (forall e, e ∈ entities s -> existsb (hasId (id e)) (entities s) = true) as Hex.
  { intros e He. apply existsb_elem. exists e. by rewrite hasId_true. }
  rewrite (Hex i1), (Hex i2) by done. cbn. exists i1, i2. by split_and!.
Qed.

End Altar.

(** ** Clicks against the handlers *)

Section Clicks.

Lemma handleBuyUnit_unaffordable s bt rand r newId :
  (coins s < buyCost s bt)%Z -> handleBuyUnit s bt rand r newId = s.
Proof.
  intros H. unfold handleBuyUnit. destruct (_ <=? _); [done|].
  by rewrite (proj2 (Z.leb_gt _ _) H).
Qed.

Lemma handleBuyUnit_room_coins s bt rand r newId :
  summonRoom s = true -> (buyCost s bt <= coins s)%Z ->
  coins (handleBuyUnit s bt rand r newId) = (coins s - buyCost s bt)%Z.
Proof.
  unfold summonRoom. intros [Hcap Hsp]%andb_true_iff Hc. apply Z.ltb_lt in Hcap.
  apply bool_decide_eq_true in Hsp. unfold handleBuyUnit.
  rewrite (proj2 (Z.leb_gt _ _) Hcap), (proj2 (Z.leb_le _ _) Hc).
  destruct (availableSpots _) as [|[sx sy] ?]; [done|]. by destruct bt.
Qed.

End Clicks.

(** ** The unit-info panel and the research preview *)

Section Info.

(** For a player unit the panel shows the stats it fights with. *)
Lemma infoStats_player s u : side u = PLAYER -> infoStats s u = combatStats s u.
Proof.
  intros Hs. unfold infoStats, combatStats, combatTech, combatArtifacts.
  rewrite bool_decide_eq_true_2 by done. by rewrite !decide_True.
Qed.

(** The "next" column of a research row is what the upgrade gives the
    player's level-1 units of that type. *)
Lemma research_preview_next s t e :
  tier (UNIT_BASE_STATS t) <> MYTHIC -> techCanAfford s t = true ->
  e ∈ entities (applyTechUpgrade s t) -> side e = PLAYER -> type e = t -> level e = 1 ->
  maxHp e = hp_stat (snd (techPreview s t)) /\ hp e = maxHp e.
Proof.
  intros _ Hc He Hs Ht Hl. unfold techCanAfford, techCost in Hc. unfold applyTechUpgrade in He.
  rewrite Hc in He. cbn [entities set_entities set_techLevels set_coins] in He.
  apply list_elem_of_fmap in He as (e0 & -> & He0).
  destruct (bool_decide (side e0 = PLAYER) && bool_decide (type e0 = t)) eqn:Hp.
  - apply andb_true_iff in Hp as [_ Ht0%bool_decide_eq_true].
    cbn [maxHp hp level set_maxHp_hp techPreview snd techLevels artifactLevels set_techLevels set_coins] in *.
    rewrite Ht0, Hl. by split.
  - cbn [side type] in Hs, Ht. rewrite bool_decide_eq_true_2, bool_decide_eq_true_2 in Hp by done.
    discriminate.
Qed.

(** C39: The panel misreports an enemy: an enemy of a level-20 NORMAL load
    was created with tech 2 and fights with tech [ceil(20 / 5) = 4], but
    the panel computes its stats with tech 1, so neither its maximum hp
    nor its damage is what the panel shows. *)
Example info_panel_enemy_mismatch :
  (maxHp level20_enemy <> hp_stat (infoStats level20_state level20_enemy)) /\
  (damage (combatStats level20_state level20_enemy) <> damage (infoStats level20_state level20_enemy)).
Proof. split; vm_compute; discriminate. Qed.

End Info.

(** C29: A [disabled] attribute only repeats the handler's own guard:
    whenever a summon, artifact, altar, infrastructure or research
    button is disabled, calling its handler would leave the state
    unchanged. *)
Theorem disabled_button_inert s b rand r newId now :
  disabledAttr s b = true -> onClick s b rand r newId now = s.
Proof.
  destruct b as [bt| |rc|ach|g|t| |]; cbn [disabledAttr onClick]; intros H; try discriminate.
  - apply handleBuyUnit_unaffordable. destruct bt; cbn; lia.
  - unfold handleBuyArtifact. apply Z.ltb_lt in H. by rewrite (proj2 (Z.leb_gt _ _) H).
  - apply handleSynthesize_blocked. by apply negb_true_iff.
  - unfold globalCanAfford, globalIsMax, globalCost in H. unfold applyGlobalUpgrade.
    destruct (_ <=? globalTech s g); [done|]. cbn in H. rewrite andb_true_r in H.
    apply negb_true_iff in H. by rewrite H.
  - unfold techCanAfford, techCost in H. unfold applyTechUpgrade.
    apply negb_true_iff in H. by rewrite H.
Qed.

(** C20: A click on a clickable button with a coin figure moves the
    coins by exactly that figure: the sell and reward buttons pay it
    out, every other one charges it (a summon when the unit cap and a
    free cell leave room, the altar when unit ids are distinct). *)
Theorem clicked_button_pays_shown_price s b rand r newId now a :
  NoDup (id <$> entities s) -> clickable s b = true -> shownPrice s b = Some a ->
  (forall bt, b = BtnSummon bt -> summonRoom s = true) ->
  coins (onClick s b rand r newId now) = (if isPayout b then coins s + a else coins s - a)%Z.
Proof.
  intros Hnd Hcl Hp Hroom. unfold clickable in Hcl.
  apply andb_true_iff in Hcl as [[Hr Hdis%negb_true_iff]%andb_true_iff Hon].
  destruct b as [bt| |rc|ach|g|t| |]; cbn [onClick isPayout shownPrice disabledAttr] in *.
  - rewrite handleBuyUnit_room_coins by (eauto; destruct bt; cbn; lia).
    destruct bt; cbn; congruence.
  - unfold handleBuyArtifact. apply Z.ltb_ge in Hdis. rewrite (proj2 (Z.leb_le _ _) Hdis).
    cbn. congruence.
  - apply negb_false_iff in Hdis.
    destruct (handleSynthesize_enabled s rc newId Hnd Hdis) as (? & ? & _ & _ & _ & _ & _ & ->).
    cbn. congruence.
  - unfold rendered, isClaimed in Hr. apply andb_true_iff in Hr as [_ Hncl%negb_true_iff].
    unfold claimAchievement. rewrite Hncl. cbn. congruence.
  - unfold globalCanAfford in Hdis. apply negb_false_iff, andb_true_iff in Hdis as [Hc Hm].
    apply negb_true_iff in Hm. rewrite Hm in Hp. unfold globalIsMax, globalCost in *.
    unfold applyGlobalUpgrade. rewrite Hm, Hc. injection Hp as <-.
    by destruct (bool_decide _).
  - unfold techCanAfford in Hdis. apply negb_false_iff in Hdis. injection Hp as <-.
    unfold applyTechUpgrade. unfold techCost in *. by rewrite Hdis.
  - unfold rendered in Hr. destruct (selectedUnit s) as [u|] eqn:Hs; [|done].
    apply andb_true_iff in Hr as [Hside%bool_decide_eq_true _]. injection Hp as <-.
    (* the figure of line 1727 is the refund of line 521, term for term *)
    unfold handleSellUnit. rewrite Hs, decide_False by tauto. reflexivity.
  - done.
Qed.

(** C21: The altar button agrees with [handleSynthesize]: when it is
    disabled the handler does nothing; when it is enabled (distinct ids,
    a fresh id for the result) the handler charges the recipe's cost,
    removes two distinct qualifying player units and adds the result
    under the new id on the first ingredient's cell. *)
Theorem altar_button_exact s r newId :
  NoDup (id <$> entities s) -> newId ∉ id <$> entities s ->
  (canCraft s r = false -> handleSynthesize s r newId = s) /\
  (canCraft s r = true ->
     coins (handleSynthesize s r newId) = (coins s - cost r)%Z /\
     exists i1 i2, i1 ∈ entities s /\ i2 ∈ entities s /\ id i1 <> id i2 /\
       ingredientOk r (ingredient1 r) i1 = true /\ ingredientOk r (ingredient2 r) i2 = true /\
       (id i1 ∉ id <$> entities (handleSynthesize s r newId)) /\
       (id i2 ∉ id <$> entities (handleSynthesize s r newId)) /\
       exists e, e ∈ entities (handleSynthesize s r newId) /\
         id e = newId /\ type e = result r /\ side e = PLAYER /\ cell e = cell i1).
Proof.
  intros Hnd Hfresh. split; [apply handleSynthesize_blocked|]. intros Hc.
  destruct (handleSynthesize_enabled s r newId Hnd Hc)
    as (i1 & i2 & Hi1 & Hi2 & Hne & Hok1 & Hok2 & ->).
  cbn [coins entities set_entities set_coins]. split; [done|].
  assert (id i1 <> newId /\ id i2 <> newId) as [Hn1 Hn2].
  { split; intros <-; apply Hfresh, list_elem_of_fmap; eauto. }
  exists i1, i2. split_and!; [done|done|congruence|done|done| | |].
  1,2: rewrite fmap_app, elem_of_app, list_elem_of_fmap; cbn; intros [(e & He & Hf)|He];
       [apply list_elem_of_filter in Hf; naive_solver
       |apply list_elem_of_singleton in He; cbn in He; congruence].
  eexists. split; [apply elem_of_app; right; by left|]. done.
Qed.

(** C32: The trophy badge of the top bar is lit exactly when some
    achievement row shows its claim button, and claiming a reward
    removes that row's button. *)
Theorem claim_badge_exact s :
  (hasClaimableAchievements s = true <-> exists ach, clickable s (BtnClaim ach) = true) /\
  (forall ach rand r newId now, clickable s (BtnClaim ach) = true ->
     clickable (onClick s (BtnClaim ach) rand r newId now) (BtnClaim ach) = false).
Proof.
  split.
  - unfold hasClaimableAchievements, clickable, rendered, isCompleted, isClaimed.
    rewrite existsb_elem. cbn [disabledAttr negb].
    split.
    + intros (ach & Hin & Hok). exists ach.
      apply andb_true_iff in Hok as [Hc Hn]. rewrite Hc, Hn, !andb_true_r.
      by apply bool_decide_eq_true.
    + intros (ach & Hok). exists ach. rewrite !andb_true_r in Hok.
      apply andb_true_iff in Hok as [[Hin%bool_decide_eq_true Hc]%andb_true_iff Hn].
      by rewrite Hc, Hn.
  - intros ach ? ? ? ?. unfold clickable, rendered, isClaimed. cbn [onClick disabledAttr negb].
    rewrite !andb_true_r. intros Hcl. unfold claimAchievement.
    apply andb_true_iff in Hcl as [_ Hncl%negb_true_iff]. rewrite Hncl. cbn.
    rewrite (bool_decide_eq_true_2 (ach_id ach ∈ _ ++ _)) by (apply elem_of_app; right; by left).
    by rewrite !andb_false_r.
Qed.

(** ** Witnesses *)

Section Witnesses.

Lemma disabled_button_inert_witness :
  disabledAttr archers_state (BtnCraft paladin_recipe) = true /\
  onClick archers_state (BtnCraft paladin_recipe) 0 0 "n1" 0 = archers_state.
Proof.
  assert (disabledAttr archers_state (BtnCraft paladin_recipe) = true) as H by (vm_compute; reflexivity).
  split; [exact H | apply (disabled_button_inert _ _ _ _ _ _ H)].
Defined.

Lemma altar_ids_NoDup : NoDup (id <$> entities altar_state).
Proof. apply (bool_decide_unpack _). vm_compute. exact I. Qed.

Lemma clicked_button_pays_shown_price_witness :
  clickable altar_state (BtnCraft paladin_recipe) = true /\
  coins (onClick altar_state (BtnCraft paladin_recipe) 0 0 "n1" 0) = 1500%Z.
Proof.
  assert (clickable altar_state (BtnCraft paladin_recipe) = true) as H by (vm_compute; reflexivity).
  split; [exact H|].
  exact (clicked_button_pays_shown_price altar_state _ 0 0 "n1" 0 500 altar_ids_NoDup H eq_refl
           (fun bt Hb => match Hb with end)).
Defined.

Lemma altar_button_exact_witness :
  canCraft altar_state paladin_recipe = true /\
  coins (handleSynthesize altar_state paladin_recipe "p1") = 1500%Z.
Proof.
  assert (canCraft altar_state paladin_recipe = true) as H by (vm_compute; reflexivity).
  split; [exact H|].
  apply (proj2 (altar_button_exact altar_state paladin_recipe "p1" altar_ids_NoDup
                  ltac:(apply (bool_decide_unpack _); vm_compute; exact I)) H).
Defined.

Lemma claim_badge_exact_witness :
  clickable first_kill_state (BtnClaim kill_1) = true /\
  clickable (onClick first_kill_state (BtnClaim kill_1) 0 0 "n1" 0) (BtnClaim kill_1) = false.
Proof.
  assert (clickable first_kill_state (BtnClaim kill_1) = true) as H by (vm_compute; reflexivity).
  split; [exact H | apply (proj2 (claim_badge_exact first_kill_state) _ _ _ _ _ H)].
Defined.

End Witnesses.
