(* ===== verification/Grid.v ===== *)
(** * Grid: the tiles of the battlefield and the DOM hit test (src/App.tsx)

    [renderTiles] (lines 961-991) renders one [div] per cell with the
    attributes [data-grid-x] and [data-grid-y] (React writes the numbers
    as strings) and a highlight class; [getGridFromClientPos] (lines
    818-827) reads them back with [parseInt] from the element under the
    pointer, and [moveDrag] (lines 888-896) stores the result in
    [hoveredGrid].  The DOM part ([document.elementFromPoint] and
    [closest('[data-grid-x]')]) is the argument [hit]: the tile found, or
    [None] for [null].

    JavaScript values are modelled where the code relies on them: a
    number parsed from a string is [option Z] ([None] is [NaN]), and the
    object stored in [hoveredGrid] is an association list from keys to
    values, so that reading a key it does not have gives [undefined].

    The theorems: [parseInt] reads back what [String] wrote, so a hit on
    a rendered tile gives exactly that tile's cell, a cell of the grid
    (the input assumed by the placement model); and the hover highlight
    of the drop target never shows, because [moveDrag] stores
    [{gridX, gridY}] while [renderTiles] reads [.x] and [.y]. *)

From S2P Require Import Prelude Types Constants Stats Session Placement Economy.
From stdpp Require Import pretty.
From Stdlib Require Import Ascii.
Local Open Scope Z_scope.

(** ** Numbers written and read as strings *)

(** A JavaScript number that may be [NaN] ([None]). *)
Definition JSNumber := option Z.

(** The white space [parseInt] skips (the ASCII part of
    [StrWhiteSpaceChar]). *)
Definition is_ws (c : ascii) : bool :=
  match nat_of_ascii c with 9 | 10 | 11 | 12 | 13 | 32 => true | _ => false end%nat.

Fixpoint trimStart (s : string) : string :=
  match s with
  | String c s' => if is_ws c then trimStart s' else s
  | EmptyString => EmptyString
  end.

Definition digitOf (c : ascii) : option Z :=
  let n := nat_of_ascii c in
  if (48 <=? n)%nat && (n <=? 57)%nat then Some (Z.of_nat n - 48) else None.

(** The longest prefix of decimal digits, [NaN] when it is empty. *)
Fixpoint digitsPrefix (s : string) (acc : Z) (seen : bool) : JSNumber :=
  match s with
  | String c s' =>
      match digitOf c with
      | Some d => digitsPrefix s' (acc * 10 + d) true
      | None => if seen then Some acc else None
      end
  | EmptyString => if seen then Some acc else None
  end.

(** [parseInt(s, 10)]: leading white space, an optional sign, then the
    digits. *)
Definition parseInt (s : string) : JSNumber :=
  match trimStart s with
  | String "-" s' => Z.opp <$> digitsPrefix s' 0 false
  | String "+" s' => digitsPrefix s' 0 false
  | s' => digitsPrefix s' 0 false
  end%char.

(** ** Tiles and the hit test *)

(** The attributes of a tile that the hit test reads
    ([getAttribute] gives [null] for a missing one). *)
Record Tile := mkTile { data_grid_x : option string; data_grid_y : option string }.

#[export] Instance Tile_eq_dec : EqDecision Tile.
Proof. solve_decision. Defined.

(** The tiles of [renderTiles], row by row: [data-grid-x={x}] and
    [data-grid-y={y}], written with [String]. *)
Definition renderTiles : list Tile :=
  flat_map (fun y => (fun x => mkTile (Some (pretty x)) (Some (pretty y))) <$> seqZ 0 GRID_COLS)
    (seqZ 0 GRID_ROWS).

(** [getGridFromClientPos(clientX, clientY)] with [hit] the tile
    [element.closest('[data-grid-x]')] found under the pointer. *)
Definition getGridFromClientPos (hit : option Tile) : option (JSNumber * JSNumber) :=
  match hit with
  | None => None
  | Some t =>
      let gridX := parseInt (default "-1" (data_grid_x t)) in
      let gridY := parseInt (default "-1" (data_grid_y t)) in
      if bool_decide (gridX = Some (-1)) || bool_decide (gridY = Some (-1)) then None
      else Some (gridX, gridY)
  end.

(** ** The hover state *)

(** A JavaScript object as its list of own keys and values; [getField]
    is [undefined] ([None]) for a key it does not have. *)
Definition JSObj := list (string * JSNumber).

Fixpoint getField (o : JSObj) (k : string) : option JSNumber :=
  match o with
  | [] => None
  | (k', v) :: o' => if bool_decide (k' = k) then Some v else getField o' k
  end.

(** [setHoveredGrid(gridPos)] in [moveDrag]: the object
    [{ gridX, gridY }] built by [getGridFromClientPos], or [null]. *)
Definition moveDragHover (gridPos : option (JSNumber * JSNumber)) : option JSObj :=
  match gridPos with
  | Some (gx, gy) => Some [("gridX", gx); ("gridY", gy)]
  | None => None
  end.

(** [v === x] for a value [v] that may be [undefined] or [NaN] and a
    number [x]. *)
Definition strictEqNum (v : option JSNumber) (x : Z) : bool :=
  match v with Some (Some n) => bool_decide (n = x) | _ => false end.

(** [hoveredGrid?.x === x && hoveredGrid?.y === y] (line 966). *)
Definition isHovered (hoveredGrid : option JSObj) (x y : Z) : bool :=
  match hoveredGrid with
  | None => false
  | Some o => strictEqNum (getField o "x") x && strictEqNum (getField o "y") y
  end.

(** The highlight of a tile: the hover colors of the two halves, then
    the attack range of the selected unit, which overrides them. *)
Inductive Highlight := NoHighlight | HoverEnemyZone | HoverOwnZone | RangeOwn | RangeEnemy.

Section Highlight.
Context `{MathSqrt}.

(** The [highlightClass] of the tile [(x, y)] (lines 965-982). *)
Definition tileHighlight (s : GameState) (hoveredGrid : option JSObj) (x y : Z) : Highlight :=
  let isEnemyTerritory := Qltb (inject_Z y) (inject_Z GRID_ROWS / 2) in
  let h := if isHovered hoveredGrid x y && bool_decide (phase s = PREPARATION)
           then (if isEnemyTerritory then HoverEnemyZone else HoverOwnZone) else NoHighlight in
  match selectedUnit s with
  | Some u =>
      if bool_decide (phase s = PREPARATION) then
        let isPlayer := bool_decide (side u = PLAYER) in
        let tech := if isPlayer then getPlayerTechLevel s (type u) else 1 in
        let arts := if isPlayer then artifactLevels s else noArtifacts in
        let stats := getUnitStats (type u) (level u) tech arts in
        let dist := msqrt (inject_Z (x - gridX u) ^ 2 + inject_Z (y - gridY u) ^ 2) in
        if Qleb dist (range stats) then (if isPlayer then RangeOwn else RangeEnemy) else h
      else h
  | None => h
  end.

End Highlight.

(** ** [parseInt] reads back what [String] wrote *)

Section Decimal.

Lemma digit_cases (d : N) : (d < 10)%N ->
  d = 0%N \/ d = 1%N \/ d = 2%N \/ d = 3%N \/ d = 4%N \/ d = 5%N \/ d = 6%N \/ d = 7%N \/ d = 8%N \/ d = 9%N.
Proof. lia. Qed.

Lemma digitOf_pretty_N_char d : (d < 10)%N -> digitOf (pretty_N_char d) = Some (Z.of_N d).
Proof. intros Hd. destruct (digit_cases d Hd) as [|[|[|[|[|[|[|[|[|]]]]]]]]]; subst; reflexivity. Qed.

(** A non-empty decimal string starts with a digit and is read digit by
    digit into the accumulator. *)
Lemma pretty_N_go_digits x s acc seen : (0 < x)%N ->
  (exists d r, pretty_N_go x s = String (pretty_N_char d) r /\ (d < 10)%N) /\
  exists k : nat, digitsPrefix (pretty_N_go x s) acc seen = digitsPrefix s (acc * 10 ^ Z.of_nat k + Z.of_N x) true.
Proof.
  revert s acc seen. induction (N.lt_wf_0 x) as [x _ IH]. intros s acc seen Hx.
  rewrite pretty_N_go_step by done.
  pose proof (N.mod_lt x 10 ltac:(lia)) as Hm. pose proof (N.div_mod x 10 ltac:(lia)) as Hdm.
  pose proof (digitOf_pretty_N_char _ Hm) as Hd.
  destruct (decide (x `div` 10 = 0)%N) as [H0|H0].
  - rewrite H0, pretty_N_go_0. split; [by eexists _, _|]. exists 1%nat. cbn [digitsPrefix]. rewrite Hd.
    f_equal. rewrite H0 in Hdm. lia.
  - destruct (IH (x `div` 10)%N (N.div_lt x 10 Hx eq_refl) (String (pretty_N_char (x `mod` 10)) s) acc seen
                ltac:(lia)) as [Hhead [k Hk]].
    split; [exact Hhead|]. rewrite Hk. cbn [digitsPrefix]. rewrite Hd. exists (S k). f_equal.
    rewrite Nat2Z.inj_succ, Z.pow_succ_r by lia. nia.
Qed.

Lemma parseInt_digit_head d r : (d < 10)%N ->
  parseInt (String (pretty_N_char d) r) = digitsPrefix (String (pretty_N_char d) r) 0 false.
Proof. intros Hd. destruct (digit_cases d Hd) as [|[|[|[|[|[|[|[|[|]]]]]]]]]; subst; reflexivity. Qed.

Lemma digitsPrefix_pretty_pos p : digitsPrefix (pretty (Npos p)) 0 false = Some (Zpos p).
Proof.
  unfold pretty, pretty_N. rewrite decide_False by done.
  destruct (pretty_N_go_digits (Npos p) "" 0 false ltac:(lia)) as [_ [k ->]]. done.
Qed.

(** [parseInt(String(z))] is [z]. *)
Lemma parseInt_pretty (z : Z) : parseInt (pretty z) = Some z.
Proof.
  destruct z as [|p|p]; [reflexivity| |].
  - change (pretty (Zpos p)) with (pretty (Npos p)).
    destruct (pretty_N_go_digits (Npos p) "" 0 false ltac:(lia)) as [(d & r & Hdr & Hd) _].
    rewrite <-(digitsPrefix_pretty_pos p). unfold pretty at 1 2, pretty_N. rewrite decide_False by done.
    rewrite Hdr. by apply parseInt_digit_head.
  - change (pretty (Zneg p)) with (String "-" (pretty (Npos p))).
    change (parseInt (String "-" (pretty (Npos p)))) with (Z.opp <$> digitsPrefix (pretty (Npos p)) 0 false).
    by rewrite digitsPrefix_pretty_pos.
Qed.

End Decimal.

(** ** The hit test and the hover highlight *)

Section Tiles.

Lemma renderTiles_elem t :
  t ∈ renderTiles <->
  exists x y, (0 <= x < GRID_COLS) /\ (0 <= y < GRID_ROWS) /\ t = mkTile (Some (pretty x)) (Some (pretty y)).
Proof.
  unfold renderTiles. rewrite list_elem_of_In, in_flat_map. split.
  - intros (y & Hy%list_elem_of_In & Ht%list_elem_of_In). apply list_elem_of_fmap in Ht as (x & -> & Hx).
    apply elem_of_seqZ in Hx, Hy. exists x, y. split_and!; first [lia | done].
  - intros (x & y & Hx & Hy & ->). exists y. rewrite <-!list_elem_of_In, elem_of_seqZ.
    split; [lia|]. apply list_elem_of_fmap. exists x. rewrite elem_of_seqZ. split; [done | lia].
Qed.

(** [moveDrag] stores keys that [renderTiles] never reads. *)
Lemma isHovered_moveDragHover g x y : isHovered (moveDragHover g) x y = false.
Proof. by destruct g as [[gx gy]|]. Qed.

(** A rendered tile is read back as its own cell, a cell of the grid. *)
Lemma getGridFromClientPos_tile t :
  t ∈ renderTiles ->
  exists x y, t = mkTile (Some (pretty x)) (Some (pretty y)) /\
    getGridFromClientPos (Some t) = Some (Some x, Some y) /\ grid_cell (Some (x, y)).
Proof.
  intros (x & y & Hx & Hy & ->)%renderTiles_elem. exists x, y. split_and!; [done| |done].
  cbn [getGridFromClientPos data_grid_x data_grid_y default Datatypes.id]. rewrite !parseInt_pretty.
  rewrite !bool_decide_eq_false_2 by (intros [= ?]; lia). reflexivity.
Qed.

End Tiles.

(** C24: a pointer released on a rendered tile is read back as exactly
    that tile's cell: [parseInt] inverts the [String] that wrote
    [data-grid-x] and [data-grid-y], no tile is rejected as [-1], and
    the cell lies on the grid (so the hit test gives the placement model
    a cell of the grid or [null]); every cell of the grid has its tile. *)
Theorem tile_hit_roundtrip t :
  t ∈ renderTiles ->
  exists x y, t = mkTile (Some (pretty x)) (Some (pretty y)) /\
    getGridFromClientPos (Some t) = Some (Some x, Some y) /\ grid_cell (Some (x, y)).
Proof. apply getGridFromClientPos_tile. Qed.

(** C38: the hover highlight of the drop target never shows: whatever
    the pointer is over, after [moveDrag] no tile is colored as the
    hovered cell of either half ([hoveredGrid] holds [gridX]/[gridY] but
    the tiles compare [hoveredGrid?.x] and [hoveredGrid?.y], which are
    [undefined]); only the attack range of a selected unit is drawn. *)
Theorem hover_highlight_never_shown `{MathSqrt} s g x y :
  tileHighlight s (moveDragHover g) x y <> HoverEnemyZone /\
  tileHighlight s (moveDragHover g) x y <> HoverOwnZone.
Proof.
  unfold tileHighlight. rewrite isHovered_moveDragHover. cbn [andb].
  split; repeat case_match; discriminate.
Qed.

(** What the tiles expect: an object with the keys [x] and [y]. *)
Example hover_with_xy_keys : isHovered (Some [("x", Some 3); ("y", Some 6)]) 3 6 = true.
Proof. reflexivity. Qed.

(** ** Witnesses *)

Section Witnesses.

Lemma tile_hit_roundtrip_witness :
  mkTile (Some "3") (Some "6") ∈ renderTiles /\
  getGridFromClientPos (Some (mkTile (Some "3") (Some "6"))) = Some (Some 3, Some 6).
Proof.
  assert (H : mkTile (Some "3") (Some "6") ∈ renderTiles) by (apply (bool_decide_unpack _); vm_compute; exact I).
  split; [exact H|].
  destruct (tile_hit_roundtrip _ H) as (x & y & Ht & Hg & _). rewrite Hg.
  injection Ht as Hx Hy. f_equal. f_equal; f_equal; apply (inj pretty); [exact (eq_sym Hx) | exact (eq_sym Hy)].
Defined.

End Witnesses.
