(* ===== verification/Gesture.v ===== *)
(** * Gesture: the drag plumbing of src/App.tsx (lines 829-909)

    A drag starts with [handleMouseDown] or [handleTouchStart] on a unit:
    [startDrag] records the start position and the pointer offset, sets
    [draggingId], and registers two document listeners ([mousemove] and
    [mouseup], or [touchmove] and [touchend]).  Moves call [moveDrag]
    (the preview position and [hoveredGrid]); the release handler removes
    its two listeners and calls [finishDrag], which reads the id from
    [draggingIdRef], a ref that an effect copies from [draggingId] after
    each render.

    [UI] is the session with this state.  [Listener] names a registered
    listener; the listener list is a multiset, since a second press
    during a drag (another mouse button, another finger) registers a
    second pair of new closures.  A DOM event runs every listener
    registered for it ([dispatch]), each release handler removing its
    own pair, and React renders and runs the effect after the event
    ([commit]), which also copies the roster into [entitiesRef] in the
    preparation phase.  [gesture_step] is the event relation: presses,
    moves and releases of both kinds, the fight button, which the
    keyboard (or another finger) can press while a unit is held, and the
    battle frames, which start from [entitiesRef].

    The theorems: the listeners stay paired, the ref follows the state,
    and a held unit always has a listener that will release it; a mouse
    gesture leaves exactly the session of the [step_drag] step of
    [Economy.prep_step] on the cell the hit test reads; and since
    [finishDrag] does not check the phase, a unit held when the battle
    starts is still merged when it is released, during the battle, on
    the React state only: the next frame, which reads the ref, puts the
    two units back and keeps the counted merge. *)

From S2P Require Import Prelude Types Constants Stats Session Placement Economy Combat Grid.
From stdpp Require Import relations.
Local Open Scope Q_scope.

Inductive Listener := MouseMoveL | MouseUpL | TouchMoveL | TouchEndL.

#[export] Instance Listener_eq_dec : EqDecision Listener.
Proof. solve_decision. Defined.

(** The session with the drag state of the component: [draggingId],
    [draggingIdRef], [dragStartPos], [dragOffset], [dragPos],
    [hoveredGrid] (lines 110-115, 899-900), the document's listeners,
    and [entitiesRef] (line 107).  [Session.GameState] has one field for
    [entities] and the ref; here the ref is a field of its own, since an
    effect copies the state into it only in the preparation phase (lines
    188-192) while the battle frames read and write the ref (lines 557,
    663). *)
Record UI := mkUI {
  ui_st : GameState;
  draggingId : option string;
  draggingIdRef : option string;
  dragStartPos : Q * Q;
  dragOffset : Q * Q;
  dragPos : option (Q * Q);
  hoveredGrid : option JSObj;
  listeners : list Listener;
  entitiesRef : list Entity
}.

Definition set_ui_st (u : UI) (s : GameState) : UI :=
  mkUI s (draggingId u) (draggingIdRef u) (dragStartPos u) (dragOffset u) (dragPos u) (hoveredGrid u) (listeners u) (entitiesRef u).
Definition set_listeners (u : UI) (ls : list Listener) : UI :=
  mkUI (ui_st u) (draggingId u) (draggingIdRef u) (dragStartPos u) (dragOffset u) (dragPos u) (hoveredGrid u) ls (entitiesRef u).

(** [startDrag(clientX, clientY, element, entityId)] with the element's
    bounding box at [(left, top)]. *)
Definition startDrag (u : UI) (cx cy left top : Q) (entityId : string) : UI :=
  let ox := cx - left in
  let oy := cy - top in
  mkUI (ui_st u) (Some entityId) (draggingIdRef u) (cx, cy) (ox, oy) (Some (cx - ox, cy - oy))
    (hoveredGrid u) (listeners u) (entitiesRef u).

(** [moveDrag(clientX, clientY)] over the tile [hit]. *)
Definition moveDrag (u : UI) (cx cy : Q) (hit : option Tile) : UI :=
  mkUI (ui_st u) (draggingId u) (draggingIdRef u) (dragStartPos u) (dragOffset u)
    (Some (cx - fst (dragOffset u), cy - snd (dragOffset u)))
    (moveDragHover (getGridFromClientPos hit)) (listeners u) (entitiesRef u).

(** The cell [finishDrag] destructures from [targetPos].  The tiles are
    rendered with numeric attributes ([Grid.tile_hit_roundtrip]), so the
    [NaN] case does not arise from a rendered tile. *)
Definition cellOf (g : option (JSNumber * JSNumber)) : option (Z * Z) :=
  match g with Some (Some gx, Some gy) => Some (gx, gy) | _ => None end.

Section Handlers.
Context `{MathSqrt}.

(** [finishDrag(clientX, clientY)]: the id comes from [draggingIdRef];
    the drag state is cleared and the gesture resolved by
    [Placement.finishDrag]. *)
Definition finishDragUI (u : UI) (cx cy : Q) (hit : option Tile) : UI :=
  match draggingIdRef u with
  | None => u
  | Some mid =>
      if bool_decide (mid = "") then u else
      mkUI (finishDrag (ui_st u) (Some mid) (fst (dragStartPos u)) (snd (dragStartPos u)) cx cy
              (cellOf (getGridFromClientPos hit)))
        None (draggingIdRef u) (dragStartPos u) (dragOffset u) None None (listeners u) (entitiesRef u)
  end.

End Handlers.

(** [handleMouseDown] / [handleTouchStart] (lines 829-864): a press on a
    player unit in the preparation phase starts a drag and registers the
    move and release listeners of its kind. *)
Definition pressUnit (mv up : Listener) (u : UI) (e : Entity) (cx cy left top : Q) : UI :=
  if decide (phase (ui_st u) <> PREPARATION) then u
  else if decide (side e <> PLAYER) then set_ui_st u (set_selectedUnit (ui_st u) (Some e))
  else let u := startDrag u cx cy left top (id e) in set_listeners u (listeners u ++ [mv; up]).

Fixpoint remove1 (l : Listener) (ls : list Listener) : list Listener :=
  match ls with
  | [] => []
  | l' :: ls' => if bool_decide (l' = l) then ls' else l' :: remove1 l ls'
  end.

Definition count (l : Listener) (ls : list Listener) : nat := length (filter (fun l' => l' = l) ls).

(** [onMouseUp] / [onTouchEnd]: remove the pair, then [finishDrag]. *)
Definition release `{MathSqrt} (mv up : Listener) (u : UI) (cx cy : Q) (hit : option Tile) : UI :=
  finishDragUI (set_listeners u (remove1 up (remove1 mv (listeners u)))) cx cy hit.

(** A DOM event runs each listener registered for it when it starts. *)
Definition dispatch (l : Listener) (handler : UI -> UI) (u : UI) : UI :=
  Nat.iter (count l (listeners u)) handler u.

(** The effects after the render: [draggingIdRef.current = draggingId]
    (line 900) and, in the preparation phase only, [entitiesRef.current
    = entities] (lines 188-192). *)
Definition commit (u : UI) : UI :=
  mkUI (ui_st u) (draggingId u) (draggingId u) (dragStartPos u) (dragOffset u) (dragPos u)
    (hoveredGrid u) (listeners u)
    (if decide (phase (ui_st u) = PREPARATION) then entities (ui_st u) else entitiesRef u).

(** A battle frame (lines 557 and 663): [battleTick] works on a copy of
    [entitiesRef.current] and writes the result to the ref and to the
    state. *)
Definition frameUI (u : UI) (ts : Q) : UI :=
  let s' := fst (battleTick (set_entities (ui_st u) (entitiesRef u)) ts) in
  mkUI s' (draggingId u) (draggingIdRef u) (dragStartPos u) (dragOffset u) (dragPos u)
    (hoveredGrid u) (listeners u) (entities s').

(** A pointer over a rendered tile or over nothing. *)
Definition hit_ok (hit : option Tile) : Prop :=
  match hit with None => True | Some t => t ∈ renderTiles end.

(** The idle component around a session. *)
Definition idleUI (s : GameState) : UI := mkUI s None None (0, 0) (0, 0) None None [] (entities s).

Section Steps.
Context `{MathSqrt}.

Inductive gesture_step : UI -> UI -> Prop :=
  | g_mousedown u e cx cy left top :
      e ∈ entities (ui_st u) -> id e <> "" ->
      gesture_step u (commit (pressUnit MouseMoveL MouseUpL u e cx cy left top))
  | g_touchstart u e cx cy left top :
      e ∈ entities (ui_st u) -> id e <> "" ->
      gesture_step u (commit (pressUnit TouchMoveL TouchEndL u e cx cy left top))
  | g_mousemove u cx cy hit :
      hit_ok hit -> gesture_step u (commit (dispatch MouseMoveL (fun u => moveDrag u cx cy hit) u))
  | g_touchmove u cx cy hit :
      hit_ok hit -> gesture_step u (commit (dispatch TouchMoveL (fun u => moveDrag u cx cy hit) u))
  | g_mouseup u cx cy hit :
      hit_ok hit -> gesture_step u (commit (dispatch MouseUpL (fun u => release MouseMoveL MouseUpL u cx cy hit) u))
  | g_touchend u cx cy hit :
      hit_ok hit -> gesture_step u (commit (dispatch TouchEndL (fun u => release TouchMoveL TouchEndL u cx cy hit) u))
  | g_fight u now :
      phase (ui_st u) = PREPARATION -> gesture_step u (commit (set_ui_st u (startBattle (ui_st u) now)))
  | g_frame u ts :
      phase (ui_st u) = BATTLE -> gesture_step u (commit (frameUI u ts)).

End Steps.

(** ** Listener counts *)

Section Counts.

Lemma count_remove1 l l' ls :
  count l (remove1 l' ls) = if bool_decide (l = l') then (count l ls - 1)%nat else count l ls.
Proof.
  unfold count. induction ls as [|x ls IH]; [by case_bool_decide|]. cbn [remove1].
  destruct (decide (x = l')) as [->|Hx].
  - rewrite bool_decide_eq_true_2, filter_cons by done.
    destruct (decide (l' = l)) as [->|Hl]; cbn [length];
      [rewrite bool_decide_eq_true_2 by done; lia | rewrite bool_decide_eq_false_2 by congruence; done].
  - rewrite bool_decide_eq_false_2 by done. rewrite !filter_cons.
    destruct (decide (x = l)); cbn [length]; rewrite IH; case_bool_decide; subst; try done; lia.
Qed.

Lemma count_app l ls ls' : count l (ls ++ ls') = (count l ls + count l ls')%nat.
Proof. unfold count. by rewrite filter_app, length_app. Qed.

Lemma count_pair l a b :
  count l [a; b] = ((if bool_decide (a = l) then 1 else 0) + (if bool_decide (b = l) then 1 else 0))%nat.
Proof. unfold count. rewrite !filter_cons. by do 2 case_decide; repeat case_bool_decide. Qed.

End Counts.

(** ** The invariant of the gestures *)

(** Listeners in pairs, the ref in step with the state, and a held unit
    always has a listener left to release it. *)
Record gesture_inv (u : UI) : Prop := {
  gi_mouse : count MouseMoveL (listeners u) = count MouseUpL (listeners u);
  gi_touch : count TouchMoveL (listeners u) = count TouchEndL (listeners u);
  gi_ref : draggingIdRef u = draggingId u;
  gi_id : draggingId u <> Some "";
  gi_held : draggingId u <> None -> listeners u <> []
}.

Section Inv.
Context `{MathSqrt}.

Lemma finishDragUI_fields u cx cy hit :
  listeners (finishDragUI u cx cy hit) = listeners u /\
  draggingIdRef (finishDragUI u cx cy hit) = draggingIdRef u /\
  draggingId (finishDragUI u cx cy hit) =
    match draggingIdRef u with Some mid => if bool_decide (mid = "") then draggingId u else None | None => draggingId u end.
Proof.
  unfold finishDragUI. destruct (draggingIdRef u) as [mid|] eqn:E; [|done].
  case_bool_decide; cbn [listeners draggingIdRef draggingId]; auto.
Qed.

Lemma release_fields mv up u cx cy hit :
  listeners (release mv up u cx cy hit) = remove1 up (remove1 mv (listeners u)) /\
  draggingIdRef (release mv up u cx cy hit) = draggingIdRef u /\
  draggingId (release mv up u cx cy hit) =
    match draggingIdRef u with Some mid => if bool_decide (mid = "") then draggingId u else None | None => draggingId u end.
Proof. apply finishDragUI_fields. Qed.

(** The [n] release handlers of a dispatch remove the [n] pairs, keep
    the other listeners and the ref, and the first one clears the held
    id when the ref names one. *)
Lemma dispatch_release mv up u cx cy hit n :
  mv <> up -> count mv (listeners u) = n -> count up (listeners u) = n ->
  let u' := Nat.iter n (fun u => release mv up u cx cy hit) u in
  count mv (listeners u') = 0%nat /\ count up (listeners u') = 0%nat /\
  (forall l, l <> mv -> l <> up -> count l (listeners u') = count l (listeners u)) /\
  draggingIdRef u' = draggingIdRef u /\
  (n = 0%nat /\ draggingId u' = draggingId u \/
   draggingId u' = match draggingIdRef u with
                   | Some mid => if bool_decide (mid = "") then draggingId u else None
                   | None => draggingId u end).
Proof.
  intros Hne. revert u. induction n as [|n IH]; intros u Hmv Hup; cbv zeta.
  { split_and!; auto. }
  rewrite Nat.iter_succ_r. cbv beta.
  destruct (release_fields mv up u cx cy hit) as (Hl & Hr & Hd).
  assert (Hc : forall l, l = mv \/ l = up -> count l (listeners (release mv up u cx cy hit)) = n).
  { intros l Hlu. rewrite Hl, !count_remove1. destruct Hlu; subst; repeat case_bool_decide; try congruence; lia. }
  destruct (IH (release mv up u cx cy hit)) as (H1 & H2 & H3 & H4 & H5); [by apply Hc; left | by apply Hc; right |].
  split_and!; [done | done | | |].
  - intros l Hl1 Hl2. rewrite H3, Hl by done. rewrite !count_remove1. by repeat case_bool_decide.
  - by rewrite H4, Hr.
  - right. destruct H5 as [[_ H5]|H5]; rewrite H5; [done|]. rewrite Hr, Hd.
    destruct (draggingIdRef u) as [mid|]; [|done]. by case_bool_decide.
Qed.

Lemma dispatch_move l u cx cy hit :
  let u' := dispatch l (fun u => moveDrag u cx cy hit) u in
  listeners u' = listeners u /\ draggingId u' = draggingId u.
Proof.
  unfold dispatch. generalize (count l (listeners u)). intros n. cbv zeta.
  induction n as [|n IH]; [done|]. rewrite Nat.iter_succ. cbn [moveDrag listeners draggingId]. done.
Qed.

Lemma pressUnit_inv mv up u e cx cy left top :
  gesture_inv u -> id e <> "" ->
  ((mv = MouseMoveL /\ up = MouseUpL) \/ (mv = TouchMoveL /\ up = TouchEndL)) ->
  gesture_inv (commit (pressUnit mv up u e cx cy left top)).
Proof.
  intros [Hm Ht Hr Hi Hh] Hid Hk. unfold pressUnit.
  destruct (decide _); [by split|]. destruct (decide _); [split; cbn [commit set_ui_st draggingId listeners draggingIdRef]; auto|].
  destruct Hk as [[-> ->]|[-> ->]]; split; cbn [commit listeners draggingId draggingIdRef set_listeners startDrag];
    rewrite ?count_app, ?count_pair; repeat case_bool_decide; try congruence; try lia;
    intros _; by destruct (listeners u).
Qed.

Lemma release_step_inv mv up u cx cy hit :
  gesture_inv u -> ((mv = MouseMoveL /\ up = MouseUpL) \/ (mv = TouchMoveL /\ up = TouchEndL)) ->
  gesture_inv (commit (dispatch up (fun u => release mv up u cx cy hit) u)).
Proof.
  intros [Hm Ht Hr Hi Hh] Hk. unfold dispatch.
  assert (Hne : mv <> up) by (destruct Hk as [[-> ->]|[-> ->]]; discriminate).
  destruct (dispatch_release mv up u cx cy hit (count up (listeners u)) Hne)
    as (H1 & H2 & H3 & H4 & H5); [destruct Hk as [[-> ->]|[-> ->]]; done | done |].
  split; cbn [commit listeners draggingId draggingIdRef].
  - destruct Hk as [[-> ->]|[-> ->]]; [by rewrite H1, H2 | by rewrite !H3].
  - destruct Hk as [[-> ->]|[-> ->]]; [by rewrite !H3 | by rewrite H1, H2].
  - done.
  - destruct H5 as [[_ ->] | ->]; [done|]. rewrite Hr. destruct (draggingId u); [|done]. by case_bool_decide.
  - destruct H5 as [[Hn0 ->] | ->].
    + rewrite Hn0. cbn. apply Hh.
    + rewrite Hr. destruct (draggingId u) as [mid|] eqn:E; [|done]. case_bool_decide; [congruence|done].
Qed.

Lemma gesture_step_inv u u' : gesture_inv u -> gesture_step u u' -> gesture_inv u'.
Proof.
  intros Hinv Hst. destruct Hst.
  - by apply pressUnit_inv; [..|left].
  - by apply pressUnit_inv; [..|right].
  - destruct Hinv as [Hm Ht Hr Hi Hh]. destruct (dispatch_move MouseMoveL u cx cy hit) as [Hl Hd].
    split; cbn [commit listeners draggingId draggingIdRef]; rewrite ?Hl, ?Hd; auto.
  - destruct Hinv as [Hm Ht Hr Hi Hh]. destruct (dispatch_move TouchMoveL u cx cy hit) as [Hl Hd].
    split; cbn [commit listeners draggingId draggingIdRef]; rewrite ?Hl, ?Hd; auto.
  - apply release_step_inv; auto.
  - apply release_step_inv; auto.
  - destruct Hinv. by split.
  - destruct Hinv. by split.
Qed.

End Inv.

(** ** A complete mouse gesture *)

Section Gesture.
Context `{MathSqrt}.

Lemma hit_grid_cell hit : hit_ok hit -> grid_cell (cellOf (getGridFromClientPos hit)).
Proof.
  destruct hit as [t|]; [|done]. intros (x & y & _ & -> & Hc)%getGridFromClientPos_tile. exact Hc.
Qed.

Lemma gesture_inv_idle s : gesture_inv (idleUI s).
Proof. by split. Qed.



End Gesture.

Lemma gesture_reachable_inv `{MathSqrt} u u' : gesture_inv u -> rtc gesture_step u u' -> gesture_inv u'.
Proof. intros Hi Hr. induction Hr; eauto using gesture_step_inv. Qed.

(** ** Properties *)

(** C12: From an idle component, every sequence of presses, moves,
    releases (mouse or touch, with several pointers at once) and fight
    clicks leaves the move and release listeners in pairs, the ref equal
    to [draggingId], no empty id held, and a listener registered while a
    unit is held, so that the unit is always released by some event. *)
Theorem gesture_listeners_balanced `{MathSqrt} s u :
  rtc gesture_step (idleUI s) u ->
  count MouseMoveL (listeners u) = count MouseUpL (listeners u) /\
  count TouchMoveL (listeners u) = count TouchEndL (listeners u) /\
  draggingIdRef u = draggingId u /\ draggingId u <> Some "" /\
  (draggingId u <> None -> listeners u <> []).
Proof.
  intros Hr. destruct (gesture_reachable_inv _ _ (gesture_inv_idle s) Hr) as [? ? ? ? ?]. by split_and!.
Qed.

(** C25: A mouse gesture from the idle component (press on a unit of the
    session, release over a rendered tile or off the grid) is two events
    of [gesture_step] and ends with no listener and nothing held; the
    session it leaves is exactly the one of the [step_drag] step of
    [Economy.prep_step] for the same press, start point and release
    point, on the cell the hit test reads from the tile under the
    pointer, which is a cell of the grid. *)
Theorem mouse_gesture_refines_prep_step `{MathSqrt} s e cx0 cy0 left top cx cy hit :
  e ∈ entities s -> id e <> "" -> hit_ok hit ->
  let u1 := commit (pressUnit MouseMoveL MouseUpL (idleUI s) e cx0 cy0 left top) in
  let u2 := commit (dispatch MouseUpL (fun u => release MouseMoveL MouseUpL u cx cy hit) u1) in
  rtc gesture_step (idleUI s) u2 /\ grid_cell (cellOf (getGridFromClientPos hit)) /\
  ui_st u2 = (let '(s1, d) := handleMouseDown s e in
              finishDrag s1 d cx0 cy0 cx cy (cellOf (getGridFromClientPos hit))) /\
  listeners u2 = [] /\ draggingId u2 = None.
Proof.
  intros He Hid Hhit. cbv zeta. split_and!; [| by apply hit_grid_cell | ..].
  { eapply rtc_l; [by apply g_mousedown|]. eapply rtc_l; [by apply g_mouseup|]. apply rtc_refl. }
  all: unfold pressUnit, handleMouseDown; cbn [ui_st idleUI listeners draggingId commit];
    destruct (decide _); [done|]; destruct (decide _); [done|];
    unfold dispatch; cbn [commit set_listeners startDrag listeners idleUI app];
    rewrite count_pair, bool_decide_eq_false_2, bool_decide_eq_true_2 by done; cbn;
    unfold release, finishDragUI; cbn; by rewrite bool_decide_eq_false_2.
Qed.

(** C35: [finishDrag] does not check the phase, while the specification
    (section 4.3) makes a merge valid only in the preparation phase: an
    archer pressed during the preparation, held while the fight button
    starts the battle, and released 100 pixels away over the other archer
    at (1, 7) is merged into it during the battle.  The merge is made
    on the React state only: the ref that the battle frames read was last
    synced in the preparation phase, so the next frame puts both archers
    back while the merge counter keeps its 1 (the roster has no enemy,
    so that frame also ends the battle). *)
Example merge_during_battle :
  let u1 := commit (pressUnit MouseMoveL MouseUpL (idleUI archers_state) archer1 0 0 0 0) in
  let u2 := commit (set_ui_st u1 (startBattle (ui_st u1) 5)) in
  let u3 := commit (dispatch MouseUpL
              (fun u => release MouseMoveL MouseUpL u 100 0 (Some (mkTile (Some "1") (Some "7")))) u2) in
  let u4 := commit (frameUI u3 6) in
  rtc gesture_step (idleUI archers_state) u3 /\ phase (ui_st u3) = BATTLE /\
  merges (gameStats (ui_st u3)) = 1%Z /\ length (entities (ui_st u3)) = 1%nat /\
  rtc gesture_step u3 u4 /\ length (entities (ui_st u4)) = 2%nat /\ merges (gameStats (ui_st u4)) = 1%Z.
Proof.
  intros u1 u2 u3 u4. split_and!; [| vm_compute; reflexivity | vm_compute; reflexivity | vm_compute; reflexivity
    | | vm_compute; reflexivity | vm_compute; reflexivity].
  - apply (rtc_l _ _ u1); [apply g_mousedown; [by apply list_elem_of_In; left | done]|].
    apply (rtc_l _ _ u2); [apply g_fight; vm_compute; reflexivity|].
    apply (rtc_l _ _ u3); [|apply rtc_refl].
    apply g_mouseup. cbn [hit_ok]. apply (bool_decide_unpack _). vm_compute. reflexivity.
  - apply rtc_once, g_frame. vm_compute. reflexivity.
Qed.

Lemma gesture_listeners_balanced_witness :
  let u := commit (pressUnit MouseMoveL MouseUpL (idleUI archers_state) archer1 0 0 0 0) in
  rtc gesture_step (idleUI archers_state) u /\ listeners u = [MouseMoveL; MouseUpL] /\
  count MouseMoveL (listeners u) = count MouseUpL (listeners u).
Proof.
  intros u. assert (Hr : rtc gesture_step (idleUI archers_state) u).
  { apply rtc_once, g_mousedown; [by apply list_elem_of_In; left | done]. }
  split_and!; [exact Hr | vm_compute; reflexivity | exact (proj1 (gesture_listeners_balanced archers_state u Hr))].
Defined.

Lemma mouse_gesture_refines_prep_step_witness :
  let hit := Some (mkTile (Some "1") (Some "7")) in
  archer1 ∈ entities archers_state /\ id archer1 <> "" /\ hit_ok hit /\
  ui_st (commit (dispatch MouseUpL (fun u => release MouseMoveL MouseUpL u 100 0 hit)
    (commit (pressUnit MouseMoveL MouseUpL (idleUI archers_state) archer1 0 0 0 0)))) =
  finishDrag archers_state (Some "a1") 0 0 100 0 (Some (1, 7)%Z).
Proof.
  intros hit. assert (He : archer1 ∈ entities archers_state) by (apply list_elem_of_In; left; done).
  assert (Hid : id archer1 <> "") by done.
  assert (Hhit : hit_ok hit) by (apply (bool_decide_unpack _); vm_compute; reflexivity).
  split_and!; [exact He | exact Hid | exact Hhit |].
  exact (proj1 (proj2 (proj2 (mouse_gesture_refines_prep_step archers_state archer1 0 0 0 0 100 0 hit He Hid Hhit)))).
Defined.
