(* ===== verification/Health.v ===== *)
(** * Health: the health bar of src/components/Unit.tsx over every reachable state

    [Unit] draws a unit's health bar with the width
    [Math.max(0, hpPercent)%], where [hpPercent = hp / maxHp * 100].  The
    bar is a percentage only when [maxHp] is positive and [hp] does not
    exceed it.  [hp_ok] is that condition (with the level at least 1 that
    the stat model needs to keep [maxHp] positive), and [health_inv]
    states it for the roster and for the player units carried by every
    pending [loadLevel] call, together with the session conditions of the
    stat model.  Every event of [Progression.app_step] keeps it: the stat
    refreshes and creations give full health, the artifact purchase heals
    by the increase of the maximum, and a battle frame never raises hp
    nor changes the maximum.  So in every reachable state the bar of
    every unit has a width between 0 and 100. *)

From S2P Require Import Prelude Types Constants Stats Session Placement Economy LevelGen Combat Progression.
From stdpp Require Import relations.
Local Open Scope Z_scope.

(** [const hpPercent = (entity.hp / entity.maxHp) * 100] (line 34). *)
Definition hpPercent (e : Entity) : Q := (inject_Z (hp e) / inject_Z (maxHp e) * 100)%Q.

(** [width: `${Math.max(0, hpPercent)}%`] (line 108). *)
Definition hpBarWidth (e : Entity) : Q := Qmax 0 (hpPercent e).

(** A unit whose bar is a percentage. *)
Definition hp_ok (e : Entity) : Prop := 0 < maxHp e /\ hp e <= maxHp e /\ 1 <= level e.

Definition roster_ok (l : list Entity) : Prop := forall e, e ∈ l -> hp_ok e.

(** The invariant of every reachable state of the component. *)
Record health_inv (a : App) : Prop := {
  hi_session : session_ok (st a);
  hi_units : roster_ok (entities (st a));
  hi_pending : forall pl, pl ∈ pending a -> 0 <= pl_level pl /\ roster_ok (pl_units pl)
}.

(** The fields of the session that [session_ok] reads. *)
Definition session_fields (s : GameState) : (UnitType -> Z) * (GlobalTechType -> Z) * ArtifactLevels :=
  (techLevels s, globalTech s, artifactLevels s).

(** The first level of a NORMAL run, loaded with the draws [rng_demo]:
    the pending load of [startGame] and the state after it completes. *)
Definition pl_start : PendingLoad := mkPendingLoad [] 1 NORMAL.
Definition app_loaded : App :=
  loadLevel_finish (persistEffect (initApp None 0) (startGame (initApp None 0) NORMAL)) 0
    (Some (fst (generateLevel (pl_level pl_start) (pl_diff pl_start) rng_demo 0%nat))) enemy_ids.

(** ** Units *)

Section Units.

Lemma session_ok_fields s s' : session_fields s' = session_fields s -> session_ok s -> session_ok s'.
Proof. unfold session_fields, session_ok. intros [= -> -> ->]. done. Qed.

Lemma hp_ok_createEntity i t l sd gx gy T A :
  1 <= l -> 1 <= T -> 0 <= A ANCIENT_SHIELD -> hp_ok (createEntity i t l sd gx gy T A).
Proof.
  intros Hl HT HA. pose proof (hp_stat_ge80 t l T A Hl HT HA).
  unfold hp_ok, createEntity. cbn [maxHp hp level]. lia.
Qed.

Lemma hp_ok_full e m : 1 <= level e -> 80 <= m -> hp_ok (set_maxHp_hp e m m).
Proof. unfold hp_ok. cbn [maxHp hp level set_maxHp_hp]. lia. Qed.

(** The heal-on-upgrade of [handleBuyArtifact]. *)
Lemma hp_ok_heal e m : hp_ok e -> 80 <= m -> hp_ok (set_maxHp_hp e m (hp e + (m - maxHp e))).
Proof. unfold hp_ok. cbn [maxHp hp level set_maxHp_hp]. lia. Qed.

Lemma hp_ok_set_cell e gx gy : hp_ok e -> hp_ok (set_cell e gx gy).
Proof. done. Qed.

Lemma roster_ok_app l1 l2 : roster_ok l1 -> roster_ok l2 -> roster_ok (l1 ++ l2).
Proof. intros H1 H2 e [He|He]%elem_of_app; auto. Qed.

Lemma roster_ok_singleton e : hp_ok e -> roster_ok [e].
Proof. intros He x ->%list_elem_of_singleton. done. Qed.

Lemma roster_ok_filter (P : Entity -> Prop) `{forall e, Decision (P e)} l :
  roster_ok l -> roster_ok (filter P l).
Proof. intros Hl e [_ He]%list_elem_of_filter. auto. Qed.

Lemma roster_ok_fmap (f : Entity -> Entity) l :
  (forall e, e ∈ l -> hp_ok e -> hp_ok (f e)) -> roster_ok l -> roster_ok (f <$> l).
Proof. intros Hf Hl x (e & -> & He)%list_elem_of_fmap. auto. Qed.

(** A stat refresh at a tech level of at least 1 gives full health. *)
Lemma roster_ok_refresh s p T l :
  session_ok s -> (forall e, 1 <= T e) ->
  roster_ok l ->
  roster_ok (refreshUnits p (fun ent => getUnitStats (type ent) (level ent) (T ent) (artifactLevels s)) l).
Proof.
  intros (_ & _ & Ha) HT. apply roster_ok_fmap. intros e _ He. destruct (p e); [|done].
  apply hp_ok_full; [apply He | apply hp_stat_ge80; [apply He | apply HT | apply Ha]].
Qed.

Lemma hp_ok_prepareUnit s e : session_ok s -> hp_ok e -> hp_ok (prepareUnit s e).
Proof.
  intros Hs He. pose proof Hs as (_ & _ & Ha).
  pose proof (hp_stat_ge80 (type e) (level e) (getPlayerTechLevel s (type e)) (artifactLevels s)
                (proj2 (proj2 He)) (getPlayerTechLevel_ge1 s _ Hs) (Ha _)).
  unfold hp_ok, prepareUnit. cbn [maxHp hp level]. destruct He as (_ & _ & ?). lia.
Qed.

End Units.

(** ** The preparation phase *)

Section Prep.
Context `{MathSqrt}.

Local Ltac same_session s := apply (session_ok_fields s); [reflexivity | assumption].
Local Ltac new_unit s Ha :=
  apply roster_ok_singleton, hp_ok_createEntity;
  [lia | apply getPlayerTechLevel_ge1; same_session s | apply Ha].

Lemma session_bump {K} `{EqDecision K} (f : K -> Z) k b :
  (forall x, b <= f x) -> forall x, b <= f⟨k ↦ f k + 1⟩ x.
Proof. intros Hf x. unfold fupd. case_decide; [specialize (Hf k); lia | apply Hf]. Qed.

Lemma drag_health s e sx sy cx cy tp :
  session_ok s -> roster_ok (entities s) ->
  let s' := let '(s1, d) := handleMouseDown s e in finishDrag s1 d sx sy cx cy tp in
  session_ok s' /\ roster_ok (entities s').
Proof.
  intros Hs Hr. cbv zeta. destruct (handleMouseDown s e) as [s1 d] eqn:E.
  assert (entities s1 = entities s /\ session_fields s1 = session_fields s) as [He1 Hf1]
    by (unfold handleMouseDown in E; repeat case_decide; simplify_eq; done).
  assert (Hs1 : session_ok s1) by (by apply (session_ok_fields s)).
  destruct (finishDrag_shape s1 d sx sy cx cy tp) as [-> | [(u & -> & _) | (mid & gx & gy & _ & _ & _ & ->)]];
    [by rewrite He1 | by split; [same_session s1 | cbn; rewrite He1] |].
  pose proof Hs1 as (_ & _ & Ha).
  assert (Hr' : roster_ok (fst (placementUpdater s1 mid gx gy (entities s1)))).
  { intros x. apply placementUpdater_forall; [by rewrite He1 | intros e' ? ? He'; apply hp_ok_set_cell, Hr; by rewrite <-He1 |].
    intros tg Htg. rewrite He1 in Htg. destruct (Hr tg Htg) as (_ & _ & Hl).
    pose proof (hp_stat_ge80 (type tg) (level tg + 1) (getPlayerTechLevel s1 (type tg)) (artifactLevels s1)
                  ltac:(lia) (getPlayerTechLevel_ge1 s1 _ Hs1) (Ha _)).
    unfold hp_ok. cbn [maxHp hp level set_level_hp]. lia. }
  cbv zeta. destruct (snd _); (split; [same_session s1 | exact Hr']).
Qed.

Lemma prep_step_health s s' :
  session_ok s -> roster_ok (entities s) -> prep_step s s' -> session_ok s' /\ roster_ok (entities s').
Proof.
  intros Hs Hr Hst. pose proof Hs as (Ht & Hg & Ha). destruct Hst.
  - unfold handleBuyUnit. destruct (_ <=? _); [done|]. destruct (_ <=? coins s); [|done].
    destruct (availableSpots _) as [|[sx sy] ?]; [done|].
    destruct bt; (split; [same_session s | apply roster_ok_app; [done | new_unit s Ha]]).
  - unfold handleSynthesize. destruct (_ <? _); [done|].
    repeat case_match; try done; (split; [same_session s|]); cbn [entities set_entities set_coins];
      first [done | apply roster_ok_app; [by apply roster_ok_filter | new_unit s Ha]].
  - unfold applyTechUpgrade. destruct (_ <=? coins s); [|done].
    assert (Hs' : session_ok (set_techLevels (set_coins s (coins s - (TECH_COST_BASE + (techLevels s t - 1) * TECH_COST_INCREASE)))
                    ((techLevels s)⟨t ↦ techLevels s t + 1⟩))) by (repeat split; [apply session_bump, Ht | apply Hg | apply Ha]).
    split; [exact Hs'|]. apply (roster_ok_refresh _ _ (fun _ => _) _ Hs'); [|done].
    intros _. specialize (Ht t). cbn. lia.
  - unfold applyGlobalUpgrade. destruct (_ <=? globalTech s g); [done|]. destruct (_ <=? coins s); [|done].
    cbv zeta. set (s2 := set_globalTech _ _).
    assert (Hs' : session_ok s2) by (repeat split; [apply Ht | apply session_bump, Hg | apply Ha]).
    case_bool_decide; (split; [same_session s2|]); [|done].
    apply (roster_ok_refresh _ _ (fun _ => _) _ Hs'); [|done]. intros _. specialize (Hg g). cbn. lia.
  - unfold handleBuyArtifact. destruct (_ <=? coins s); [|done]. cbv zeta.
    set (s2 := set_artifactLevels _ _).
    assert (Hs' : session_ok s2) by (split; [apply Ht | split; [apply Hg | apply session_bump, Ha]]).
    split; [same_session s2|].
    cbn [entities set_artifactCost set_entities]. apply roster_ok_fmap; [|done].
    intros e He Hok. case_decide; [|done]. apply hp_ok_heal; [done|].
    apply hp_stat_ge80; [apply Hok | by apply getPlayerTechLevel_ge1 | apply Hs'].
  - unfold handleSellUnit. destruct (selectedUnit s); [|done]. case_decide; [done|].
    split; [same_session s | by apply roster_ok_filter].
  - unfold claimAchievement. case_bool_decide; [done|]. split; [same_session s | done].
  - split; [same_session s | done].
  - unfold supplyTimerTick. case_match; [|done]. split; [same_session s | done].
  - by apply drag_health.
Qed.

End Prep.

(** ** Every event of the component *)

Section Events.
Context `{MathSqrt}.

Lemma hpBarWidth_range e : hp_ok e -> (0 <= hpBarWidth e <= 100)%Q.
Proof.
  intros (Hm & Hh & _). unfold hpBarWidth, hpPercent. split; [apply Q.le_max_l|].
  apply Q.max_lub; [discriminate|].
  assert (inject_Z (hp e) / inject_Z (maxHp e) <= 1)%Q.
  { apply Qle_shift_div_r; [unfold Qlt; cbn; lia | rewrite Qmult_1_l, <-Zle_Qle; lia]. }
  rewrite <-(Qmult_1_l 100) at 2. apply Qmult_le_compat_r; [done | discriminate].
Qed.

Lemma battleTick_session_fields s ts : session_fields (fst (battleTick s ts)) = session_fields s.
Proof. unfold battleTick, session_fields. repeat case_match; reflexivity. Qed.

(** A battle frame keeps every maximum and level and never raises hp. *)
Lemma battleTick_roster_ok s ts :
  phase s = BATTLE -> session_ok s -> roster_ok (entities s) -> roster_ok (entities (fst (battleTick s ts))).
Proof.
  intros Hph Hs Hr e' He'.
  destruct (evolves_swept_ticks _ _ (battleTick_evolves_swept s ts Hph Hs)) as [Hlen Hev].
  apply list_elem_of_lookup in He' as [k Hk'].
  destruct (lookup_lt_is_Some_2 (entities s) k) as [e Hk]; [rewrite <-Hlen; by eapply lookup_lt_Some|].
  destruct (Hev k e Hk) as (e'' & Hk'' & (_ & _ & _ & Hl & _ & _ & Hm) & Hhp & _). simplify_eq.
  destruct (Hr e (list_elem_of_lookup_2 _ _ _ Hk)) as (? & ? & ?). unfold hp_ok. lia.
Qed.

Lemma health_inv_persist b a : health_inv a -> health_inv (persistEffect b a).
Proof. intros [Hs Hr Hp]. unfold persistEffect. by case_decide; split. Qed.

(** A state with the session and roster of [s] and the pending loads of [a]. *)
Lemma health_inv_set_st a s : health_inv a -> session_ok s -> roster_ok (entities s) -> health_inv (set_st a s).
Proof. intros [_ _ Hp] Hs Hr. by split. Qed.

Local Ltac reset_health :=
  split; [repeat split; intros; cbn; unfold noArtifacts; lia | intros e He; by apply elem_of_nil in He].

Lemma resetRunData_health s : session_ok (resetRunData s) /\ roster_ok (entities (resetRunData s)).
Proof. reset_health. Qed.

Lemma reset_phase_health s p :
  session_ok (set_phase (resetRunData s) p) /\ roster_ok (entities (set_phase (resetRunData s) p)).
Proof. reset_health. Qed.

Lemma loadLevel_start_health a lvl d : health_inv a -> 0 <= lvl -> health_inv (loadLevel_start a lvl d).
Proof.
  intros [Hs Hr Hp] Hl. split; [exact Hs | exact Hr |].
  intros pl [Hpl | ->%list_elem_of_singleton]%elem_of_app; [by apply Hp|]. split; [done|].
  apply roster_ok_fmap; [intros e _; by apply hp_ok_prepareUnit | by apply roster_ok_filter].
Qed.

Lemma loadLevel_finish_health a i pl cfg ids :
  health_inv a -> pending a !! i = Some pl ->
  (forall e, e ∈ enemies cfg -> es_level e = enemyLevelOf (pl_level pl) (pl_diff pl)) ->
  health_inv (loadLevel_finish a i (Some cfg) ids).
Proof.
  intros [Hs Hr Hp] Hi Hen. pose proof (Hp pl (list_elem_of_lookup_2 _ _ _ Hi)) as [Hl Hu].
  unfold loadLevel_finish. rewrite Hi. split; [exact Hs | |].
  - apply roster_ok_app; [exact Hu|]. intros x (k & e & Hk & ->)%enemyUnits_elem.
    apply hp_ok_createEntity; [rewrite Hen by (by eapply list_elem_of_lookup_2); by apply enemyLevelOf_ge1
                              | apply enemyTechLevel_ge1 | unfold noArtifacts; lia].
  - intros pl' Hpl'. by apply Hp, (elem_of_delete_inv _ i).
Qed.

Lemma generated_levels lvl d rng n :
  (forall m, (0 <= rng m < 1)%Q) ->
  forall e, e ∈ enemies (fst (generateLevel lvl d rng n)) -> es_level e = enemyLevelOf lvl d.
Proof.
  intros Hrng. pose proof (spawnLoop_init rng Hrng lvl d (Z.to_nat (enemyCount lvl d)) n) as Hsp.
  rewrite generateLevel_eq. destruct (spawnLoop _ _ _ _ _ rng n) as [es n'].
  intros e He. apply Hsp, He.
Qed.

Lemma app_step_health a a' : prog_inv a -> health_inv a -> app_step a a' -> health_inv a'.
Proof.
  intros [_ Hl] Hinv Hst. pose proof Hinv as [Hs Hr Hp].
  destruct Hst as [a d | a now | a ts Hph | a s' _ Hps | a | a | a | a i pl rng n ids Hi Hrng | a ok | a ok].
  - apply health_inv_persist, loadLevel_start_health; [|lia].
    apply health_inv_set_st; [done | apply resetRunData_health | apply resetRunData_health].
  - by apply health_inv_set_st.
  - apply health_inv_set_st; [done | apply (session_ok_fields (st a)), Hs; apply battleTick_session_fields |].
    by apply battleTick_roster_ok.
  - destruct (prep_step_health _ _ Hs Hr Hps). by apply health_inv_set_st.
  - apply health_inv_persist. unfold nextLevel. destruct (_ <=? _).
    + repeat case_match; by apply health_inv_set_st.
    + apply loadLevel_start_health; [by apply health_inv_set_st | cbn; lia].
  - apply loadLevel_start_health; [done | lia].
  - by apply health_inv_set_st.
  - apply (loadLevel_finish_health _ _ pl); [done | done | by apply generated_levels].
  - unfold handleModeReset. destruct ok; [|done]. apply loadLevel_start_health; [|lia].
    apply health_inv_set_st; [done | apply reset_phase_health | apply reset_phase_health].
  - apply health_inv_persist. unfold handleFullReset. destruct ok; [|done].
    apply health_inv_set_st; [done | apply reset_phase_health | apply reset_phase_health].
Qed.

Lemma initApp_health saved now : health_inv (initApp saved now).
Proof.
  split; [apply initialGameState_ok | intros e He; by apply elem_of_nil in He
         | intros pl Hpl; by apply elem_of_nil in Hpl].
Qed.

Lemma health_reachable saved now a : rtc app_step (initApp saved now) a -> health_inv a.
Proof.
  intros Hr. remember (initApp saved now) as a0 eqn:E.
  assert (prog_inv a0 /\ health_inv a0) as Hi by (subst; split; [apply initApp_prog_inv | apply initApp_health]).
  clear E. induction Hr as [|x y z Hxy _ IH]; [apply Hi|].
  apply IH. destruct Hi as [Hp Hh]. split; [by apply (app_step_prog_inv x) | by apply (app_step_health x)].
Qed.

End Events.

(** C9: in every state the component reaches from its first render, by
    any interleaving of its events, every unit of the roster has a
    positive maximum and a health bar whose width lies between 0 and
    100 percent: hp never exceeds the maximum (heal-on-upgrade included)
    and the maximum is never zero. *)
Theorem health_bar_in_range `{MathSqrt} saved now a :
  rtc app_step (initApp saved now) a ->
  forall e, e ∈ entities (st a) -> (0 < maxHp e)%Z /\ (0 <= hpBarWidth e <= 100)%Q.
Proof.
  intros Hr e He. destruct (health_reachable saved now a Hr) as [_ Hu _].
  split; [apply (Hu e He) | apply hpBarWidth_range, Hu, He].
Qed.

(** ** Witnesses *)

Section Witnesses.

Lemma health_bar_in_range_witness :
  rtc app_step (initApp None 0) app_loaded /\ entities (st app_loaded) <> [] /\
  forall e, e ∈ entities (st app_loaded) -> (0 < maxHp e)%Z /\ (0 <= hpBarWidth e <= 100)%Q.
Proof.
  assert (Hr : rtc app_step (initApp None 0) app_loaded).
  { eapply rtc_l; [apply (ev_select _ NORMAL); [reflexivity | vm_compute; intros Hn; discriminate Hn]|].
    apply rtc_once, (ev_loaded _ 0 pl_start rng_demo 0%nat enemy_ids); [reflexivity | apply rng_demo_range]. }
  split_and!; [exact Hr | vm_compute; intros Hn; discriminate Hn | apply (health_bar_in_range None 0 _ Hr)].
Defined.

End Witnesses.
