(* ===== verification/Screens.v ===== *)
(** * Screens: the screens and the bottom bar of src/App.tsx

    Outside the modals the render tree of [App] has four screens: the
    difficulty screen (lines 995-1055, one button per difficulty, enabled
    when the difficulty is unlocked), the game-clear screen (lines
    1058-1090, its button back to the difficulty screen), and the main
    screen with the victory and defeat overlays (lines 1793-1819, the
    next-level and retry buttons), the unit layer (lines 1826-1841), the
    drag preview (lines 1846-1855) and, in the preparation phase, the
    bottom bar (lines 1858-1910: the store card with its unit count, the
    cap indicator, the fight button and the research card with its
    badge).  [ScreenButton] names the buttons, [screenRendered] and
    [screenDisabled] are their render-time guards and [screenClick] the
    handler each [onClick] calls, as the component's event on [App].

    The theorems: a click on a difficulty button does nothing on a
    locked difficulty and otherwise starts a run whose effect is stated
    field by field, the screen staying up with the button enabled until
    the load completes; while a unit is dragged every unit of a roster
    with distinct ids is drawn exactly once; and in every reachable
    state the research badge is lit
    exactly when the coins reach [TECH_COST_BASE], whatever the research
    rows cost, because [hasUpgradable] also ranges over the mythic types
    that the research list leaves out (a finding). *)

From S2P Require Import Prelude Types Constants Stats Session Placement Economy LevelGen Combat Progression Panels Health.
From stdpp Require Import relations.
Local Open Scope Z_scope.

(** ** The screens *)

(** [getDifficultyRank(diff) <= getDifficultyRank(maxUnlockedDifficulty)]
    (line 1013). *)
Definition isUnlocked (s : GameState) (d : Difficulty) : bool :=
  getDifficultyRank d <=? getDifficultyRank (maxUnlockedDifficulty s).

Inductive ScreenButton :=
  | BtnDifficulty (d : Difficulty)   (* lines 1016-1048 *)
  | BtnTitle                         (* 1079-1084 *)
  | BtnNext                          (* 1799-1804 *)
  | BtnRetry                         (* 1810-1815 *)
  | BtnFight.                        (* 1881-1896 *)

(** The screen a phase renders: the two early returns (lines 995 and
    1058), the overlay of the main screen for VICTORY and DEFEAT (line
    1793) and the bottom bar of the preparation phase (line 1861). *)
Definition screenRendered (s : GameState) (b : ScreenButton) : bool :=
  match b with
  | BtnDifficulty _ => bool_decide (phase s = DIFFICULTY_SELECT)
  | BtnTitle => bool_decide (phase s = GAME_CLEAR)
  | BtnNext => bool_decide (phase s = VICTORY)
  | BtnRetry => bool_decide (phase s = DEFEAT)
  | BtnFight => bool_decide (phase s = PREPARATION)
  end.

(** [disabled={!isUnlocked}]; the other buttons have no attribute. *)
Definition screenDisabled (s : GameState) (b : ScreenButton) : bool :=
  match b with
  | BtnDifficulty d => negb (isUnlocked s d)
  | _ => false
  end.

(** The [onClick] handlers, with the effects that follow the event: the
    stored key ([persistEffect]) after a difficulty or next-level click,
    and the battle effect (lines 685-691, [lastTimeRef.current =
    performance.now()] at the time [now]) after the fight button's
    [setPhase(BATTLE)]. *)
Definition screenClick (a : App) (now : Q) (b : ScreenButton) : App :=
  match b with
  | BtnDifficulty d => if isUnlocked (st a) d then persistEffect a (startGame a d) else a
  | BtnTitle => set_st a (set_phase (st a) DIFFICULTY_SELECT)
  | BtnNext => persistEffect a (nextLevel a)
  | BtnRetry => retryLevel a
  | BtnFight => set_st a (startBattle (st a) now)
  end.

(** ** The bottom bar and the unit layer *)

(** [entities.filter(e => e.side === Side.PLAYER).length]: the store
    card's badge and the left half of the cap indicator. *)
Definition unitCountShown (s : GameState) : Z := playerCount (entities s).

(** The cap indicator [{count} / {maxUnitCap}] (lines 1872-1874). *)
Definition capIndicator (s : GameState) : Z * Z := (unitCountShown s, maxUnitCap s).

(** The research card's badge (lines 1902-1905):
    [Object.values(UnitType).some(t => coins >= TECH_COST_BASE +
    (techLevels[t] - 1) * TECH_COST_INCREASE)]. *)
Definition hasUpgradable (s : GameState) : bool :=
  existsb (fun t => TECH_COST_BASE + (techLevels s t - 1) * TECH_COST_INCREASE <=? coins s) allUnitTypes.

(** The unit layer (lines 1826-1841): every entity but the one being
    dragged, at [left = x / GRID_COLS * 100] and [top = y / GRID_ROWS *
    100] percent, with its health bar shown only in the battle phase. *)
Definition unitLayer (es : list Entity) (draggingId : option string) : list Entity :=
  filter (fun e => Some (id e) <> draggingId) es.

Definition unitPosition (e : Entity) : Q * Q :=
  ((x e / inject_Z GRID_COLS * 100)%Q, (y e / inject_Z GRID_ROWS * 100)%Q).

Definition showHealth (s : GameState) : bool := bool_decide (phase s = BATTLE).

(** The drag preview (lines 1846-1855): drawn when [draggingId] and
    [dragPos] are set and [entities.find(e => e.id === draggingId)]
    finds the unit. *)
Definition dragPreview (es : list Entity) (draggingId : option string) (dragPos : option (Q * Q))
    : option Entity :=
  match draggingId, dragPos with
  | Some did, Some _ => if bool_decide (did = "") then None else List.find (hasId did) es
  | _, _ => None
  end.

(** ** The mythic research levels *)

(** The research list leaves the mythic types out, so their levels keep
    their initial value 1. *)
Definition mythic_base (s : GameState) : Prop :=
  forall t, tier (UNIT_BASE_STATS t) = MYTHIC -> techLevels s t = 1.

(** A research row of every listed type costs more than 100 coins once
    the type has been researched. *)
Definition researched_state : GameState :=
  set_coins (set_techLevels (initialGameState NORMAL 0)
    (fun t => if bool_decide (tier (UNIT_BASE_STATS t) = MYTHIC) then 1 else 2)) 100.

Local Ltac tech_frame := repeat case_match; reflexivity.

Section Mythic.
Context `{MathSqrt}.

Lemma finishDrag_techLevels s d sx sy cx cy tp : techLevels (finishDrag s d sx sy cx cy tp) = techLevels s.
Proof.
  destruct (finishDrag_shape s d sx sy cx cy tp) as [-> | [(u & -> & _) | (mid & gx & gy & _ & _ & _ & ->)]];
    [done | done |]. cbv zeta. by destruct (snd _).
Qed.

Lemma prep_step_mythic s s' : prep_step s s' -> mythic_base s -> mythic_base s'.
Proof.
  intros Hst Hm t Ht. rewrite <- (Hm t Ht). destruct Hst.
  - unfold handleBuyUnit. tech_frame.
  - unfold handleSynthesize. tech_frame.
  - unfold applyTechUpgrade. case_match; [|done]. cbn. apply fupd_neq. congruence.
  - unfold applyGlobalUpgrade. tech_frame.
  - unfold handleBuyArtifact. tech_frame.
  - unfold handleSellUnit. tech_frame.
  - unfold claimAchievement. tech_frame.
  - unfold claimSupply. tech_frame.
  - unfold supplyTimerTick. tech_frame.
  - destruct (handleMouseDown s e) as [s1 d] eqn:E. rewrite finishDrag_techLevels.
    unfold handleMouseDown in E. repeat case_decide; simplify_eq; done.
Qed.

Lemma loadLevel_start_techLevels a lvl d : techLevels (st (loadLevel_start a lvl d)) = techLevels (st a).
Proof. done. Qed.

Lemma persistEffect_st_techLevels b a : techLevels (st (persistEffect b a)) = techLevels (st a).
Proof. unfold persistEffect. by case_decide. Qed.

Lemma app_step_mythic a a' : app_step a a' -> mythic_base (st a) -> mythic_base (st a').
Proof.
  intros Hst Hm. destruct Hst as [a d | a now | a ts Hph | a s' _ Hps | a | a | a | a i pl rng n ids Hi Hrng | a ok | a ok].
  - intros t _. by rewrite persistEffect_st_techLevels.
  - intros t Ht. apply (Hm t Ht).
  - intros t Ht. rewrite <- (Hm t Ht). cbn [st set_st]. unfold battleTick. tech_frame.
  - by apply (prep_step_mythic (st a)).
  - intros t Ht. rewrite persistEffect_st_techLevels, <- (Hm t Ht). unfold nextLevel. tech_frame.
  - apply Hm.
  - apply Hm.
  - intros t Ht. rewrite <- (Hm t Ht). unfold loadLevel_finish. tech_frame.
  - unfold handleModeReset. destruct ok; [|apply Hm]. intros t _. done.
  - intros t Ht. rewrite persistEffect_st_techLevels. unfold handleFullReset. destruct ok; [reflexivity | by apply Hm].
Qed.

End Mythic.

(** ** The research badge *)

Lemma mythic_reachable `{MathSqrt} saved now a : rtc app_step (initApp saved now) a -> mythic_base (st a).
Proof.
  intros Hr. remember (initApp saved now) as a0 eqn:E.
  assert (Hi : mythic_base (st a0)) by (subst; intros t _; reflexivity).
  clear E. induction Hr as [|x y z Hxy _ IH]; [exact Hi|]. by apply IH, (app_step_mythic x).
Qed.

(** With every research level at least 1 and the mythic ones at 1, the
    cheapest term of the badge's [some] is a mythic type at
    [TECH_COST_BASE]. *)
Lemma hasUpgradable_base s :
  session_ok s -> mythic_base s -> hasUpgradable s = (TECH_COST_BASE <=? coins s).
Proof.
  intros (Ht & _ & _) Hm. unfold hasUpgradable. apply Bool.eq_iff_eq_true.
  rewrite existsb_exists, Z.leb_le. split.
  - intros (t & _ & Hc%Z.leb_le). specialize (Ht t). unfold TECH_COST_BASE, TECH_COST_INCREASE in *. lia.
  - intros Hc. exists PALADIN. split; [cbn; tauto|]. rewrite (Hm PALADIN) by reflexivity.
    apply Z.leb_le. lia.
Qed.

Example research_badge_without_row :
  hasUpgradable researched_state = true /\
  forallb (fun t => negb (clickable researched_state (BtnTech t))) allUnitTypes = true.
Proof. split; vm_compute; reflexivity. Qed.

(** ** The screen buttons *)

Section Clicks.
Context `{MathSqrt}.

Lemma isUnlocked_spec s d :
  isUnlocked s d = true <-> getDifficultyRank d <= getDifficultyRank (maxUnlockedDifficulty s).
Proof. apply Z.leb_le. Qed.

(** With distinct ids the unit found by [find] is the unit of that id. *)
Lemma find_hasId_unique es e :
  NoDup (id <$> es) -> e ∈ es -> List.find (hasId (id e)) es = Some e.
Proof.
  intros Hnd He. destruct (List.find (hasId (id e)) es) as [x|] eqn:E.
  - apply List.find_some in E as [Hx Hid%bool_decide_eq_true_1]. apply list_elem_of_In in Hx.
    apply list_elem_of_lookup_1 in Hx as [j Hj]. apply list_elem_of_lookup_1 in He as [j' Hj'].
    rewrite (NoDup_id_inj es j j' x e Hnd Hj Hj' Hid) in Hj. congruence.
  - apply list_elem_of_In in He. eapply List.find_none in E; [|exact He].
    unfold hasId in E. by rewrite bool_decide_eq_true_2 in E.
Qed.

End Clicks.

(** ** Properties *)

(** C26: A click on the button of difficulty [d] on the difficulty
    screen does nothing when [d] ranks above the unlocked difficulty.
    Otherwise it starts a run of [d]: level 1, 2000 coins, an empty
    roster, no selection, the unlocked difficulty and the stored key
    unchanged, the loading flag set and one more pending load, of level
    1 of [d] with no player unit.  The phase is not changed until the
    load completes, so the difficulty screen stays up with the same
    button enabled. *)
Theorem difficulty_button_starts_run a now d :
  screenRendered (st a) (BtnDifficulty d) = true ->
  let a' := screenClick a now (BtnDifficulty d) in
  (getDifficultyRank (maxUnlockedDifficulty (st a)) < getDifficultyRank d -> a' = a) /\
  (getDifficultyRank d <= getDifficultyRank (maxUnlockedDifficulty (st a)) ->
     difficulty (st a') = d /\ gameLevel (st a') = 1 /\ coins (st a') = 2000 /\ entities (st a') = [] /\
     selectedUnit (st a') = None /\ phase (st a') = DIFFICULTY_SELECT /\
     maxUnlockedDifficulty (st a') = maxUnlockedDifficulty (st a) /\ storage a' = storage a /\
     loadingLevel a' = true /\ pending a' = pending a ++ [mkPendingLoad [] 1 d] /\
     screenRendered (st a') (BtnDifficulty d) = true /\ screenDisabled (st a') (BtnDifficulty d) = false).
Proof.
  intros Hr%bool_decide_eq_true_1. cbv zeta. unfold screenClick. split.
  - intros Hlt. destruct (isUnlocked (st a) d) eqn:E; [apply isUnlocked_spec in E; lia | done].
  - intros Hle. pose proof Hle as E%isUnlocked_spec. rewrite E. unfold persistEffect.
    rewrite decide_True by reflexivity.
    cbn [screenRendered screenDisabled st startGame loadLevel_start set_st set_pending set_loadingLevel
         storage loadingLevel pending].
    split_and!; try reflexivity; [exact Hr | apply bool_decide_eq_true_2; exact Hr | exact (f_equal negb E)].
Qed.


(** C36: In every state the component reaches from its first render, the
    badge of the research card is lit exactly when the coins reach
    [TECH_COST_BASE] = 100, whatever the research rows cost: the badge's
    [some] ranges over every unit type, and the mythic types, which the
    research list leaves out, keep research level 1.  Once each listed
    type has been researched, the badge invites a research that no row
    can pay ([research_badge_without_row]). *)
Theorem research_badge_ignores_costs `{MathSqrt} saved now a :
  rtc app_step (initApp saved now) a -> hasUpgradable (st a) = (TECH_COST_BASE <=? coins (st a)).
Proof.
  intros Hr. apply hasUpgradable_base; [apply (hi_session _ (health_reachable _ _ _ Hr)) |].
  exact (mythic_reachable saved now a Hr).
Qed.

(** C37: While a unit is dragged, every unit of a roster with distinct
    ids is drawn exactly once: the dragged one by the preview and not by
    the unit layer, every other one by the unit layer and not by the
    preview. *)
Theorem unit_drawn_once es did pos e :
  NoDup (id <$> es) -> e ∈ es -> did <> "" ->
  (e ∈ unitLayer es (Some did) <-> dragPreview es (Some did) (Some pos) <> Some e).
Proof.
  intros Hnd He Hd. unfold unitLayer, dragPreview. rewrite bool_decide_eq_false_2 by done.
  rewrite list_elem_of_filter. destruct (decide (id e = did)) as [<-|Hne].
  - rewrite find_hasId_unique by done. naive_solver.
  - split; [intros _ Hf | intros _; split; [congruence | done]].
    apply List.find_some in Hf as [_ Hid%bool_decide_eq_true_1]. congruence.
Qed.

Lemma difficulty_button_starts_run_witness :
  let a := initApp None 0 in
  screenRendered (st a) (BtnDifficulty HARD) = true /\
  screenClick a 0 (BtnDifficulty HARD) = a.
Proof.
  intros a. assert (Hr : screenRendered (st a) (BtnDifficulty HARD) = true) by (vm_compute; reflexivity).
  split; [exact Hr|]. apply (proj1 (difficulty_button_starts_run a 0 HARD Hr)). vm_compute. reflexivity.
Defined.

Lemma research_badge_ignores_costs_witness :
  let a := screenClick (initApp None 0) 0 (BtnDifficulty NORMAL) in
  rtc app_step (initApp None 0) a /\ hasUpgradable (st a) = true.
Proof.
  intros a. assert (Hr : rtc app_step (initApp None 0) a).
  { apply rtc_once. apply ev_select; [reflexivity | vm_compute; discriminate]. }
  split; [exact Hr|]. rewrite (research_badge_ignores_costs None 0 a Hr). reflexivity.
Defined.

Lemma unit_drawn_once_witness :
  NoDup (id <$> [archer1; archer2]) /\ archer2 ∈ [archer1; archer2] /\ ("a1" <> "")%string /\
  archer2 ∈ unitLayer [archer1; archer2] (Some "a1").
Proof.
  assert (Hnd : NoDup (id <$> [archer1; archer2])) by (apply (bool_decide_unpack _); vm_compute; reflexivity).
  assert (He : archer2 ∈ [archer1; archer2]) by (apply list_elem_of_In; right; left; done).
  assert (Hd : ("a1" <> "")%string) by discriminate.
  split_and!; [exact Hnd | exact He | exact Hd |].
  apply (unit_drawn_once _ "a1" (0, 0)%Q _ Hnd He Hd). vm_compute. discriminate.
Defined.
